(** * Hazard monitoring and alert lifecycle engine

    A shallow embedding of the scheduler service, the earthquake service and
    the parts of the weather service and the admin routes they touch
    (services/scheduler.js, services/earthquakeService.js,
    services/weatherService.js, the settings and simulator routes).

    Modelling conventions.
    - A JavaScript number is an IEEE-754 binary64 value: Rocq's primitive
      [float].  The relational operators [<], [>], [<=], [>=] on numbers are
      [PrimFloat.ltb] and [PrimFloat.leb] with the operands in the order
      ECMAScript evaluates them; anything compared with NaN is false.
    - A value that is a number, [null] or [undefined] is an [option float];
      the code never tells [null] from [undefined] where such a value is
      read ([x === undefined || x === null], [!x] on objects).
    - The relational store is an in-memory record of tables; a table is the
      list of its rows in insertion order.  [db.execute] is a total function
      on the store, so the [catch] handlers, which only log, have nothing
      to catch.  [console.log] is not modelled.  Columns the engine never
      reads or writes ([expires_at], [description] of a disaster, ...) are
      left out.
    - A call of an [async] function is modelled as running alone, from its
      first statement to its last; interleavings of the two loops at
      [await] points are not modelled.
    - [Math.sin], [Math.cos], [Math.atan2], [Math.sqrt] and the conversion
      of a number to a string belong to the JavaScript runtime and are
      parameters of the development. *)

From Stdlib Require Import ZArith List String Ascii Bool Lia Floats.
From Stdlib Require Import DecimalString.
From stdpp Require Import gmap strings.
Import ListNotations.

Local Open Scope Z_scope.
Local Open Scope string_scope.
Local Open Scope list_scope.

(** ** IEEE-754 comparison facts

    The order of [SFcompare] is the one the primitive comparisons implement
    ([ltb_spec], [leb_spec], [eqb_spec]). *)

Module FloatOrder.

Lemma SFcompare_swap (x y : spec_float) :
  SFcompare y x = option_map CompOpp (SFcompare x y).
Proof.
  destruct x as [sx|sx| |sx mx ex], y as [sy|sy| |sy my ey]; simpl;
    try reflexivity;
    try (destruct sx; reflexivity); try (destruct sy; reflexivity);
    try (destruct sx, sy; reflexivity).
  destruct sx, sy; simpl; try reflexivity;
    rewrite (Z.compare_antisym ex ey);
    destruct (ex ?= ey)%Z eqn:E; simpl; try reflexivity;
    change (Pos.compare_cont Eq my mx) with (my ?= mx)%positive;
    change (Pos.compare_cont Eq mx my) with (mx ?= my)%positive;
    rewrite (Pos.compare_antisym mx my);
    destruct (mx ?= my)%positive; reflexivity.
Qed.

Lemma Zcompare_lt_trans (a b c : Z) :
  (a ?= b)%Z = Lt -> (b ?= c)%Z = Lt -> (a ?= c)%Z = Lt.
Proof. rewrite !Z.compare_lt_iff. lia. Qed.

Lemma Poscompare_lt_trans (a b c : positive) :
  (a ?= b)%positive = Lt -> (b ?= c)%positive = Lt -> (a ?= c)%positive = Lt.
Proof. rewrite !Pos.compare_lt_iff. lia. Qed.

Lemma SFcompare_lt_trans (x y z : spec_float) :
  SFcompare x y = Some Lt -> SFcompare y z = Some Lt ->
  SFcompare x z = Some Lt.
Proof.
  destruct x as [sx|sx| |sx mx ex], y as [sy|sy| |sy my ey],
           z as [sz|sz| |sz mz ez]; simpl;
    try discriminate; try reflexivity;
    repeat match goal with s : bool |- _ => destruct s end;
    simpl; try discriminate; try reflexivity; intros Hxy Hyz.
  - (* three negative finite numbers *)
    destruct (ex ?= ey)%Z eqn:Exy; try discriminate;
    destruct (ey ?= ez)%Z eqn:Eyz; try discriminate;
    repeat match goal with
           | H : (_ ?= _)%Z = Eq |- _ => apply Z.compare_eq in H; subst
           end;
    rewrite ?Z.compare_refl, ?Exy, ?Eyz; try reflexivity.
    + change (Pos.compare_cont Eq) with Pos.compare in *.
      destruct (mx ?= my)%positive eqn:Mxy; try discriminate.
      destruct (my ?= mz)%positive eqn:Myz; try discriminate.
      apply Pos.compare_gt_iff in Mxy, Myz.
      assert ((mx ?= mz)%positive = Gt) as -> by (apply Pos.compare_gt_iff; lia).
      reflexivity.
    + apply Z.compare_gt_iff in Exy, Eyz.
      assert ((ex ?= ez)%Z = Gt) as -> by (apply Z.compare_gt_iff; lia).
      reflexivity.
  - (* three positive finite numbers *)
    destruct (ex ?= ey)%Z eqn:Exy; try discriminate;
    destruct (ey ?= ez)%Z eqn:Eyz; try discriminate;
    repeat match goal with
           | H : (_ ?= _)%Z = Eq |- _ => apply Z.compare_eq in H; subst
           end;
    rewrite ?Z.compare_refl, ?Exy, ?Eyz; try reflexivity.
    + change (Pos.compare_cont Eq) with Pos.compare in *.
      injection Hxy as Hxy. injection Hyz as Hyz.
      now rewrite (Poscompare_lt_trans mx my mz).
    + now rewrite (Zcompare_lt_trans ex ey ez).
Qed.

(** [a < b] excludes [b <= a]. *)
Lemma ltb_not_leb (a b : float) :
  PrimFloat.ltb a b = true -> PrimFloat.leb b a = false.
Proof.
  rewrite FloatAxioms.ltb_spec, FloatAxioms.leb_spec. unfold SFltb, SFleb.
  rewrite (SFcompare_swap (Prim2SF a) (Prim2SF b)).
  destruct (SFcompare (Prim2SF a) (Prim2SF b)) as [[]|]; simpl; congruence.
Qed.

(** IEEE equality gives [<=] in both directions. *)
Lemma eqb_leb (a b : float) :
  PrimFloat.eqb a b = true -> PrimFloat.leb a b = true /\ PrimFloat.leb b a = true.
Proof.
  rewrite FloatAxioms.eqb_spec, !FloatAxioms.leb_spec. unfold SFeqb, SFleb.
  rewrite (SFcompare_swap (Prim2SF a) (Prim2SF b)).
  destruct (SFcompare (Prim2SF a) (Prim2SF b)) as [[]|]; simpl; try discriminate.
  auto.
Qed.

Lemma ltb_trans (a b c : float) :
  PrimFloat.ltb a b = true -> PrimFloat.ltb b c = true -> PrimFloat.ltb a c = true.
Proof.
  rewrite !FloatAxioms.ltb_spec. unfold SFltb. intros Hab Hbc.
  destruct (SFcompare (Prim2SF a) (Prim2SF b)) as [[]|] eqn:E1; try discriminate.
  destruct (SFcompare (Prim2SF b) (Prim2SF c)) as [[]|] eqn:E2; try discriminate.
  now rewrite (SFcompare_lt_trans _ _ _ E1 E2).
Qed.

(** Raising the running maximum keeps every earlier candidate below it:
    if [c] is not above [m] and [m < m'], then [c] is not above [m']. *)
Lemma not_above_raise (m m' c : float) :
  PrimFloat.ltb m c = false -> PrimFloat.ltb m m' = true ->
  PrimFloat.ltb m' c = false.
Proof.
  intros Hmc Hmm'. destruct (PrimFloat.ltb m' c) eqn:E; [|reflexivity].
  rewrite (ltb_trans m m' c Hmm' E) in Hmc. discriminate.
Qed.

Lemma ltb_irrefl (a : float) : PrimFloat.ltb a a = false.
Proof.
  rewrite FloatAxioms.ltb_spec. unfold SFltb.
  destruct (SFcompare (Prim2SF a) (Prim2SF a)) as [[]|] eqn:E; try reflexivity.
  pose proof (SFcompare_swap (Prim2SF a) (Prim2SF a)) as H.
  rewrite E in H. discriminate.
Qed.

End FloatOrder.

(** The order is total on operands that are not NaN ([x === x]). *)
Lemma float_total (a b : float) :
  PrimFloat.eqb a a = true -> PrimFloat.eqb b b = true ->
  PrimFloat.ltb a b = false -> PrimFloat.leb b a = true.
Proof.
  rewrite !FloatAxioms.eqb_spec, FloatAxioms.ltb_spec, FloatAxioms.leb_spec.
  unfold SFeqb, SFltb, SFleb.
  rewrite (FloatOrder.SFcompare_swap (Prim2SF a) (Prim2SF b)).
  destruct (Prim2SF a) as [sa|sa| |sa ma ea], (Prim2SF b) as [sb|sb| |sb mb eb];
    simpl; try discriminate; intros _ _;
    repeat match goal with s : bool |- _ => destruct s end;
    simpl; try congruence;
    destruct (ea ?= eb)%Z; simpl; try congruence;
    destruct (Pos.compare_cont Eq ma mb); simpl; congruence.
Qed.

(** ** JavaScript operators used by the services *)

(** [ToNumber] of an operand that is a number or [null]: [null] is [+0]. *)
Definition ToNumber (v : option float) : float :=
  match v with
  | Some x => x
  | None => 0%float
  end.

(** [a > b], [a < b], [a >= b], [a <= b] on numbers. *)
Definition js_gt (a b : float) : bool := PrimFloat.ltb b a.
Definition js_lt (a b : float) : bool := PrimFloat.ltb a b.
Definition js_ge (a b : float) : bool := PrimFloat.leb b a.
Definition js_le (a b : float) : bool := PrimFloat.leb a b.

(** [s || d] on a string column that may be NULL: the empty string and
    [null] are both falsy. *)
Definition js_or (s : option string) (d : string) : string :=
  match s with
  | Some x => if String.eqb x "" then d else x
  | None => d
  end.

(** [Math.max(a, b)] where an operand may be NaN ([None]): NaN wins. *)
Definition Math_max (a b : option Z) : option Z :=
  match a, b with
  | Some x, Some y => Some (Z.max x y)
  | _, _ => None
  end.

(** [parseInt(s, 10)]: skip leading white space, read an optional sign,
    then the longest run of decimal digits; NaN ([None]) when there is no
    digit.  The result is the integer read (the double nearest to it in
    JavaScript, the same number below 2^53).  White space is the ASCII
    part of [StrWhiteSpaceChar]. *)
Definition is_white_space (c : ascii) : bool :=
  let n := N_of_ascii c in
  (N.eqb n 32 || (N.leb 9 n && N.leb n 13))%bool.

Fixpoint trim_start (s : string) : string :=
  match s with
  | String c r => if is_white_space c then trim_start r else s
  | EmptyString => s
  end.

Definition digit_value (c : ascii) : option Z :=
  let n := Z.of_N (N_of_ascii c) in
  if (Z.leb 48 n && Z.leb n 57)%bool then Some (n - 48) else None.

Fixpoint parse_digits (acc : option Z) (s : string) : option Z :=
  match s with
  | String c r =>
      match digit_value c with
      | Some d =>
          parse_digits
            (Some (10 * match acc with Some a => a | None => 0 end + d)) r
      | None => acc
      end
  | EmptyString => acc
  end.

Definition parseInt (s : string) : option Z :=
  match trim_start s with
  | String "-" r => Z.opp <$> parse_digits None r
  | String "+" r => parse_digits None r
  | r => parse_digits None r
  end.

(** ** Seismic feed *)

(** One GeoJSON feature of the USGS feed: [eq.id],
    [eq.geometry.coordinates] (longitude, latitude, depth),
    [eq.properties.mag] (a number or [null]), [eq.properties.place],
    [eq.properties.time]. *)
Record Feature := mkFeature {
  feature_id : string;
  coordinates : list float;
  mag : option float;
  feature_place : string;
  feature_time : Z
}.

(** The object [checkEarthquakesNearLocation] returns and
    [checkRulesAndAlert] receives; the simulator builds one without
    [distance] and [time]. *)
Record EarthquakeData := mkEarthquakeData {
  eq_id : string;
  magnitude : option float;
  distance : option float;
  place : string;
  time : option Z
}.


(** ** Relational store (schema.sql)

    Each table row is a record named after its table; a column keeps its
    name.  [INT] columns are [Z], [FLOAT] columns are [float], [BOOLEAN]
    columns are [bool], a nullable column is an [option], [TIMESTAMP]
    columns are seconds on the database clock. *)

Module Location.
Record t := mk {
  id : Z;
  name : string;
  latitude : float;
  longitude : float;
  is_active : bool
}.
End Location.

Module Disaster.
Record t := mk {
  id : Z;
  name : string;
  is_active : bool
}.
End Disaster.

Module Rule.
Record t := mk {
  id : Z;
  location_id : option Z;
  disaster_id : Z;
  weather_condition : string;
  threshold_value : float;
  operator : string;
  severity_level : option string;
  message_template : option string;
  is_active : bool
}.
End Rule.

Module Alert.
Record t := mk {
  id : Z;
  disaster_id : Z;
  location_id : Z;
  title : string;
  description : string;
  severity : string;
  source : string;
  is_active : bool;
  external_id : option string;
  created_at : Z
}.
End Alert.

(** [weather_logs] without its JSON [data] column. *)
Module WeatherLog.
Record t := mk {
  location_id : Z;
  temperature : option float;
  humidity : option float;
  rain_sum : option float;
  wind_speed : option float;
  aqi : option float;
  earthquake_magnitude : option float;
  earthquake_id : option string;
  fetched_at : Z
}.
End WeatherLog.

Module EarthquakeLog.
Record t := mk {
  location_id : Z;
  magnitude : float;
  usgs_id : string;
  is_manual : bool;
  fetched_at : Z
}.
End EarthquakeLog.

(** The store: the tables, the [AUTO_INCREMENT] counter of [alerts], the
    settings (a key to string mapping) and the database clock [now], which
    [CURRENT_TIMESTAMP] and [NOW()] read. *)
Record Store := mkStore {
  locations : list Location.t;
  disasters : list Disaster.t;
  alert_rules : list Rule.t;
  alerts : list Alert.t;
  alerts_auto_increment : Z;
  weather_logs : list WeatherLog.t;
  earthquake_logs : list EarthquakeLog.t;
  settings : gmap string string;
  now : Z
}.

(** The object [fetchWeatherData] returns ([current] of the forecast
    merged with [us_aqi]); a field may be [null] or missing. *)
Record WeatherData := mkWeatherData {
  temperature_2m : option float;
  relative_humidity_2m : option float;
  rain : option float;
  wind_speed_10m : option float;
  us_aqi : option float
}.

(** [ruleTarget]: ['weather'], ['earthquake'], or [null] ([None]). *)
Inductive RuleTarget := weather | earthquake.

Definition is_weather (t : option RuleTarget) : bool :=
  match t with Some weather => true | _ => false end.

Definition is_earthquake (t : option RuleTarget) : bool :=
  match t with Some earthquake => true | _ => false end.

(** The two sets the rule loop fills, and the store it writes. *)
Record Cycle := mkCycle {
  db : Store;
  triggeredDisasterIds : gset Z;
  earthquakeDisasterIds : gset Z
}.

(** *** Store operations on [alerts] *)

Definition set_alerts (rows : list Alert.t) (s : Store) : Store :=
  {| locations := locations s; disasters := disasters s;
     alert_rules := alert_rules s; alerts := rows;
     alerts_auto_increment := alerts_auto_increment s;
     weather_logs := weather_logs s; earthquake_logs := earthquake_logs s;
     settings := settings s; now := now s |}.

(** [WHERE disaster_id = ? AND location_id = ? AND is_active = 1] *)
Definition active_for (disaster_id location_id : Z) (a : Alert.t) : bool :=
  Z.eqb (Alert.disaster_id a) disaster_id &&
  Z.eqb (Alert.location_id a) location_id &&
  Alert.is_active a.

(** [WHERE external_id = ? AND location_id = ?]; a NULL [external_id]
    matches nothing. *)
Definition carries (external_id : string) (location_id : Z) (a : Alert.t) : bool :=
  match Alert.external_id a with
  | Some x => String.eqb x external_id
  | None => false
  end && Z.eqb (Alert.location_id a) location_id.

(** [SELECT id FROM alerts WHERE external_id = ? AND location_id = ?] *)
Definition select_by_external_id (external_id : string) (location_id : Z)
    (s : Store) : list Z :=
  map Alert.id (List.filter (carries external_id location_id) (alerts s)).

(** [SELECT id FROM alerts WHERE disaster_id = ? AND location_id = ? AND
    is_active = 1] *)
Definition select_active (disaster_id location_id : Z) (s : Store) : list Z :=
  map Alert.id (List.filter (active_for disaster_id location_id) (alerts s)).

(** The same with [ORDER BY created_at DESC LIMIT 1]: the caller only
    tests whether a row came back. *)
Definition select_active_limit_1 (disaster_id location_id : Z) (s : Store)
    : list Z :=
  firstn 1 (select_active disaster_id location_id s).

Definition deactivate_row (a : Alert.t) : Alert.t :=
  {| Alert.id := Alert.id a; Alert.disaster_id := Alert.disaster_id a;
     Alert.location_id := Alert.location_id a; Alert.title := Alert.title a;
     Alert.description := Alert.description a;
     Alert.severity := Alert.severity a; Alert.source := Alert.source a;
     Alert.is_active := false; Alert.external_id := Alert.external_id a;
     Alert.created_at := Alert.created_at a |}.

(** [UPDATE alerts SET is_active = 0 WHERE disaster_id = ? AND
    location_id = ? AND is_active = 1] *)
Definition deactivate (disaster_id location_id : Z) (s : Store) : Store :=
  set_alerts
    (map (fun a => if active_for disaster_id location_id a
                   then deactivate_row a else a) (alerts s)) s.

(** The row an [INSERT INTO alerts (disaster_id, location_id, title,
    description, severity, source, external_id)] adds: [id] from the
    counter, [is_active] and [created_at] from their defaults. *)
Definition new_alert (id disaster_id location_id : Z)
    (title description severity source : string)
    (external_id : option string) (created_at : Z) : Alert.t :=
  {| Alert.id := id;
     Alert.disaster_id := disaster_id;
     Alert.location_id := location_id;
     Alert.title := title; Alert.description := description;
     Alert.severity := severity; Alert.source := source;
     Alert.is_active := true; Alert.external_id := external_id;
     Alert.created_at := created_at |}.

Definition insert_alert (disaster_id location_id : Z)
    (title description severity source : string)
    (external_id : option string) (s : Store) : Store :=
  {| locations := locations s; disasters := disasters s;
     alert_rules := alert_rules s;
     alerts := alerts s ++
       [ new_alert (alerts_auto_increment s) disaster_id location_id
           title description severity source external_id (now s) ];
     alerts_auto_increment := alerts_auto_increment s + 1;
     weather_logs := weather_logs s; earthquake_logs := earthquake_logs s;
     settings := settings s; now := now s |}.

(** The rules query of [checkRulesAndAlert]: [alert_rules] joined with
    [disasters] on the disaster id, where the rule is for this location or
    global, and the disaster and the rule are active.  Rows come in table
    order. *)
Definition select_rules (location_id : Z) (s : Store) : list Rule.t :=
  flat_map
    (fun ar =>
       map (fun _ => ar)
         (List.filter
            (fun d => Z.eqb (Disaster.id d) (Rule.disaster_id ar) &&
                      match Rule.location_id ar with
                      | Some l => Z.eqb l location_id
                      | None => true
                      end &&
                      Disaster.is_active d && Rule.is_active ar)
            (disasters s)))
    (alert_rules s).

(** [SELECT * FROM locations WHERE is_active = 1] *)
Definition select_active_locations (s : Store) : list Location.t :=
  List.filter Location.is_active (locations s).

Section Engine.

(** The JavaScript runtime: [Math.sin], [Math.cos], [Math.sqrt],
    [Math.atan2] and the string a template literal prints for a number. *)
Variables Math_sin Math_cos Math_sqrt : float -> float.
Variable Math_atan2 : float -> float -> float.
Variable Number_toString : float -> string.

(** [Math.PI], the double nearest to pi. *)
Definition Math_PI : float := 0x1.921fb54442d18p+1%float.

(** ** earthquakeService.js *)

Definition deg2rad (deg : float) : float :=
  (deg * (Math_PI / 180))%float.

(** Haversine distance in kilometres. *)
Definition getDistanceFromLatLonInKm (lat1 lon1 lat2 lon2 : float) : float :=
  let R := 6371%float in
  let dLat := deg2rad (lat2 - lat1)%float in
  let dLon := deg2rad (lon2 - lon1)%float in
  let a :=
    (Math_sin (dLat / 2) * Math_sin (dLat / 2) +
     Math_cos (deg2rad lat1) * Math_cos (deg2rad lat2) *
     Math_sin (dLon / 2) * Math_sin (dLon / 2))%float in
  let c := (2 * Math_atan2 (Math_sqrt a) (Math_sqrt (1 - a)))%float in
  (R * c)%float.

(** [eq.geometry.coordinates[i]]: an index past the end reads [undefined],
    which the arithmetic of the distance turns into NaN. *)
Definition coordinate (eq : Feature) (i : nat) : float :=
  nth i (coordinates eq) nan.

(** The distance of a feed event from the target. *)
Definition event_distance (lat lon : float) (eq : Feature) : float :=
  let eqLon := coordinate eq 0 in
  let eqLat := coordinate eq 1 in
  getDistanceFromLatLonInKm lat lon eqLat eqLon.

(** [distance <= radiusKm] *)
Definition within_radius (lat lon radiusKm : float) (eq : Feature) : bool :=
  js_le (event_distance lat lon eq) radiusKm.

(** The object literal assigned to [maxEq]. *)
Definition candidate (lat lon : float) (eq : Feature) : EarthquakeData :=
  {| eq_id := feature_id eq;
     magnitude := mag eq;
     distance := Some (event_distance lat lon eq);
     place := feature_place eq;
     time := Some (feature_time eq) |}.

(** [magnitude > maxEq.magnitude] on operands that are numbers or [null]. *)
Definition stronger (m1 m2 : option float) : bool :=
  js_gt (ToNumber m1) (ToNumber m2).

(** One iteration of the loop over the feed. *)
Definition consider (lat lon radiusKm : float)
    (maxEq : option EarthquakeData) (eq : Feature) : option EarthquakeData :=
  if within_radius lat lon radiusKm eq then
    match maxEq with
    | None => Some (candidate lat lon eq)
    | Some m =>
        if stronger (mag eq) (magnitude m) then Some (candidate lat lon eq)
        else maxEq
    end
  else maxEq.

Definition checkEarthquakesNearLocation (earthquakes : list Feature)
    (lat lon radiusKm : float) : option EarthquakeData :=
  fold_left (consider lat lon radiusKm) earthquakes None.

(** The default of the parameter [radiusKm]. *)
Definition default_radiusKm : float := 500%float.

(** What the loop maintains about the events it has seen. *)
Definition strongest_of (lat lon radiusKm : float) (seen : list Feature)
    (maxEq : option EarthquakeData) : Prop :=
  match maxEq with
  | None => Forall (fun eq => within_radius lat lon radiusKm eq = false) seen
  | Some m =>
      (exists eq, In eq seen /\ within_radius lat lon radiusKm eq = true /\
                  m = candidate lat lon eq) /\
      Forall (fun eq => within_radius lat lon radiusKm eq = true ->
                        stronger (mag eq) (magnitude m) = false) seen
  end.

Lemma stronger_irrefl (m : option float) : stronger m m = false.
Proof. apply FloatOrder.ltb_irrefl. Qed.

Lemma stronger_raise (m m' c : option float) :
  stronger c m = false -> stronger m' m = true -> stronger c m' = false.
Proof. unfold stronger, js_gt. apply FloatOrder.not_above_raise. Qed.

Lemma consider_strongest (lat lon radiusKm : float) (seen : list Feature)
    (maxEq : option EarthquakeData) (eq : Feature) :
  strongest_of lat lon radiusKm seen maxEq ->
  strongest_of lat lon radiusKm (seen ++ [eq])
    (consider lat lon radiusKm maxEq eq).
Proof.
  unfold consider, strongest_of. intros Hinv.
  destruct (within_radius lat lon radiusKm eq) eqn:Hin.
  - destruct maxEq as [m|]; simpl in *.
    + destruct Hinv as [(e0 & He0 & Hw0 & ->) Hall]. simpl in *.
      destruct (stronger (mag eq) (mag e0)) eqn:Hgt; simpl.
      * split.
        -- exists eq. rewrite in_app_iff. simpl. auto.
        -- apply Forall_app. split.
           ++ eapply List.Forall_impl; [|exact Hall]. simpl. intros e He Hwe.
              eapply stronger_raise; eauto.
           ++ constructor; [|constructor]. intros _. apply stronger_irrefl.
      * split.
        -- exists e0. rewrite in_app_iff. auto.
        -- apply Forall_app. split; [exact Hall|].
           constructor; [|constructor]. intros _. exact Hgt.
    + split.
      * exists eq. rewrite in_app_iff. simpl. auto.
      * apply Forall_app. split.
        -- eapply List.Forall_impl; [|exact Hinv]. simpl. intros e He Hwe. congruence.
        -- constructor; [|constructor]. intros _. apply stronger_irrefl.
  - destruct maxEq as [m|]; simpl in *.
    + destruct Hinv as [(e0 & He0 & Hw0 & ->) Hall]. split.
      * exists e0. rewrite in_app_iff. auto.
      * apply Forall_app. split; [exact Hall|].
        constructor; [|constructor]. congruence.
    + apply Forall_app. split; [exact Hinv|]. constructor; [exact Hin|constructor].
Qed.

Lemma fold_consider_strongest (lat lon radiusKm : float)
    (rest seen : list Feature) (maxEq : option EarthquakeData) :
  strongest_of lat lon radiusKm seen maxEq ->
  strongest_of lat lon radiusKm (seen ++ rest)
    (fold_left (consider lat lon radiusKm) rest maxEq).
Proof.
  revert seen maxEq. induction rest as [|eq rest IH]; intros seen maxEq Hinv.
  - rewrite app_nil_r. exact Hinv.
  - simpl. replace (seen ++ eq :: rest) with ((seen ++ [eq]) ++ rest)
      by (rewrite <- app_assoc; reflexivity).
    apply IH. apply consider_strongest. exact Hinv.
Qed.

(** ** scheduler.js: rule evaluation and the alert lifecycle *)

(** The [switch] on [rule.weather_condition]: the current value and the
    data source of the rule.  [weatherData?.rain] is [undefined] when
    [weatherData] is [null]. *)
Definition resolve_condition (rule : Rule.t)
    (weatherData : option WeatherData)
    (earthquakeData : option EarthquakeData)
    : option float * option RuleTarget :=
  let c := Rule.weather_condition rule in
  if String.eqb c "rain_sum" then
    (weatherData ≫= rain, Some weather)
  else if String.eqb c "wind_speed" then
    (weatherData ≫= wind_speed_10m, Some weather)
  else if String.eqb c "temperature" then
    (weatherData ≫= temperature_2m, Some weather)
  else if String.eqb c "humidity" then
    (weatherData ≫= relative_humidity_2m, Some weather)
  else if String.eqb c "aqi" then
    (weatherData ≫= us_aqi, Some weather)
  else if String.eqb c "earthquake_magnitude" then
    (earthquakeData ≫= magnitude, Some earthquake)
  else (None, None).

(** The four [if]s that set [triggered]. *)
Definition evaluate_operator (operator : string)
    (currentValue threshold_value : float) : bool :=
  let triggered := false in
  let triggered :=
    if String.eqb operator ">" && js_gt currentValue threshold_value
    then true else triggered in
  let triggered :=
    if String.eqb operator "<" && js_lt currentValue threshold_value
    then true else triggered in
  let triggered :=
    if String.eqb operator ">=" && js_ge currentValue threshold_value
    then true else triggered in
  let triggered :=
    if String.eqb operator "<=" && js_le currentValue threshold_value
    then true else triggered in
  triggered.

Definition add_triggered (disaster_id : Z) (st : Cycle) : Cycle :=
  {| db := db st;
     triggeredDisasterIds := {[ disaster_id ]} ∪ triggeredDisasterIds st;
     earthquakeDisasterIds := earthquakeDisasterIds st |}.

Definition add_earthquake (disaster_id : Z) (st : Cycle) : Cycle :=
  {| db := db st;
     triggeredDisasterIds := triggeredDisasterIds st;
     earthquakeDisasterIds := {[ disaster_id ]} ∪ earthquakeDisasterIds st |}.

Definition with_db (s : Store) (st : Cycle) : Cycle :=
  {| db := s;
     triggeredDisasterIds := triggeredDisasterIds st;
     earthquakeDisasterIds := earthquakeDisasterIds st |}.

Definition alert_title (rule : Rule.t) (fallback : string) : string :=
  "Automated Alert: " ++ js_or (Rule.message_template rule) fallback.

Definition earthquake_description (rule : Rule.t) (currentValue : float)
    (earthquakeData : EarthquakeData) : string :=
  "Magnitude " ++ Number_toString currentValue ++ " detected. Epicenter: " ++
  place earthquakeData ++ ". Threshold: " ++
  Number_toString (Rule.threshold_value rule) ++ ".".

Definition weather_description (rule : Rule.t) (currentValue : float) : string :=
  Rule.weather_condition rule ++ " is " ++ Number_toString currentValue ++
  " (threshold: " ++ Number_toString (Rule.threshold_value rule) ++ ").".

(** The earthquake branch of a triggered rule: dedup by USGS event id,
    then deactivate and insert. *)
Definition trigger_earthquake (location : Location.t) (rule : Rule.t)
    (currentValue : float) (earthquakeData : EarthquakeData) (s : Store)
    : Store :=
  let existing :=
    select_by_external_id (eq_id earthquakeData) (Location.id location) s in
  if (0 <? length existing)%nat then s
  else
    let s := deactivate (Rule.disaster_id rule) (Location.id location) s in
    let title := alert_title rule "Seismic Event Detected" in
    let description := earthquake_description rule currentValue earthquakeData in
    insert_alert (Rule.disaster_id rule) (Location.id location) title
      description (js_or (Rule.severity_level rule) "Medium") "System"
      (Some (eq_id earthquakeData)) s.

(** The weather branch of a triggered rule: deactivate the active alert
    if there is one, then insert. *)
Definition trigger_weather (location : Location.t) (rule : Rule.t)
    (currentValue : float) (s : Store) : Store :=
  let existingRows :=
    select_active_limit_1 (Rule.disaster_id rule) (Location.id location) s in
  let s :=
    if (0 <? length existingRows)%nat
    then deactivate (Rule.disaster_id rule) (Location.id location) s
    else s in
  let title := alert_title rule "Hazard Detected" in
  let description := weather_description rule currentValue in
  insert_alert (Rule.disaster_id rule) (Location.id location) title
    description (js_or (Rule.severity_level rule) "Medium") "System" None s.

(** The body of [for (const rule of rules)].  A [continue] returns the
    state reached so far. *)
Definition process_rule (location : Location.t)
    (weatherData : option WeatherData)
    (earthquakeData : option EarthquakeData)
    (st : Cycle) (rule : Rule.t) : Cycle :=
  let '(currentValue, ruleTarget) :=
    resolve_condition rule weatherData earthquakeData in
  if (is_weather ruleTarget && negb (bool_decide (is_Some weatherData))) ||
     (is_earthquake ruleTarget && negb (bool_decide (is_Some earthquakeData)))
  then
    if is_earthquake ruleTarget
    then add_earthquake (Rule.disaster_id rule) st
    else st
  else
    let st :=
      if is_earthquake ruleTarget
      then add_earthquake (Rule.disaster_id rule) st
      else st in
    match currentValue with
    | None => st
    | Some v =>
        if evaluate_operator (Rule.operator rule) v (Rule.threshold_value rule)
        then
          let st := add_triggered (Rule.disaster_id rule) st in
          if is_earthquake ruleTarget then
            match earthquakeData with
            | Some ed => with_db (trigger_earthquake location rule v ed (db st)) st
            | None => st (* not reached: the rule was skipped above *)
            end
          else with_db (trigger_weather location rule v (db st)) st
        else st
    end.

(** One step of the auto-deactivation pass. *)
Definition auto_deactivate_one (location : Location.t) (triggered : gset Z)
    (s : Store) (disasterId : Z) : Store :=
  if bool_decide (disasterId ∈ triggered) then s
  else
    let activeAlerts := select_active disasterId (Location.id location) s in
    if (0 <? length activeAlerts)%nat
    then deactivate disasterId (Location.id location) s
    else s.

(** [rules.filter(r => r.weather_condition !== 'earthquake_magnitude')
         .map(r => r.disaster_id)] *)
Definition weatherDisasterIds (rules : list Rule.t) : list Z :=
  map Rule.disaster_id
    (List.filter
       (fun r => negb (String.eqb (Rule.weather_condition r)
                                  "earthquake_magnitude")) rules).

(** The auto-deactivation pass (weather only). *)
Definition auto_deactivate (location : Location.t) (rules : list Rule.t)
    (triggered : gset Z) (s : Store) : Store :=
  fold_left (auto_deactivate_one location triggered) (weatherDisasterIds rules) s.

Definition start_cycle (s : Store) : Cycle :=
  {| db := s; triggeredDisasterIds := ∅; earthquakeDisasterIds := ∅ |}.

(** [checkRulesAndAlert] once the rules have been fetched. *)
Definition evaluate_rules (location : Location.t)
    (weatherData : option WeatherData)
    (earthquakeData : option EarthquakeData)
    (rules : list Rule.t) (s : Store) : Store :=
  let st :=
    fold_left (process_rule location weatherData earthquakeData) rules
      (start_cycle s) in
  match weatherData with
  | Some _ => auto_deactivate location rules (triggeredDisasterIds st) (db st)
  | None => db st
  end.

Definition checkRulesAndAlert (location : Location.t)
    (weatherData : option WeatherData)
    (earthquakeData : option EarthquakeData) (s : Store) : Store :=
  evaluate_rules location weatherData earthquakeData
    (select_rules (Location.id location) s) s.

(** ** weatherService.js and earthquakeService.js: logging *)

(** A number that is falsy: [+0], [-0] or NaN. *)
Definition falsy_number (x : float) : bool :=
  PrimFloat.eqb x 0 || negb (PrimFloat.eqb x x).

(** [v || null] on a number that may be [null]. *)
Definition or_null (v : option float) : option float :=
  match v with
  | Some x => if falsy_number x then None else Some x
  | None => None
  end.

Definition set_weather_logs (rows : list WeatherLog.t) (s : Store) : Store :=
  {| locations := locations s; disasters := disasters s;
     alert_rules := alert_rules s; alerts := alerts s;
     alerts_auto_increment := alerts_auto_increment s;
     weather_logs := rows; earthquake_logs := earthquake_logs s;
     settings := settings s; now := now s |}.

Definition set_earthquake_logs (rows : list EarthquakeLog.t) (s : Store) : Store :=
  {| locations := locations s; disasters := disasters s;
     alert_rules := alert_rules s; alerts := alerts s;
     alerts_auto_increment := alerts_auto_increment s;
     weather_logs := weather_logs s; earthquake_logs := rows;
     settings := settings s; now := now s |}.

(** [logWeatherData]: nothing is written when the location has a log
    younger than 25 seconds. *)
Definition logWeatherData (locationId : Z) (data : option WeatherData)
    (earthquakeData : option EarthquakeData) (s : Store) : Store :=
  match data with
  | None => s
  | Some data =>
      let existing :=
        List.filter
          (fun l => Z.eqb (WeatherLog.location_id l) locationId &&
                    Z.ltb (now s - 25) (WeatherLog.fetched_at l))
          (weather_logs s) in
      if (0 <? length existing)%nat then s
      else
        set_weather_logs
          (weather_logs s ++
           [ {| WeatherLog.location_id := locationId;
                WeatherLog.temperature := temperature_2m data;
                WeatherLog.humidity := relative_humidity_2m data;
                WeatherLog.rain_sum := rain data;
                WeatherLog.wind_speed := wind_speed_10m data;
                WeatherLog.aqi := or_null (us_aqi data);
                WeatherLog.earthquake_magnitude := earthquakeData ≫= magnitude;
                WeatherLog.earthquake_id := eq_id <$> earthquakeData;
                WeatherLog.fetched_at := now s |} ]) s
  end.

Definition same_quake (locationId : Z) (usgs_id : string)
    (l : EarthquakeLog.t) : bool :=
  Z.eqb (EarthquakeLog.location_id l) locationId &&
  String.eqb (EarthquakeLog.usgs_id l) usgs_id.

Definition touch (t : Z) (l : EarthquakeLog.t) : EarthquakeLog.t :=
  {| EarthquakeLog.location_id := EarthquakeLog.location_id l;
     EarthquakeLog.magnitude := EarthquakeLog.magnitude l;
     EarthquakeLog.usgs_id := EarthquakeLog.usgs_id l;
     EarthquakeLog.is_manual := EarthquakeLog.is_manual l;
     EarthquakeLog.fetched_at := t |}.

(** [logEarthquakeData]: an insert that, on the unique key
    (location_id, usgs_id), refreshes [fetched_at] instead.  The column
    [magnitude] is NOT NULL: a [null] magnitude makes the statement fail,
    which the function logs and swallows. *)
Definition logEarthquakeData (locationId : Z)
    (earthquakeData : option EarthquakeData) (s : Store) : Store :=
  match earthquakeData with
  | None => s
  | Some ed =>
      match magnitude ed with
      | None => s
      | Some m =>
          if existsb (same_quake locationId (eq_id ed)) (earthquake_logs s) then
            set_earthquake_logs
              (map (fun l => if same_quake locationId (eq_id ed) l
                             then touch (now s) l else l) (earthquake_logs s)) s
          else
            set_earthquake_logs
              (earthquake_logs s ++
               [ {| EarthquakeLog.location_id := locationId;
                    EarthquakeLog.magnitude := m;
                    EarthquakeLog.usgs_id := eq_id ed;
                    EarthquakeLog.is_manual := false;
                    EarthquakeLog.fetched_at := now s |} ]) s
      end
  end.

(** ** scheduler.js: the two cycles and their loops *)

Inductive Loop := weatherLoop_callback | earthquakeLoop_callback.

(** What [setTimeout(callback, delay)] armed; a [delay] of [None] is NaN. *)
Record Timer := mkTimer {
  callback : Loop;
  delay : option Z
}.

(** The module-level variables of the scheduler, with the store. *)
Record Scheduler := mkScheduler {
  store : Store;
  cachedEarthquakes : option (list Feature);
  earthquakeFetchTime : option Z;
  weatherTimer : option Timer;
  earthquakeTimer : option Timer
}.

Definition with_store (s : Store) (sc : Scheduler) : Scheduler :=
  {| store := s; cachedEarthquakes := cachedEarthquakes sc;
     earthquakeFetchTime := earthquakeFetchTime sc;
     weatherTimer := weatherTimer sc; earthquakeTimer := earthquakeTimer sc |}.

(** The body of the loop over locations in [runWeatherCheck];
    [fetchWeatherData] is what the provider answers this cycle. *)
Definition weather_check_location
    (fetchWeatherData : float -> float -> option WeatherData)
    (cache : option (list Feature)) (s : Store) (location : Location.t)
    : Store :=
  let weatherData :=
    fetchWeatherData (Location.latitude location) (Location.longitude location) in
  let earthquakeData :=
    match cache with
    | Some feed =>
        checkEarthquakesNearLocation feed (Location.latitude location)
          (Location.longitude location) default_radiusKm
    | None => None
    end in
  match weatherData with
  | Some _ =>
      let s := logWeatherData (Location.id location) weatherData earthquakeData s in
      checkRulesAndAlert location weatherData None s
  | None => s
  end.

Definition runWeatherCheck
    (fetchWeatherData : float -> float -> option WeatherData)
    (sc : Scheduler) : Scheduler :=
  let locations := select_active_locations (store sc) in
  with_store
    (fold_left (weather_check_location fetchWeatherData (cachedEarthquakes sc))
       locations (store sc)) sc.

(** The body of the loop over locations in [runEarthquakeCheck]. *)
Definition earthquake_check_location (earthquakes : list Feature)
    (s : Store) (location : Location.t) : Store :=
  let earthquakeData :=
    checkEarthquakesNearLocation earthquakes (Location.latitude location)
      (Location.longitude location) default_radiusKm in
  match earthquakeData with
  | Some _ =>
      let s := logEarthquakeData (Location.id location) earthquakeData s in
      checkRulesAndAlert location None earthquakeData s
  | None => s
  end.

(** [earthquakes] is what [fetchRecentEarthquakes] returned, [date_now]
    is [Date.now()]. *)
Definition runEarthquakeCheck (earthquakes : list Feature) (date_now : Z)
    (sc : Scheduler) : Scheduler :=
  let locations := select_active_locations (store sc) in
  {| store :=
       fold_left (earthquake_check_location earthquakes) locations (store sc);
     cachedEarthquakes := Some earthquakes;
     earthquakeFetchTime := Some date_now;
     weatherTimer := weatherTimer sc; earthquakeTimer := earthquakeTimer sc |}.

(** [getSetting(key, defaultValue)]: the stored string parsed as an
    integer, or the default when the key has no row. *)
Definition getSetting (key : string) (defaultValue : Z) (s : Store)
    : option Z :=
  match settings s !! key with
  | Some setting_value => parseInt setting_value
  | None => Some defaultValue
  end.

(** [Math.max(30, intervalSecs) * 1000] *)
Definition timer_delay (intervalSecs : option Z) : option Z :=
  Z.mul 1000 <$> Math_max (Some 30) intervalSecs.

Definition weatherLoop
    (fetchWeatherData : float -> float -> option WeatherData)
    (sc : Scheduler) : Scheduler :=
  let sc := runWeatherCheck fetchWeatherData sc in
  let intervalSecs := getSetting "weather_fetch_interval" 300 (store sc) in
  {| store := store sc; cachedEarthquakes := cachedEarthquakes sc;
     earthquakeFetchTime := earthquakeFetchTime sc;
     weatherTimer :=
       Some {| callback := weatherLoop_callback;
               delay := timer_delay intervalSecs |};
     earthquakeTimer := earthquakeTimer sc |}.

Definition earthquakeLoop (earthquakes : list Feature) (date_now : Z)
    (sc : Scheduler) : Scheduler :=
  let sc := runEarthquakeCheck earthquakes date_now sc in
  let intervalSecs := getSetting "earthquake_fetch_interval" 60 (store sc) in
  {| store := store sc; cachedEarthquakes := cachedEarthquakes sc;
     earthquakeFetchTime := earthquakeFetchTime sc;
     weatherTimer := weatherTimer sc;
     earthquakeTimer :=
       Some {| callback := earthquakeLoop_callback;
               delay := timer_delay intervalSecs |} |}.

(** ** Derived notions used in the statements *)

(** The value of [triggered] when the loop body reaches [if (triggered)];
    [false] when the rule is skipped before. *)
Definition rule_triggers (rule : Rule.t) (weatherData : option WeatherData)
    (earthquakeData : option EarthquakeData) : bool :=
  let '(currentValue, ruleTarget) :=
    resolve_condition rule weatherData earthquakeData in
  if (is_weather ruleTarget && negb (bool_decide (is_Some weatherData))) ||
     (is_earthquake ruleTarget && negb (bool_decide (is_Some earthquakeData)))
  then false
  else
    match currentValue with
    | None => false
    | Some v =>
        evaluate_operator (Rule.operator rule) v (Rule.threshold_value rule)
    end.

(** The filter of the auto-deactivation pass: every rule but the
    earthquake rules. *)
Definition weather_rule (rule : Rule.t) : bool :=
  negb (String.eqb (Rule.weather_condition rule) "earthquake_magnitude").

(** The active alert rows of a (disaster, location) pair. *)
Definition active_alerts (disaster_id location_id : Z) (s : Store)
    : list Alert.t :=
  List.filter (active_for disaster_id location_id) (alerts s).

(** At most one alert row is active for each (disaster, location) pair. *)
Definition at_most_one_active (s : Store) : Prop :=
  forall disaster_id location_id,
    (length (active_alerts disaster_id location_id s) <= 1)%nat.

(** A number that is not NaN: [x === x]. *)
Definition is_number (x : float) : bool := PrimFloat.eqb x x.

(** ** The geospatial matcher *)


(** ** The rule evaluator *)

Lemma evaluate_operator_gt (v T : float) :
  evaluate_operator ">" v T = js_gt v T.
Proof. unfold evaluate_operator. simpl. destruct (js_gt v T); reflexivity. Qed.

Lemma evaluate_operator_lt (v T : float) :
  evaluate_operator "<" v T = js_lt v T.
Proof. unfold evaluate_operator. simpl. destruct (js_lt v T); reflexivity. Qed.

Lemma evaluate_operator_ge (v T : float) :
  evaluate_operator ">=" v T = js_ge v T.
Proof. unfold evaluate_operator. simpl. destruct (js_ge v T); reflexivity. Qed.

Lemma evaluate_operator_le (v T : float) :
  evaluate_operator "<=" v T = js_le v T.
Proof. unfold evaluate_operator. simpl. destruct (js_le v T); reflexivity. Qed.

Lemma evaluate_operator_other (operator : string) (v T : float) :
  operator <> ">" -> operator <> "<" -> operator <> ">=" ->
  operator <> "<=" -> evaluate_operator operator v T = false.
Proof.
  intros H1 H2 H3 H4. unfold evaluate_operator.
  apply String.eqb_neq in H1, H2, H3, H4. rewrite H1, H2, H3, H4.
  reflexivity.
Qed.

(** A resolved value means the rule was not skipped. *)
Lemma resolved_rule_triggers (rule : Rule.t)
    (weatherData : option WeatherData)
    (earthquakeData : option EarthquakeData)
    (v : float) (ruleTarget : option RuleTarget) :
  resolve_condition rule weatherData earthquakeData = (Some v, ruleTarget) ->
  rule_triggers rule weatherData earthquakeData =
  evaluate_operator (Rule.operator rule) v (Rule.threshold_value rule).
Proof.
  unfold rule_triggers, resolve_condition. intros H.
  repeat match type of H with
         | (if ?c then _ else _) = _ => destruct c
         end;
    try discriminate;
    injection H as Hv <-; rewrite Hv;
    [destruct weatherData; [reflexivity|discriminate] ..
    |destruct earthquakeData; [reflexivity|discriminate]].
Qed.

(** C6.  For a rule whose condition resolves to a current value [v], the
    rule triggers exactly when [v op T] holds for its operator, each of
    ['>'], ['<'], ['>='], ['<='] being the IEEE-754 comparison of [v] with
    the threshold [T]; with ['>='] a value equal to [T] triggers and a
    value strictly below [T] does not.  No other operator triggers. *)
Theorem rule_triggers_exact_comparison (rule : Rule.t)
    (weatherData : option WeatherData)
    (earthquakeData : option EarthquakeData)
    (v : float) (ruleTarget : option RuleTarget) :
  resolve_condition rule weatherData earthquakeData = (Some v, ruleTarget) ->
  (Rule.operator rule = ">" ->
   rule_triggers rule weatherData earthquakeData =
   PrimFloat.ltb (Rule.threshold_value rule) v) /\
  (Rule.operator rule = "<" ->
   rule_triggers rule weatherData earthquakeData =
   PrimFloat.ltb v (Rule.threshold_value rule)) /\
  (Rule.operator rule = ">=" ->
   rule_triggers rule weatherData earthquakeData =
   PrimFloat.leb (Rule.threshold_value rule) v) /\
  (Rule.operator rule = "<=" ->
   rule_triggers rule weatherData earthquakeData =
   PrimFloat.leb v (Rule.threshold_value rule)) /\
  (Rule.operator rule = ">=" ->
   PrimFloat.eqb v (Rule.threshold_value rule) = true ->
   rule_triggers rule weatherData earthquakeData = true) /\
  (Rule.operator rule = ">=" ->
   PrimFloat.ltb v (Rule.threshold_value rule) = true ->
   rule_triggers rule weatherData earthquakeData = false) /\
  (Rule.operator rule <> ">" -> Rule.operator rule <> "<" ->
   Rule.operator rule <> ">=" -> Rule.operator rule <> "<=" ->
   rule_triggers rule weatherData earthquakeData = false).
Proof.
  intros Hres.
  rewrite (resolved_rule_triggers _ _ _ _ _ Hres).
  repeat split; try intros ->.
  - apply evaluate_operator_gt.
  - apply evaluate_operator_lt.
  - apply evaluate_operator_ge.
  - apply evaluate_operator_le.
  - intros Heq. rewrite evaluate_operator_ge. unfold js_ge.
    apply (FloatOrder.eqb_leb _ _ Heq).
  - intros Hlt. rewrite evaluate_operator_ge. unfold js_ge.
    apply FloatOrder.ltb_not_leb. exact Hlt.
  - apply evaluate_operator_other.
Qed.

(** ** Store operations and the active rows *)

Lemma active_for_deactivate_row (d l : Z) (a : Alert.t) :
  active_for d l (deactivate_row a) = false.
Proof. unfold active_for. simpl. apply andb_false_r. Qed.

Lemma active_for_pair (d l d' l' : Z) (a : Alert.t) :
  active_for d l a = true -> active_for d' l' a = true -> d = d' /\ l = l'.
Proof.
  unfold active_for. rewrite !andb_true_iff, !Z.eqb_eq.
  intros [[<- <-] _] [[<- <-] _]. auto.
Qed.

Lemma active_alerts_deactivate_same (d l : Z) (s : Store) :
  active_alerts d l (deactivate d l s) = [].
Proof.
  unfold active_alerts, deactivate. simpl.
  induction (alerts s) as [|a rows IH]; simpl; [reflexivity|].
  destruct (active_for d l a) eqn:E.
  - rewrite active_for_deactivate_row. exact IH.
  - rewrite E. exact IH.
Qed.

Lemma active_alerts_deactivate_other (d l d' l' : Z) (s : Store) :
  (d', l') <> (d, l) ->
  active_alerts d' l' (deactivate d l s) = active_alerts d' l' s.
Proof.
  intros Hne. unfold active_alerts, deactivate. simpl.
  induction (alerts s) as [|a rows IH]; simpl; [reflexivity|].
  destruct (active_for d l a) eqn:E.
  - rewrite active_for_deactivate_row.
    destruct (active_for d' l' a) eqn:E'; [|exact IH].
    destruct (active_for_pair _ _ _ _ _ E E') as [-> ->]. congruence.
  - rewrite IH. reflexivity.
Qed.

Lemma active_alerts_deactivate_length (d l d' l' : Z) (s : Store) :
  (length (active_alerts d' l' (deactivate d l s)) <=
   length (active_alerts d' l' s))%nat.
Proof.
  destruct (decide ((d', l') = (d, l))) as [[= -> ->]|Hne].
  - rewrite active_alerts_deactivate_same. simpl. lia.
  - rewrite active_alerts_deactivate_other by exact Hne. lia.
Qed.

Lemma active_alerts_insert_same (d l : Z) (t de sev src : string)
    (ext : option string) (s : Store) :
  active_alerts d l (insert_alert d l t de sev src ext s) =
  active_alerts d l s ++
  [new_alert (alerts_auto_increment s) d l t de sev src ext (now s)].
Proof.
  unfold active_alerts, insert_alert. simpl.
  rewrite List.filter_app. simpl. unfold active_for at 2. simpl.
  rewrite !Z.eqb_refl. reflexivity.
Qed.

Lemma active_alerts_insert_other (d l d' l' : Z) (t de sev src : string)
    (ext : option string) (s : Store) :
  (d', l') <> (d, l) ->
  active_alerts d' l' (insert_alert d l t de sev src ext s) =
  active_alerts d' l' s.
Proof.
  intros Hne. unfold active_alerts, insert_alert. simpl.
  rewrite List.filter_app. simpl. unfold active_for at 2. simpl.
  destruct (Z.eqb_spec d d'), (Z.eqb_spec l l'); simpl;
    try (rewrite app_nil_r; reflexivity).
  subst. congruence.
Qed.


Lemma select_active_limit_1_empty (d l : Z) (s : Store) :
  (0 <? length (select_active_limit_1 d l s))%nat = false ->
  active_alerts d l s = [].
Proof.
  unfold select_active_limit_1, select_active.
  fold (active_alerts d l s).
  destruct (active_alerts d l s); simpl; [reflexivity|discriminate].
Qed.

(** *** The two trigger paths *)

Lemma trigger_weather_same (location : Location.t) (rule : Rule.t)
    (v : float) (s : Store) :
  active_alerts (Rule.disaster_id rule) (Location.id location)
    (trigger_weather location rule v s) =
  [new_alert (alerts_auto_increment s) (Rule.disaster_id rule)
     (Location.id location) (alert_title rule "Hazard Detected")
     (weather_description rule v)
     (js_or (Rule.severity_level rule) "Medium") "System" None (now s)].
Proof.
  unfold trigger_weather.
  destruct (0 <? length (select_active_limit_1 _ _ s))%nat eqn:E.
  - rewrite active_alerts_insert_same, active_alerts_deactivate_same.
    reflexivity.
  - rewrite active_alerts_insert_same.
    rewrite (select_active_limit_1_empty _ _ _ E). reflexivity.
Qed.

Lemma trigger_weather_other (location : Location.t) (rule : Rule.t)
    (v : float) (s : Store) (d l : Z) :
  (d, l) <> (Rule.disaster_id rule, Location.id location) ->
  active_alerts d l (trigger_weather location rule v s) = active_alerts d l s.
Proof.
  intros Hne. unfold trigger_weather.
  rewrite active_alerts_insert_other by exact Hne.
  destruct (0 <? length _)%nat; [|reflexivity].
  apply active_alerts_deactivate_other. exact Hne.
Qed.

(** The dedup test of the earthquake path. *)
Definition already_alerted (earthquakeData : EarthquakeData)
    (location : Location.t) (s : Store) : bool :=
  existsb (carries (eq_id earthquakeData) (Location.id location)) (alerts s).

Lemma dedup_test (x : string) (l : Z) (s : Store) :
  (0 <? length (select_by_external_id x l s))%nat =
  existsb (carries x l) (alerts s).
Proof.
  unfold select_by_external_id. rewrite length_map.
  induction (alerts s) as [|a rows IH]; simpl; [reflexivity|].
  destruct (carries x l a); simpl; [reflexivity|exact IH].
Qed.

Lemma trigger_earthquake_dedup (location : Location.t) (rule : Rule.t)
    (v : float) (ed : EarthquakeData) (s : Store) :
  already_alerted ed location s = true ->
  trigger_earthquake location rule v ed s = s.
Proof.
  unfold already_alerted, trigger_earthquake. rewrite dedup_test.
  intros ->. reflexivity.
Qed.

Lemma trigger_earthquake_fresh (location : Location.t) (rule : Rule.t)
    (v : float) (ed : EarthquakeData) (s : Store) :
  already_alerted ed location s = false ->
  trigger_earthquake location rule v ed s =
  insert_alert (Rule.disaster_id rule) (Location.id location)
    (alert_title rule "Seismic Event Detected")
    (earthquake_description rule v ed)
    (js_or (Rule.severity_level rule) "Medium") "System" (Some (eq_id ed))
    (deactivate (Rule.disaster_id rule) (Location.id location) s).
Proof.
  unfold already_alerted, trigger_earthquake. rewrite dedup_test.
  intros ->. reflexivity.
Qed.

Lemma trigger_earthquake_other (location : Location.t) (rule : Rule.t)
    (v : float) (ed : EarthquakeData) (s : Store) (d l : Z) :
  (d, l) <> (Rule.disaster_id rule, Location.id location) ->
  active_alerts d l (trigger_earthquake location rule v ed s) =
  active_alerts d l s.
Proof.
  intros Hne. destruct (already_alerted ed location s) eqn:E.
  - rewrite trigger_earthquake_dedup by exact E. reflexivity.
  - rewrite trigger_earthquake_fresh by exact E.
    rewrite active_alerts_insert_other by exact Hne.
    apply active_alerts_deactivate_other. exact Hne.
Qed.

Lemma trigger_earthquake_same_length (location : Location.t) (rule : Rule.t)
    (v : float) (ed : EarthquakeData) (s : Store) :
  (length (active_alerts (Rule.disaster_id rule) (Location.id location) s)
   <= 1)%nat ->
  (length (active_alerts (Rule.disaster_id rule) (Location.id location)
             (trigger_earthquake location rule v ed s)) <= 1)%nat.
Proof.
  intros H. destruct (already_alerted ed location s) eqn:E.
  - rewrite trigger_earthquake_dedup by exact E. exact H.
  - rewrite trigger_earthquake_fresh by exact E.
    rewrite active_alerts_insert_same, active_alerts_deactivate_same.
    simpl. lia.
Qed.

(** *** The loop body *)

Lemma resolve_condition_weather (rule : Rule.t)
    (weatherData : option WeatherData)
    (earthquakeData : option EarthquakeData) (v : option float) :
  resolve_condition rule weatherData earthquakeData = (v, Some weather) ->
  weather_rule rule = true.
Proof.
  unfold resolve_condition, weather_rule.
  destruct (String.eqb_spec (Rule.weather_condition rule) "rain_sum") as [->|];
    [reflexivity|].
  destruct (String.eqb_spec (Rule.weather_condition rule) "wind_speed") as [->|];
    [reflexivity|].
  destruct (String.eqb_spec (Rule.weather_condition rule) "temperature") as [->|];
    [reflexivity|].
  destruct (String.eqb_spec (Rule.weather_condition rule) "humidity") as [->|];
    [reflexivity|].
  destruct (String.eqb_spec (Rule.weather_condition rule) "aqi") as [->|];
    [reflexivity|].
  destruct (String.eqb (Rule.weather_condition rule) "earthquake_magnitude");
    discriminate.
Qed.

Lemma resolve_condition_earthquake (rule : Rule.t)
    (weatherData : option WeatherData)
    (earthquakeData : option EarthquakeData) (v : option float) :
  resolve_condition rule weatherData earthquakeData = (v, Some earthquake) ->
  Rule.weather_condition rule = "earthquake_magnitude".
Proof.
  unfold resolve_condition.
  repeat match goal with
         | |- (if ?c then _ else _) = _ -> _ => destruct c eqn:?
         end; try discriminate.
  intros _. apply String.eqb_eq. assumption.
Qed.

Lemma resolve_condition_no_target (rule : Rule.t)
    (weatherData : option WeatherData)
    (earthquakeData : option EarthquakeData) (v : option float) :
  resolve_condition rule weatherData earthquakeData = (v, None) -> v = None.
Proof.
  unfold resolve_condition.
  repeat match goal with
         | |- (if ?c then _ else _) = _ -> _ => destruct c
         end; try discriminate.
  intros [= <-]. reflexivity.
Qed.

(** What one iteration does, by whether the rule triggers. *)
Lemma process_rule_cases (location : Location.t)
    (weatherData : option WeatherData)
    (earthquakeData : option EarthquakeData) (st : Cycle) (rule : Rule.t) :
  let st' := process_rule location weatherData earthquakeData st rule in
  (rule_triggers rule weatherData earthquakeData = false /\
   db st' = db st /\
   triggeredDisasterIds st' = triggeredDisasterIds st) \/
  (rule_triggers rule weatherData earthquakeData = true /\
   triggeredDisasterIds st' =
     {[ Rule.disaster_id rule ]} ∪ triggeredDisasterIds st /\
   ((exists v w,
       resolve_condition rule weatherData earthquakeData =
         (Some v, Some weather) /\
       weatherData = Some w /\
       db st' = trigger_weather location rule v (db st)) \/
    (exists v ed,
       resolve_condition rule weatherData earthquakeData =
         (Some v, Some earthquake) /\
       earthquakeData = Some ed /\
       db st' = trigger_earthquake location rule v ed (db st)))).
Proof.
  unfold process_rule, rule_triggers. simpl.
  destruct (resolve_condition rule weatherData earthquakeData)
    as [cv tgt] eqn:Hres.
  destruct tgt as [[|]|].
  - (* weather *)
    destruct weatherData as [w|]; simpl; [|left; auto].
    destruct cv as [v|]; [|left; auto].
    destruct (evaluate_operator _ v _); [|left; auto].
    right. repeat split. left. exists v, w. auto.
  - (* earthquake *)
    destruct earthquakeData as [ed|]; simpl; [|left; auto].
    destruct cv as [v|]; [|left; auto].
    destruct (evaluate_operator _ v _); [|left; auto].
    right. repeat split. right. exists v, ed. auto.
  - (* no data source *)
    rewrite (resolve_condition_no_target _ _ _ _ Hres). simpl. left. auto.
Qed.

(** One iteration touches the active rows of the rule's own
    (disaster, location) pair only. *)
Lemma process_rule_other (location : Location.t)
    (weatherData : option WeatherData)
    (earthquakeData : option EarthquakeData) (st : Cycle) (rule : Rule.t)
    (d l : Z) :
  (d, l) <> (Rule.disaster_id rule, Location.id location) ->
  active_alerts d l
    (db (process_rule location weatherData earthquakeData st rule)) =
  active_alerts d l (db st).
Proof.
  intros Hne.
  destruct (process_rule_cases location weatherData earthquakeData st rule)
    as [(_ & -> & _)|(_ & _ & [(v & w & _ & _ & ->)|(v & ed & _ & _ & ->)])].
  - reflexivity.
  - apply trigger_weather_other. exact Hne.
  - apply trigger_earthquake_other. exact Hne.
Qed.

Lemma process_rule_at_most_one (location : Location.t)
    (weatherData : option WeatherData)
    (earthquakeData : option EarthquakeData) (st : Cycle) (rule : Rule.t) :
  at_most_one_active (db st) ->
  at_most_one_active
    (db (process_rule location weatherData earthquakeData st rule)).
Proof.
  intros Hinv d l.
  destruct (decide ((d, l) = (Rule.disaster_id rule, Location.id location)))
    as [[= -> ->]|Hne].
  - destruct (process_rule_cases location weatherData earthquakeData st rule)
      as [(_ & -> & _)|(_ & _ & [(v & w & _ & _ & ->)|(v & ed & _ & _ & ->)])].
    + apply Hinv.
    + rewrite trigger_weather_same. simpl. lia.
    + apply trigger_earthquake_same_length. apply Hinv.
  - rewrite process_rule_other by exact Hne. apply Hinv.
Qed.

Lemma fold_process_rule_at_most_one (location : Location.t)
    (weatherData : option WeatherData)
    (earthquakeData : option EarthquakeData)
    (rules : list Rule.t) (st : Cycle) :
  at_most_one_active (db st) ->
  at_most_one_active
    (db (fold_left (process_rule location weatherData earthquakeData)
           rules st)).
Proof.
  revert st. induction rules as [|rule rules IH]; intros st Hinv; simpl.
  - exact Hinv.
  - apply IH. apply process_rule_at_most_one. exact Hinv.
Qed.

(** *** The auto-deactivation pass *)

Lemma auto_deactivate_one_length (location : Location.t) (triggered : gset Z)
    (s : Store) (disasterId d l : Z) :
  (length (active_alerts d l
             (auto_deactivate_one location triggered s disasterId)) <=
   length (active_alerts d l s))%nat.
Proof.
  unfold auto_deactivate_one.
  destruct (bool_decide (disasterId ∈ triggered)); [lia|].
  destruct (0 <? length _)%nat; [|lia].
  apply active_alerts_deactivate_length.
Qed.

Lemma auto_deactivate_length (location : Location.t) (triggered : gset Z)
    (ids : list Z) (s : Store) (d l : Z) :
  (length (active_alerts d l
             (fold_left (auto_deactivate_one location triggered) ids s)) <=
   length (active_alerts d l s))%nat.
Proof.
  revert s. induction ids as [|i ids IH]; intros s; simpl; [lia|].
  etransitivity; [apply IH|]. apply auto_deactivate_one_length.
Qed.

(** ** The alert lifecycle *)

(** C1.  A call of [checkRulesAndAlert] preserves "at most one active
    alert row per (disaster, location) pair", for every location, weather
    data and earthquake data. *)
Theorem checkRulesAndAlert_at_most_one_active (location : Location.t)
    (weatherData : option WeatherData)
    (earthquakeData : option EarthquakeData) (s : Store) :
  at_most_one_active s ->
  at_most_one_active (checkRulesAndAlert location weatherData earthquakeData s).
Proof.
  intros Hinv. unfold checkRulesAndAlert, evaluate_rules.
  pose proof (fold_process_rule_at_most_one location weatherData earthquakeData
                (select_rules (Location.id location) s) (start_cycle s) Hinv)
    as Hloop.
  destruct weatherData as [w|]; [|exact Hloop].
  intros d l. unfold auto_deactivate.
  etransitivity; [apply auto_deactivate_length|]. apply Hloop.
Qed.

(** *** Point events: dedup by external id *)

Lemma already_alerted_intro (ed : EarthquakeData) (location : Location.t)
    (s : Store) (a : Alert.t) :
  In a (alerts s) ->
  Alert.external_id a = Some (eq_id ed) ->
  Alert.location_id a = Location.id location ->
  already_alerted ed location s = true.
Proof.
  intros Hin Hext Hloc. unfold already_alerted.
  apply existsb_exists. exists a. split; [exact Hin|].
  unfold carries. rewrite Hext, Hloc, String.eqb_refl, Z.eqb_refl.
  reflexivity.
Qed.

Lemma earthquake_rule_not_weather (rule : Rule.t) :
  Rule.weather_condition rule = "earthquake_magnitude" ->
  weather_rule rule = false.
Proof. unfold weather_rule. intros ->. reflexivity. Qed.

(** C10.  The dedup query looks at [external_id] and [location_id] only.
    When any alert row of the location carries the event's id, whatever
    its active flag and its disaster, an earthquake rule leaves the store
    as it found it: no insert, no deactivation, for every weather data and
    whether or not the rule triggers. *)
Theorem process_rule_dedup_leaves_store (location : Location.t)
    (weatherData : option WeatherData) (ed : EarthquakeData)
    (st : Cycle) (rule : Rule.t) (a : Alert.t) :
  Rule.weather_condition rule = "earthquake_magnitude" ->
  In a (alerts (db st)) ->
  Alert.external_id a = Some (eq_id ed) ->
  Alert.location_id a = Location.id location ->
  db (process_rule location weatherData (Some ed) st rule) = db st.
Proof.
  intros Hcond Hin Hext Hloc.
  pose proof (already_alerted_intro ed location (db st) a Hin Hext Hloc)
    as Hdup.
  destruct (process_rule_cases location weatherData (Some ed) st rule)
    as [(_ & -> & _)|(_ & _ & [(v & w & Hres & _ & _)|(v & ed' & _ & Hed & ->)])].
  - reflexivity.
  - apply resolve_condition_weather in Hres.
    rewrite (earthquake_rule_not_weather _ Hcond) in Hres. discriminate.
  - injection Hed as <-. apply trigger_earthquake_dedup. exact Hdup.
Qed.

(** The ids the dedup query returns, across the store operations. *)
Lemma carries_deactivate_row (x : string) (l : Z) (a : Alert.t) :
  carries x l (deactivate_row a) = carries x l a.
Proof. reflexivity. Qed.

Lemma select_by_external_id_deactivate (x : string) (l d l' : Z) (s : Store) :
  select_by_external_id x l (deactivate d l' s) = select_by_external_id x l s.
Proof.
  unfold select_by_external_id, deactivate. simpl.
  induction (alerts s) as [|a rows IH]; simpl; [reflexivity|].
  destruct (active_for d l' a).
  - rewrite carries_deactivate_row. destruct (carries x l a); simpl;
      rewrite IH; reflexivity.
  - destruct (carries x l a); simpl; rewrite IH; reflexivity.
Qed.

Lemma select_by_external_id_insert_null (x : string) (l d l' : Z)
    (t de sev src : string) (s : Store) :
  select_by_external_id x l (insert_alert d l' t de sev src None s) =
  select_by_external_id x l s.
Proof.
  unfold select_by_external_id, insert_alert. simpl.
  rewrite List.filter_app. simpl. rewrite app_nil_r. reflexivity.
Qed.

Lemma select_by_external_id_trigger_weather (x : string) (l : Z)
    (location : Location.t) (rule : Rule.t) (v : float) (s : Store) :
  select_by_external_id x l (trigger_weather location rule v s) =
  select_by_external_id x l s.
Proof.
  unfold trigger_weather. rewrite select_by_external_id_insert_null.
  destruct (0 <? length _)%nat; [|reflexivity].
  apply select_by_external_id_deactivate.
Qed.

Lemma already_alerted_select (ed : EarthquakeData) (location : Location.t)
    (s s' : Store) :
  select_by_external_id (eq_id ed) (Location.id location) s' =
  select_by_external_id (eq_id ed) (Location.id location) s ->
  already_alerted ed location s' = already_alerted ed location s.
Proof.
  unfold already_alerted. rewrite <- !dedup_test. intros ->. reflexivity.
Qed.

Lemma process_rule_redelivery (location : Location.t)
    (weatherData : option WeatherData) (ed : EarthquakeData)
    (st : Cycle) (rule : Rule.t) :
  already_alerted ed location (db st) = true ->
  select_by_external_id (eq_id ed) (Location.id location)
    (db (process_rule location weatherData (Some ed) st rule)) =
  select_by_external_id (eq_id ed) (Location.id location) (db st) /\
  (weatherData = None ->
   db (process_rule location weatherData (Some ed) st rule) = db st).
Proof.
  intros Hdup.
  destruct (process_rule_cases location weatherData (Some ed) st rule)
    as [(_ & -> & _)|(_ & _ & [(v & w & _ & Hw & ->)|(v & ed' & _ & Hed & ->)])].
  - auto.
  - split; [apply select_by_external_id_trigger_weather|].
    intros ->. discriminate.
  - injection Hed as <-.
    rewrite trigger_earthquake_dedup by exact Hdup. auto.
Qed.

Lemma fold_process_rule_redelivery (location : Location.t)
    (weatherData : option WeatherData) (ed : EarthquakeData)
    (rules : list Rule.t) (st : Cycle) :
  already_alerted ed location (db st) = true ->
  select_by_external_id (eq_id ed) (Location.id location)
    (db (fold_left (process_rule location weatherData (Some ed)) rules st)) =
  select_by_external_id (eq_id ed) (Location.id location) (db st) /\
  (weatherData = None ->
   db (fold_left (process_rule location weatherData (Some ed)) rules st) =
   db st).
Proof.
  revert st. induction rules as [|rule rules IH]; intros st Hdup; simpl.
  - auto.
  - destruct (process_rule_redelivery location weatherData ed st rule Hdup)
      as [Hsel Hsame].
    destruct (IH (process_rule location weatherData (Some ed) st rule))
      as [Hsel' Hsame'].
    { rewrite (already_alerted_select _ _ _ _ Hsel). exact Hdup. }
    split.
    + rewrite Hsel'. exact Hsel.
    + intros Hnone. rewrite (Hsame' Hnone). apply (Hsame Hnone).
Qed.

Lemma select_by_external_id_auto_deactivate (x : string) (l : Z)
    (location : Location.t) (triggered : gset Z) (ids : list Z) (s : Store) :
  select_by_external_id x l
    (fold_left (auto_deactivate_one location triggered) ids s) =
  select_by_external_id x l s.
Proof.
  revert s. induction ids as [|i ids IH]; intros s; simpl; [reflexivity|].
  rewrite IH. unfold auto_deactivate_one.
  destruct (bool_decide (i ∈ triggered)); [reflexivity|].
  destruct (0 <? length _)%nat; [|reflexivity].
  apply select_by_external_id_deactivate.
Qed.

(** *** Continuous signals: the auto-deactivation pass *)






(** *** No weather data: no continuous-signal alert is touched *)

(** The alert rows of a disaster, at every location. *)
Definition alerts_of_disaster (d : Z) (s : Store) : list Alert.t :=
  List.filter (fun a => Z.eqb (Alert.disaster_id a) d) (alerts s).

Lemma alerts_of_disaster_deactivate (d d' l : Z) (s : Store) :
  d <> d' ->
  alerts_of_disaster d (deactivate d' l s) = alerts_of_disaster d s.
Proof.
  intros Hne. unfold alerts_of_disaster, deactivate. simpl.
  induction (alerts s) as [|a rows IH]; simpl; [reflexivity|].
  destruct (active_for d' l a) eqn:E; [|rewrite IH; reflexivity].
  simpl. unfold active_for in E.
  apply andb_true_iff in E as [E _]. apply andb_true_iff in E as [E _].
  apply Z.eqb_eq in E. rewrite E.
  destruct (Z.eqb_spec d' d); [congruence|exact IH].
Qed.

Lemma alerts_of_disaster_insert (d d' l : Z) (t de sev src : string)
    (ext : option string) (s : Store) :
  d <> d' ->
  alerts_of_disaster d (insert_alert d' l t de sev src ext s) =
  alerts_of_disaster d s.
Proof.
  intros Hne. unfold alerts_of_disaster, insert_alert. simpl.
  rewrite List.filter_app. simpl.
  destruct (Z.eqb_spec d' d); [congruence|apply app_nil_r].
Qed.

Lemma alerts_of_disaster_trigger_earthquake (location : Location.t)
    (rule : Rule.t) (v : float) (ed : EarthquakeData) (s : Store) (d : Z) :
  d <> Rule.disaster_id rule ->
  alerts_of_disaster d (trigger_earthquake location rule v ed s) =
  alerts_of_disaster d s.
Proof.
  intros Hne. destruct (already_alerted ed location s) eqn:E.
  - rewrite trigger_earthquake_dedup by exact E. reflexivity.
  - rewrite trigger_earthquake_fresh by exact E.
    rewrite alerts_of_disaster_insert by exact Hne.
    apply alerts_of_disaster_deactivate. exact Hne.
Qed.

(** Without weather data a weather rule is skipped: the iteration
    changes neither the store nor the two sets. *)
Lemma process_rule_no_weather_data (location : Location.t)
    (earthquakeData : option EarthquakeData) (st : Cycle) (rule : Rule.t) :
  weather_rule rule = true ->
  process_rule location None earthquakeData st rule = st.
Proof.
  intros Hw. unfold process_rule.
  destruct (resolve_condition rule None earthquakeData) as [cv tgt] eqn:Hres.
  destruct tgt as [[|]|].
  - reflexivity.
  - apply resolve_condition_earthquake in Hres.
    rewrite (earthquake_rule_not_weather _ Hres) in Hw. discriminate.
  - rewrite (resolve_condition_no_target _ _ _ _ Hres). reflexivity.
Qed.

Lemma fold_process_rule_no_weather_data (location : Location.t)
    (earthquakeData : option EarthquakeData)
    (rules : list Rule.t) (st : Cycle) :
  fold_left (process_rule location None earthquakeData) rules st =
  fold_left (process_rule location None earthquakeData)
    (List.filter (fun r => negb (weather_rule r)) rules) st.
Proof.
  revert st. induction rules as [|rule rules IH]; intros st; simpl.
  - reflexivity.
  - destruct (weather_rule rule) eqn:Hw; simpl.
    + rewrite process_rule_no_weather_data by exact Hw. apply IH.
    + apply IH.
Qed.

(** Without weather data no weather rule triggers. *)
Lemma weather_rule_quiet_without_data (rule : Rule.t)
    (earthquakeData : option EarthquakeData) :
  weather_rule rule = true -> rule_triggers rule None earthquakeData = false.
Proof.
  intros Hw. unfold rule_triggers.
  destruct (resolve_condition rule None earthquakeData) as [cv tgt] eqn:Hres.
  destruct tgt as [[|]|].
  - reflexivity.
  - apply resolve_condition_earthquake in Hres.
    rewrite (earthquake_rule_not_weather _ Hres) in Hw. discriminate.
  - rewrite (resolve_condition_no_target _ _ _ _ Hres). reflexivity.
Qed.

Lemma alerts_of_disaster_trigger_weather (location : Location.t)
    (rule : Rule.t) (v : float) (s : Store) (d : Z) :
  d <> Rule.disaster_id rule ->
  alerts_of_disaster d (trigger_weather location rule v s) =
  alerts_of_disaster d s.
Proof.
  intros Hne. unfold trigger_weather.
  rewrite alerts_of_disaster_insert by exact Hne.
  destruct (0 <? length _)%nat; [|reflexivity].
  apply alerts_of_disaster_deactivate. exact Hne.
Qed.

(** The rule loop leaves the alert rows of a disaster none of whose rules
    triggers. *)
Lemma fold_process_rule_alerts_of_disaster (location : Location.t)
    (weatherData : option WeatherData)
    (earthquakeData : option EarthquakeData)
    (rules : list Rule.t) (st : Cycle) (d : Z) :
  (forall r, In r rules -> Rule.disaster_id r = d ->
             rule_triggers r weatherData earthquakeData = false) ->
  alerts_of_disaster d
    (db (fold_left (process_rule location weatherData earthquakeData)
           rules st)) =
  alerts_of_disaster d (db st).
Proof.
  revert st. induction rules as [|rule rules IH]; intros st Hall; simpl.
  - reflexivity.
  - rewrite IH by (intros r Hr; apply Hall; right; exact Hr).
    destruct (process_rule_cases location weatherData earthquakeData st rule)
      as [(_ & -> & _)
         |(Ht & _ & [(v & w & _ & _ & ->)|(v & ed & _ & _ & ->)])].
    + reflexivity.
    + apply alerts_of_disaster_trigger_weather. intros ->.
      rewrite (Hall rule (or_introl eq_refl) eq_refl) in Ht. discriminate.
    + apply alerts_of_disaster_trigger_earthquake. intros ->.
      rewrite (Hall rule (or_introl eq_refl) eq_refl) in Ht. discriminate.
Qed.

(** C4.  Without weather data [checkRulesAndAlert] runs no
    auto-deactivation pass and the trigger path of no weather rule: the
    call is the rule loop over the earthquake rules alone, and no weather
    rule triggers.  The alert rows of a disaster come out as they went in
    unless one of its rules triggers, which only an earthquake rule can:
    so no alert of a disaster whose rules for this location are
    continuous-signal rules is deactivated. *)
Theorem checkRulesAndAlert_without_weather_data (location : Location.t)
    (earthquakeData : option EarthquakeData) (s : Store) :
  checkRulesAndAlert location None earthquakeData s =
  db (fold_left (process_rule location None earthquakeData)
        (List.filter (fun r => negb (weather_rule r))
           (select_rules (Location.id location) s))
        (start_cycle s)) /\
  (forall r, weather_rule r = true ->
             rule_triggers r None earthquakeData = false) /\
  (forall d,
     (forall r, In r (select_rules (Location.id location) s) ->
                Rule.disaster_id r = d ->
                rule_triggers r None earthquakeData = false) ->
     alerts_of_disaster d (checkRulesAndAlert location None earthquakeData s) =
     alerts_of_disaster d s) /\
  (forall d,
     (forall r, In r (select_rules (Location.id location) s) ->
                Rule.disaster_id r = d -> weather_rule r = true) ->
     alerts_of_disaster d (checkRulesAndAlert location None earthquakeData s) =
     alerts_of_disaster d s).
Proof.
  assert (Hquiet :
    forall d,
      (forall r, In r (select_rules (Location.id location) s) ->
                 Rule.disaster_id r = d ->
                 rule_triggers r None earthquakeData = false) ->
      alerts_of_disaster d (checkRulesAndAlert location None earthquakeData s) =
      alerts_of_disaster d s).
  { intros d Hall. unfold checkRulesAndAlert, evaluate_rules.
    apply (fold_process_rule_alerts_of_disaster location None earthquakeData
             _ (start_cycle s) d Hall). }
  split; [|split; [|split]].
  - unfold checkRulesAndAlert, evaluate_rules.
    rewrite fold_process_rule_no_weather_data. reflexivity.
  - intros r. apply weather_rule_quiet_without_data.
  - exact Hquiet.
  - intros d Hall. apply Hquiet. intros r Hin Hd.
    apply weather_rule_quiet_without_data. exact (Hall r Hin Hd).
Qed.

(** *** Redelivery of a point event *)

(** With the event already alerted, the rule loop leaves the alert rows
    of every disaster all of whose rules are earthquake rules. *)
Lemma fold_process_rule_redelivery_rows (location : Location.t)
    (weatherData : option WeatherData) (ed : EarthquakeData)
    (rules : list Rule.t) (st : Cycle) (d : Z) :
  already_alerted ed location (db st) = true ->
  (forall r, In r rules -> Rule.disaster_id r = d -> weather_rule r = false) ->
  alerts_of_disaster d
    (db (fold_left (process_rule location weatherData (Some ed)) rules st)) =
  alerts_of_disaster d (db st).
Proof.
  revert st. induction rules as [|rule rules IH]; intros st Hdup Hall; simpl.
  - reflexivity.
  - destruct (process_rule_redelivery location weatherData ed st rule Hdup)
      as [Hsel _].
    rewrite IH.
    + destruct (process_rule_cases location weatherData (Some ed) st rule)
        as [(_ & -> & _)
           |(_ & _ & [(v & w & Hres & _ & ->)|(v & ed' & _ & Hed & ->)])].
      * reflexivity.
      * apply alerts_of_disaster_trigger_weather. intros ->.
        apply resolve_condition_weather in Hres.
        rewrite (Hall rule (or_introl eq_refl) eq_refl) in Hres. discriminate.
      * injection Hed as <-.
        rewrite trigger_earthquake_dedup by exact Hdup. reflexivity.
    + rewrite (already_alerted_select _ _ _ _ Hsel). exact Hdup.
    + intros r Hr. apply Hall. right. exact Hr.
Qed.

Lemma auto_deactivate_alerts_of_disaster (location : Location.t)
    (triggered : gset Z) (ids : list Z) (s : Store) (d : Z) :
  ~ In d ids ->
  alerts_of_disaster d
    (fold_left (auto_deactivate_one location triggered) ids s) =
  alerts_of_disaster d s.
Proof.
  revert s. induction ids as [|i ids IH]; intros s Hnot; simpl.
  - reflexivity.
  - rewrite IH by (intros Hin; apply Hnot; right; exact Hin).
    unfold auto_deactivate_one.
    destruct (bool_decide (i ∈ triggered)); [reflexivity|].
    destruct (0 <? length _)%nat; [|reflexivity].
    apply alerts_of_disaster_deactivate. intros ->. apply Hnot. left.
    reflexivity.
Qed.

Lemma weatherDisasterIds_weather_rule (rules : list Rule.t) (d : Z) :
  (forall r, In r rules -> Rule.disaster_id r = d -> weather_rule r = false) ->
  ~ In d (weatherDisasterIds rules).
Proof.
  intros Hall Hin. unfold weatherDisasterIds in Hin.
  apply in_map_iff in Hin as (r & Hd & Hr).
  apply List.filter_In in Hr as [Hr Hw].
  fold (weather_rule r) in Hw. rewrite (Hall r Hr Hd) in Hw. discriminate.
Qed.

(** C2.  When an alert row of the location already carries the event's
    external id, a call of [checkRulesAndAlert] with that event adds no
    alert row carrying that id for the location, whatever the weather
    data, and leaves the alert rows of every disaster whose rules for the
    location are all earthquake rules as they were; the redelivery itself,
    the call of the point-event cycle (no weather data), returns the store
    unchanged: nothing inserted, nothing deactivated, no error. *)
Theorem checkRulesAndAlert_redelivery_noop (location : Location.t)
    (weatherData : option WeatherData) (ed : EarthquakeData)
    (s : Store) (a : Alert.t) :
  In a (alerts s) ->
  Alert.external_id a = Some (eq_id ed) ->
  Alert.location_id a = Location.id location ->
  select_by_external_id (eq_id ed) (Location.id location)
    (checkRulesAndAlert location weatherData (Some ed) s) =
  select_by_external_id (eq_id ed) (Location.id location) s /\
  (forall d,
     (forall r, In r (select_rules (Location.id location) s) ->
                Rule.disaster_id r = d -> weather_rule r = false) ->
     alerts_of_disaster d
       (checkRulesAndAlert location weatherData (Some ed) s) =
     alerts_of_disaster d s) /\
  checkRulesAndAlert location None (Some ed) s = s.
Proof.
  intros Hin Hext Hloc.
  pose proof (already_alerted_intro ed location s a Hin Hext Hloc) as Hdup.
  unfold checkRulesAndAlert, evaluate_rules. split; [|split].
  - destruct (fold_process_rule_redelivery location weatherData ed
                (select_rules (Location.id location) s) (start_cycle s) Hdup)
      as [Hsel _].
    destruct weatherData as [w|]; [|exact Hsel].
    unfold auto_deactivate.
    rewrite select_by_external_id_auto_deactivate. exact Hsel.
  - intros d Hall.
    pose proof (fold_process_rule_redelivery_rows location weatherData ed
                  (select_rules (Location.id location) s) (start_cycle s) d
                  Hdup Hall) as Hrows.
    destruct weatherData as [w|]; [|exact Hrows].
    unfold auto_deactivate.
    rewrite auto_deactivate_alerts_of_disaster; [exact Hrows|].
    apply weatherDisasterIds_weather_rule. exact Hall.
  - destruct (fold_process_rule_redelivery location None ed
                (select_rules (Location.id location) s) (start_cycle s) Hdup)
      as [_ Hsame].
    apply (Hsame eq_refl).
Qed.

(** *** Several rules of one disaster *)














(** ** The weather cycle and the cached feed *)

(** The store without its weather log. *)
Definition forget_weather_logs (s : Store) : Store := set_weather_logs [] s.

Lemma forget_logWeatherData (locationId : Z) (data : option WeatherData)
    (earthquakeData : option EarthquakeData) (s : Store) :
  forget_weather_logs (logWeatherData locationId data earthquakeData s) =
  forget_weather_logs s.
Proof.
  unfold logWeatherData. destruct data as [data|]; [|reflexivity].
  destruct (0 <? length _)%nat; reflexivity.
Qed.

Lemma forget_trigger_weather (location : Location.t) (rule : Rule.t)
    (v : float) (s : Store) :
  trigger_weather location rule v (forget_weather_logs s) =
  forget_weather_logs (trigger_weather location rule v s).
Proof.
  unfold trigger_weather.
  change (select_active_limit_1 (Rule.disaster_id rule) (Location.id location)
            (forget_weather_logs s))
    with (select_active_limit_1 (Rule.disaster_id rule) (Location.id location) s).
  destruct (0 <? length _)%nat; reflexivity.
Qed.

Lemma forget_trigger_earthquake (location : Location.t) (rule : Rule.t)
    (v : float) (ed : EarthquakeData) (s : Store) :
  trigger_earthquake location rule v ed (forget_weather_logs s) =
  forget_weather_logs (trigger_earthquake location rule v ed s).
Proof.
  unfold trigger_earthquake.
  change (select_by_external_id (eq_id ed) (Location.id location)
            (forget_weather_logs s))
    with (select_by_external_id (eq_id ed) (Location.id location) s).
  destruct (0 <? length _)%nat; reflexivity.
Qed.

(** The rule loop on a store without weather log. *)
Definition forget_cycle (st : Cycle) : Cycle :=
  with_db (forget_weather_logs (db st)) st.

Lemma forget_process_rule (location : Location.t)
    (weatherData : option WeatherData)
    (earthquakeData : option EarthquakeData) (st : Cycle) (rule : Rule.t) :
  process_rule location weatherData earthquakeData (forget_cycle st) rule =
  forget_cycle (process_rule location weatherData earthquakeData st rule).
Proof.
  unfold process_rule.
  destruct (resolve_condition rule weatherData earthquakeData) as [cv tgt].
  destruct tgt as [[|]|], weatherData as [w|], earthquakeData as [ed|],
           cv as [v|]; simpl; try reflexivity;
    destruct (evaluate_operator _ v _); simpl; try reflexivity;
    unfold forget_cycle, with_db, add_triggered, add_earthquake; simpl;
    rewrite ?forget_trigger_weather, ?forget_trigger_earthquake; reflexivity.
Qed.

Lemma forget_fold_process_rule (location : Location.t)
    (weatherData : option WeatherData)
    (earthquakeData : option EarthquakeData)
    (rules : list Rule.t) (st : Cycle) :
  fold_left (process_rule location weatherData earthquakeData) rules
    (forget_cycle st) =
  forget_cycle
    (fold_left (process_rule location weatherData earthquakeData) rules st).
Proof.
  revert st. induction rules as [|rule rules IH]; intros st; simpl.
  - reflexivity.
  - rewrite forget_process_rule. apply IH.
Qed.

Lemma forget_auto_deactivate (location : Location.t) (triggered : gset Z)
    (ids : list Z) (s : Store) :
  fold_left (auto_deactivate_one location triggered) ids
    (forget_weather_logs s) =
  forget_weather_logs
    (fold_left (auto_deactivate_one location triggered) ids s).
Proof.
  revert s. induction ids as [|i ids IH]; intros s; simpl; [reflexivity|].
  rewrite <- IH. f_equal. unfold auto_deactivate_one.
  destruct (bool_decide (i ∈ triggered)); [reflexivity|].
  change (select_active i (Location.id location) (forget_weather_logs s))
    with (select_active i (Location.id location) s).
  destruct (0 <? length _)%nat; reflexivity.
Qed.

(** [checkRulesAndAlert] neither reads nor writes the weather log. *)
Lemma forget_checkRulesAndAlert (location : Location.t)
    (weatherData : option WeatherData)
    (earthquakeData : option EarthquakeData) (s : Store) :
  checkRulesAndAlert location weatherData earthquakeData
    (forget_weather_logs s) =
  forget_weather_logs
    (checkRulesAndAlert location weatherData earthquakeData s).
Proof.
  unfold checkRulesAndAlert, evaluate_rules, auto_deactivate.
  change (select_rules (Location.id location) (forget_weather_logs s))
    with (select_rules (Location.id location) s).
  change (start_cycle (forget_weather_logs s))
    with (forget_cycle (start_cycle s)).
  rewrite forget_fold_process_rule.
  destruct weatherData as [w|]; [|reflexivity].
  apply forget_auto_deactivate.
Qed.

Lemma forget_weather_check_location
    (fetchWeatherData : float -> float -> option WeatherData)
    (cache1 cache2 : option (list Feature)) (s1 s2 : Store)
    (location : Location.t) :
  forget_weather_logs s1 = forget_weather_logs s2 ->
  forget_weather_logs
    (weather_check_location fetchWeatherData cache1 s1 location) =
  forget_weather_logs
    (weather_check_location fetchWeatherData cache2 s2 location).
Proof.
  intros Hsame. unfold weather_check_location.
  destruct (fetchWeatherData _ _) as [w|]; [|exact Hsame].
  rewrite <- !forget_checkRulesAndAlert, !forget_logWeatherData, Hsame.
  reflexivity.
Qed.

Lemma forget_fold_weather_check
    (fetchWeatherData : float -> float -> option WeatherData)
    (cache1 cache2 : option (list Feature))
    (locations : list Location.t) (s1 s2 : Store) :
  forget_weather_logs s1 = forget_weather_logs s2 ->
  forget_weather_logs
    (fold_left (weather_check_location fetchWeatherData cache1) locations s1) =
  forget_weather_logs
    (fold_left (weather_check_location fetchWeatherData cache2) locations s2).
Proof.
  revert s1 s2. induction locations as [|location locations IH];
    intros s1 s2 Hsame; simpl.
  - exact Hsame.
  - apply IH. apply forget_weather_check_location. exact Hsame.
Qed.

(** The scheduler with another content of the feed cache. *)
Definition with_cache (cache : option (list Feature)) (sc : Scheduler)
    : Scheduler :=
  {| store := store sc; cachedEarthquakes := cache;
     earthquakeFetchTime := earthquakeFetchTime sc;
     weatherTimer := weatherTimer sc; earthquakeTimer := earthquakeTimer sc |}.

(** C9, as the code has it.  In a weather cycle every location with
    weather data is evaluated by [checkRulesAndAlert] with no point event;
    the strongest nearby event of the cached feed goes to [logWeatherData]
    only.  So the alert rows a weather cycle leaves (and the whole store
    but the weather log) are the same whatever the cache holds. *)
Theorem runWeatherCheck_alerts_ignore_cache
    (fetchWeatherData : float -> float -> option WeatherData)
    (sc : Scheduler) (cache : option (list Feature)) :
  (forall s location w,
     fetchWeatherData (Location.latitude location)
       (Location.longitude location) = Some w ->
     weather_check_location fetchWeatherData cache s location =
     checkRulesAndAlert location (Some w) None
       (logWeatherData (Location.id location) (Some w)
          (match cache with
           | Some feed =>
               checkEarthquakesNearLocation feed (Location.latitude location)
                 (Location.longitude location) default_radiusKm
           | None => None
           end) s)) /\
  alerts (store (runWeatherCheck fetchWeatherData (with_cache cache sc))) =
  alerts (store (runWeatherCheck fetchWeatherData sc)) /\
  forget_weather_logs
    (store (runWeatherCheck fetchWeatherData (with_cache cache sc))) =
  forget_weather_logs (store (runWeatherCheck fetchWeatherData sc)).
Proof.
  assert (Hforget :
    forget_weather_logs
      (store (runWeatherCheck fetchWeatherData (with_cache cache sc))) =
    forget_weather_logs (store (runWeatherCheck fetchWeatherData sc))).
  { unfold runWeatherCheck. simpl.
    apply forget_fold_weather_check. reflexivity. }
  split; [|split; [|exact Hforget]].
  - intros s location w Hw. unfold weather_check_location.
    rewrite Hw. reflexivity.
  - change (alerts (store (runWeatherCheck fetchWeatherData
                             (with_cache cache sc))))
      with (alerts (forget_weather_logs
                      (store (runWeatherCheck fetchWeatherData
                                (with_cache cache sc))))).
    rewrite Hforget. reflexivity.
Qed.

(** ** The scheduler loops *)



(** The clamp works on every interval that is a number. *)
Lemma timer_delay_floor (n : Z) :
  timer_delay (Some n) = Some (1000 * Z.max 30 n) /\
  30 * 1000 <= 1000 * Z.max 30 n.
Proof. split; [reflexivity|lia]. Qed.

(** It does not on NaN. *)
Lemma timer_delay_nan : timer_delay None = None.
Proof. reflexivity. Qed.

End Engine.

(** * Worked examples

    A concrete runtime and the seed data of scripts/seed.js, on which the
    statements above are instantiated. *)

Module Sample.

(** Truncated power series: adequate at regional distances, exact at
    0. *)
Definition sin (x : float) : float :=
  (x - x * x * x / 6 + x * x * x * x * x / 120
     - x * x * x * x * x * x * x / 5040)%float.

Definition cos (x : float) : float :=
  (1 - x * x / 2 + x * x * x * x / 24 - x * x * x * x * x * x / 720)%float.

Definition atan2 (y x : float) : float :=
  let t := (y / x)%float in
  (t - t * t * t / 3 + t * t * t * t * t / 5)%float.

(** The exact decimal expansion of a double; it is what JavaScript
    prints for the integers and the short binary fractions of the
    examples. *)
Definition digits_of (n : Z) : string := NilZero.string_of_int (Z.to_int n).

Fixpoint zeros (n : nat) : string :=
  match n with
  | O => ""
  | S k => String "0" (zeros k)
  end.

Fixpoint strip_zeros (l : list ascii) : list ascii :=
  match l with
  | "0"%char :: r => strip_zeros r
  | _ => l
  end.

Definition strip_trailing_zeros (s : string) : string :=
  string_of_list_ascii (rev (strip_zeros (rev (list_ascii_of_string s)))).

Definition decimal (negative : bool) (m : positive) (e : Z) : string :=
  let sign : string := if negative then "-" else "" in
  if Z.leb 0 e then (sign ++ digits_of (Zpos m * 2 ^ e))%string
  else
    let k := Z.to_nat (- e) in
    let ds := digits_of (Zpos m * 5 ^ (- e)) in
    let ds := (zeros (S k - String.length ds)%nat ++ ds)%string in
    let whole := substring 0 (String.length ds - k)%nat ds in
    let frac :=
      strip_trailing_zeros (substring (String.length ds - k)%nat k ds) in
    (sign ++ whole ++ (if String.eqb frac "" then "" else "." ++ frac))%string.

Definition toString (x : float) : string :=
  match Prim2SF x with
  | S754_zero _ => "0"
  | S754_infinity s => if s then "-Infinity" else "Infinity"
  | S754_nan => "NaN"
  | S754_finite s m e => decimal s m e
  end.

(** The services on this runtime. *)
Definition checkEarthquakesNearLocation :=
  checkEarthquakesNearLocation sin cos PrimFloat.sqrt atan2.
Definition checkRulesAndAlert := checkRulesAndAlert toString.
Definition process_rule := process_rule toString.
Definition runWeatherCheck :=
  runWeatherCheck sin cos PrimFloat.sqrt atan2 toString.
Definition weatherLoop := weatherLoop sin cos PrimFloat.sqrt atan2 toString.
Definition earthquakeLoop :=
  earthquakeLoop sin cos PrimFloat.sqrt atan2 toString.

End Sample.

Module Seed.

(** The decimal coordinates of the seed script are rounded to the
    nearest double, as JavaScript reads them. *)
Local Set Warnings "-inexact-float".

Definition Dhaka : Location.t := Location.mk 1 "Dhaka" 23.8103 90.4125 true.
Definition Chittagong : Location.t :=
  Location.mk 2 "Chittagong" 22.3569 91.7832 true.

Definition Earthquake : Z := 1.
Definition Flash_Flood : Z := 2.
Definition Heatwave : Z := 3.
Definition Cold_Wave : Z := 4.
Definition Air_Pollution : Z := 5.

Definition DISASTERS : list Disaster.t :=
  [ Disaster.mk Earthquake "Earthquake" true;
    Disaster.mk Flash_Flood "Flash Flood" true;
    Disaster.mk Heatwave "Heatwave" true;
    Disaster.mk Cold_Wave "Cold Wave" true;
    Disaster.mk Air_Pollution "Air Pollution" true ].

(** A global rule as the seed script inserts it. *)
Definition rule (id disaster : Z) (condition operator : string)
    (threshold : float) (severity message : string) : Rule.t :=
  Rule.mk id None disaster condition threshold operator (Some severity)
    (Some message) true.

Definition flood_low : Rule.t :=
  rule 1 Flash_Flood "rain_sum" ">=" 10 "Low"
    "Moderate rainfall — flash flood watch".
Definition flood_medium : Rule.t :=
  rule 2 Flash_Flood "rain_sum" ">=" 25 "Medium"
    "Heavy rainfall — flash flood advisory".
Definition flood_high : Rule.t :=
  rule 3 Flash_Flood "rain_sum" ">=" 50 "High"
    "Very heavy rain — flash flood warning".
Definition flood_critical : Rule.t :=
  rule 4 Flash_Flood "rain_sum" ">=" 100 "Critical"
    "Extreme rainfall — flash flood emergency".
Definition quake_low : Rule.t :=
  rule 17 Earthquake "earthquake_magnitude" ">=" 3 "Low"
    "Minor seismic activity detected".
Definition quake_critical : Rule.t :=
  rule 20 Earthquake "earthquake_magnitude" ">=" 6.5 "Critical"
    "Major earthquake — emergency response activated".

Definition RULES : list Rule.t :=
  [ flood_low; flood_medium; flood_high; flood_critical;
    rule 5 Heatwave "temperature" ">=" 36 "Low" "Hot weather — heat advisory";
    rule 6 Heatwave "temperature" ">=" 38 "Medium"
      "Heatwave conditions developing";
    rule 7 Heatwave "temperature" ">=" 40 "High"
      "Severe heatwave — heat stroke risk";
    rule 8 Heatwave "temperature" ">=" 42 "Critical"
      "Extreme heatwave — life-threatening";
    rule 9 Cold_Wave "temperature" "<=" 15 "Low" "Cool conditions — cold watch";
    rule 10 Cold_Wave "temperature" "<=" 10 "Medium"
      "Cold wave — vulnerable groups at risk";
    rule 11 Cold_Wave "temperature" "<=" 5 "High"
      "Severe cold wave — frost risk";
    rule 12 Cold_Wave "temperature" "<=" 2 "Critical"
      "Extreme cold — hypothermia risk";
    rule 13 Air_Pollution "aqi" ">=" 101 "Low" "Unhealthy for sensitive groups";
    rule 14 Air_Pollution "aqi" ">=" 151 "Medium" "Unhealthy air quality";
    rule 15 Air_Pollution "aqi" ">=" 201 "High" "Very unhealthy air — wear masks";
    rule 16 Air_Pollution "aqi" ">=" 301 "Critical"
      "Hazardous AQI — stay indoors";
    quake_low;
    rule 18 Earthquake "earthquake_magnitude" ">=" 4.5 "Medium"
      "Moderate earthquake — check for damage";
    rule 19 Earthquake "earthquake_magnitude" ">=" 5.5 "High"
      "Strong earthquake — evacuate if unsafe";
    quake_critical ].

(** The store after seeding, at second 1000 of the database clock. *)
Definition seeded : Store :=
  {| locations := [Dhaka; Chittagong]; disasters := DISASTERS;
     alert_rules := RULES; alerts := []; alerts_auto_increment := 1;
     weather_logs := []; earthquake_logs := []; settings := ∅;
     now := 1000 |}.

(** Rain of 30 mm, and a dry reading. *)
Definition rainy : WeatherData :=
  {| temperature_2m := Some 30%float; relative_humidity_2m := Some 80%float;
     rain := Some 30%float; wind_speed_10m := Some 10%float;
     us_aqi := Some 50%float |}.

Definition dry : WeatherData :=
  {| temperature_2m := Some 30%float; relative_humidity_2m := Some 80%float;
     rain := Some 0%float; wind_speed_10m := Some 10%float;
     us_aqi := Some 50%float |}.

(** A magnitude 6.75 event about 77 km from Dhaka. *)
Definition quake : Feature :=
  {| feature_id := "us7000n1xy"; coordinates := [91; 24.25; 10]%float;
     mag := Some 6.75%float; feature_place := "12 km NE of Sylhet";
     feature_time := 1700000000000 |}.

(** What the matcher returns for it at Dhaka. *)
Definition quake_data : EarthquakeData :=
  candidate Sample.sin Sample.cos PrimFloat.sqrt Sample.atan2
    (Location.latitude Dhaka) (Location.longitude Dhaka) quake.

(** The provider answers [rainy] everywhere. *)
Definition fetchWeatherData (lat lon : float) : option WeatherData :=
  Some rainy.

Definition scheduler (s : Store) (cache : option (list Feature)) : Scheduler :=
  {| store := s; cachedEarthquakes := cache; earthquakeFetchTime := None;
     weatherTimer := None; earthquakeTimer := None |}.

(** The store after a weather call with [rainy] at Dhaka, and after a
    point-event call with the quake. *)
Definition after_rain : Store :=
  Sample.checkRulesAndAlert Dhaka (Some rainy) None seeded.

Definition after_quake : Store :=
  Sample.checkRulesAndAlert Dhaka None (Some quake_data) seeded.

(** A store whose only alert row is an old, inactive Air Pollution alert
    that carries the id of the quake. *)
Definition stale_row : Alert.t :=
  {| Alert.id := 1; Alert.disaster_id := Air_Pollution;
     Alert.location_id := 1; Alert.title := "Manual notice";
     Alert.description := "Entered by an operator"; Alert.severity := "Low";
     Alert.source := "Admin"; Alert.is_active := false;
     Alert.external_id := Some "us7000n1xy"; Alert.created_at := 900 |}.

Definition stale : Store :=
  {| locations := [Dhaka; Chittagong]; disasters := DISASTERS;
     alert_rules := RULES; alerts := [stale_row]; alerts_auto_increment := 2;
     weather_logs := []; earthquake_logs := []; settings := ∅;
     now := 1000 |}.

(** Rain exactly at the threshold of [flood_medium], and one double
    below it. *)
Definition rain_of (mm : float) : WeatherData :=
  {| temperature_2m := Some 30%float; relative_humidity_2m := Some 80%float;
     rain := Some mm; wind_speed_10m := Some 10%float;
     us_aqi := Some 50%float |}.

(** Settings whose two intervals do not parse as integers. *)
Definition unparsable : Store :=
  {| locations := [Dhaka; Chittagong]; disasters := DISASTERS;
     alert_rules := RULES; alerts := []; alerts_auto_increment := 1;
     weather_logs := []; earthquake_logs := [];
     settings :=
       <[ "weather_fetch_interval" := "abc" ]>
         (<[ "earthquake_fetch_interval" := "" ]> ∅);
     now := 1000 |}.

End Seed.

Section Examples.

Import Seed.

(** The strongest of three events, the nearest being weaker and the
    strongest of all being out of range. *)
Example matcher_picks_strongest_in_range :
  Sample.checkEarthquakesNearLocation
    [ {| feature_id := "near"; coordinates := [90.5; 23.75; 5]%float;
         mag := Some 4%float; feature_place := "Dhaka";
         feature_time := 1 |};
      quake;
      {| feature_id := "far"; coordinates := [139.75; 35.5; 30]%float;
         mag := Some 8%float; feature_place := "Tokyo";
         feature_time := 2 |} ]
    (Location.latitude Dhaka) (Location.longitude Dhaka) default_radiusKm
  = Some quake_data.
Proof. vm_compute. reflexivity. Qed.

(** C1 on the seed data: the store after a rainy cycle has one active
    Flash Flood alert at Dhaka, and stays with at most one per pair. *)
Lemma at_most_one_active_after_rain :
  at_most_one_active seeded /\ at_most_one_active after_rain.
Proof.
  assert (H : at_most_one_active seeded) by (intros d l; simpl; lia).
  exact (conj H
           (checkRulesAndAlert_at_most_one_active Sample.toString Dhaka
              (Some rainy) None seeded H)).
Defined.

(** C2 on the seed data: the quake is delivered again. *)
Lemma redelivered_quake_is_noop :
  select_by_external_id (eq_id quake_data) (Location.id Dhaka)
    (checkRulesAndAlert Sample.toString Dhaka (Some rainy) (Some quake_data)
       after_quake) =
  select_by_external_id (eq_id quake_data) (Location.id Dhaka) after_quake /\
  checkRulesAndAlert Sample.toString Dhaka None (Some quake_data) after_quake =
  after_quake.
Proof.
  destruct (checkRulesAndAlert_redelivery_noop Sample.toString Dhaka
              (Some rainy) quake_data after_quake
              (new_alert 1 Earthquake 1
                 "Automated Alert: Minor seismic activity detected"
                 "Magnitude 6.75 detected. Epicenter: 12 km NE of Sylhet. Threshold: 3."
                 "Low" "System" (Some "us7000n1xy") 1000))
    as (Hids & _ & Hsame).
  - vm_compute. left. reflexivity.
  - reflexivity.
  - reflexivity.
  - exact (conj Hids Hsame).
Defined.


(** C4 on the seed data: a quake arrives while the Flash Flood alert is
    active; no weather data in that call.  The quake alert is inserted
    and the Flash Flood rows are as before. *)
Lemma flood_alert_survives_quake_cycle :
  map Alert.external_id
    (alerts (checkRulesAndAlert Sample.toString Dhaka None (Some quake_data)
               after_rain)) = [None; None; Some "us7000n1xy"] /\
  alerts_of_disaster Flash_Flood
    (checkRulesAndAlert Sample.toString Dhaka None (Some quake_data) after_rain)
  = alerts_of_disaster Flash_Flood after_rain.
Proof.
  split; [vm_compute; reflexivity|].
  destruct (checkRulesAndAlert_without_weather_data Sample.toString Dhaka
              (Some quake_data) after_rain) as (_ & _ & _ & Hrows).
  apply Hrows. intros r Hin Hd.
  assert (Hall :
    forallb (fun r => implb (Z.eqb (Rule.disaster_id r) Flash_Flood)
                        (weather_rule r))
      (select_rules (Location.id Dhaka) after_rain) = true)
    by (vm_compute; reflexivity).
  rewrite forallb_forall in Hall. specialize (Hall r Hin).
  rewrite Hd, Z.eqb_refl in Hall. exact Hall.
Defined.

(** C6 on the seed data: [rain_sum >= 25] at 25 and one double below. *)
Lemma threshold_boundary :
  rule_triggers flood_medium (Some (rain_of 25)) None = true /\
  rule_triggers flood_medium (Some (rain_of (PrimFloat.next_down 25))) None
  = false.
Proof.
  split.
  - destruct (rule_triggers_exact_comparison flood_medium
                (Some (rain_of 25)) None 25 (Some weather) eq_refl)
      as (_ & _ & _ & _ & Hat & _ & _).
    apply Hat; reflexivity.
  - destruct (rule_triggers_exact_comparison flood_medium
                (Some (rain_of (PrimFloat.next_down 25))) None
                (PrimFloat.next_down 25) (Some weather) eq_refl)
      as (_ & _ & _ & _ & _ & Hbelow & _).
    apply Hbelow; reflexivity.
Defined.


(** C10 on the seed data: the only row that carries the quake's id is
    inactive and belongs to another disaster; the Critical earthquake rule
    triggers at 6.75 and changes nothing. *)
Lemma stale_row_blocks_quake_alert :
  rule_triggers quake_critical None (Some quake_data) = true /\
  db (process_rule Sample.toString Dhaka None (Some quake_data)
        (start_cycle stale) quake_critical) = stale.
Proof.
  split; [vm_compute; reflexivity|].
  apply (process_rule_dedup_leaves_store Sample.toString Dhaka None quake_data
           (start_cycle stale) quake_critical stale_row).
  - reflexivity.
  - left. reflexivity.
  - reflexivity.
  - reflexivity.
Defined.

(** C8 at settings that do not parse: [parseInt] returns NaN,
    [Math.max(30, NaN)] is NaN, and each loop arms its timer with a NaN
    delay; with parsable settings the delay is the clamped interval. *)
Theorem loops_arm_nan_delay_on_unparsable_setting :
  weatherTimer
    (Sample.weatherLoop fetchWeatherData (scheduler unparsable None)) =
  Some {| callback := weatherLoop_callback; delay := None |} /\
  earthquakeTimer
    (Sample.earthquakeLoop [] 0 (scheduler unparsable None)) =
  Some {| callback := earthquakeLoop_callback; delay := None |} /\
  weatherTimer (Sample.weatherLoop fetchWeatherData (scheduler seeded None)) =
  Some {| callback := weatherLoop_callback; delay := Some 300000 |} /\
  timer_delay (parseInt "10") = Some 30000 /\
  timer_delay (parseInt "120") = Some 120000.
Proof. vm_compute. repeat split; reflexivity. Qed.

(** C9 fails as stated: the cache holds a magnitude 6.75 event 77 km
    from Dhaka, the seed has earthquake rules it satisfies, and the weather
    cycle leaves no alert that carries an external id, at Dhaka or
    elsewhere; evaluating Dhaka against that event inserts one. *)
Lemma weather_cycle_ignores_cached_event :
  Sample.checkEarthquakesNearLocation [quake] (Location.latitude Dhaka)
    (Location.longitude Dhaka) default_radiusKm = Some quake_data /\
  rule_triggers quake_low (Some rainy) (Some quake_data) = true /\
  map Alert.external_id
    (alerts (store (Sample.runWeatherCheck fetchWeatherData
                      (scheduler seeded (Some [quake]))))) =
  [None; None; None; None] /\
  map WeatherLog.earthquake_id
    (weather_logs (store (Sample.runWeatherCheck fetchWeatherData
                            (scheduler seeded (Some [quake]))))) =
  [Some "us7000n1xy"; Some "us7000n1xy"] /\
  map Alert.external_id
    (alerts (Sample.checkRulesAndAlert Dhaka (Some rainy) (Some quake_data)
               seeded)) =
  [None; None; Some "us7000n1xy"].
Proof. vm_compute. repeat split; reflexivity. Qed.

End Examples.

(** * Further properties of the services

    Properties of a call of [checkRulesAndAlert] beyond the alert state
    machine: what it leaves alone, what happens to the history, the ids it
    hands out, and which tier of a point event wins. *)

Section Lifecycle.

Variable Number_toString : float -> string.

(** ** What a call leaves alone *)

(** Everything in the store but the alert rows and their counter. *)
Definition surroundings (s : Store) :=
  (locations s, disasters s, alert_rules s, weather_logs s,
   earthquake_logs s, settings s, now s).

Lemma surroundings_trigger_weather (location : Location.t) (rule : Rule.t)
    (v : float) (s : Store) :
  surroundings (trigger_weather Number_toString location rule v s) =
  surroundings s.
Proof.
  unfold trigger_weather. destruct (0 <? length _)%nat; reflexivity.
Qed.

Lemma surroundings_trigger_earthquake (location : Location.t) (rule : Rule.t)
    (v : float) (ed : EarthquakeData) (s : Store) :
  surroundings (trigger_earthquake Number_toString location rule v ed s) =
  surroundings s.
Proof.
  unfold trigger_earthquake. destruct (0 <? length _)%nat; reflexivity.
Qed.

Lemma surroundings_fold_process_rule (location : Location.t)
    (weatherData : option WeatherData)
    (earthquakeData : option EarthquakeData)
    (rules : list Rule.t) (st : Cycle) :
  surroundings
    (db (fold_left
           (process_rule Number_toString location weatherData earthquakeData)
           rules st)) = surroundings (db st).
Proof.
  revert st. induction rules as [|rule rules IH]; intros st; simpl.
  - reflexivity.
  - rewrite IH.
    destruct (process_rule_cases Number_toString location weatherData
                earthquakeData st rule)
      as [(_ & -> & _)|(_ & _ & [(v & w & _ & _ & ->)|(v & ed & _ & _ & ->)])].
    + reflexivity.
    + apply surroundings_trigger_weather.
    + apply surroundings_trigger_earthquake.
Qed.

Lemma surroundings_auto_deactivate (location : Location.t)
    (triggered : gset Z) (ids : list Z) (s : Store) :
  surroundings (fold_left (auto_deactivate_one location triggered) ids s) =
  surroundings s.
Proof.
  revert s. induction ids as [|i ids IH]; intros s; simpl; [reflexivity|].
  rewrite IH. unfold auto_deactivate_one.
  destruct (bool_decide (i ∈ triggered)); [reflexivity|].
  destruct (0 <? length _)%nat; reflexivity.
Qed.

Lemma surroundings_evaluate_rules (location : Location.t)
    (weatherData : option WeatherData)
    (earthquakeData : option EarthquakeData)
    (rules : list Rule.t) (s : Store) :
  surroundings
    (evaluate_rules Number_toString location weatherData earthquakeData
       rules s) = surroundings s.
Proof.
  unfold evaluate_rules, auto_deactivate.
  destruct weatherData as [w|].
  - rewrite surroundings_auto_deactivate.
    apply (surroundings_fold_process_rule location (Some w) earthquakeData
             rules (start_cycle s)).
  - apply (surroundings_fold_process_rule location None earthquakeData
             rules (start_cycle s)).
Qed.

(** X1.  [checkRulesAndAlert] writes the alert table only: the locations,
    disasters, rules, both logs, the settings and the clock are the same
    after the call, for every input. *)
Theorem checkRulesAndAlert_writes_alerts_only (location : Location.t)
    (weatherData : option WeatherData)
    (earthquakeData : option EarthquakeData) (s : Store) :
  surroundings
    (checkRulesAndAlert Number_toString location weatherData earthquakeData s)
  = surroundings s.
Proof. apply surroundings_evaluate_rules. Qed.

(** ** The alert history *)

(** What may happen to an existing row in a call for a location: nothing,
    or, if it is an active row of that location, deactivation. *)
Definition superseded (location_id : Z) (a a' : Alert.t) : Prop :=
  a' = a \/
  (Alert.location_id a = location_id /\ Alert.is_active a = true /\
   a' = deactivate_row a).

(** The rows after a call: the old rows in place, each kept or
    deactivated, followed by rows added for the location by the system. *)
Definition history_extends (location_id : Z) (rows rows' : list Alert.t)
    : Prop :=
  exists kept added,
    rows' = kept ++ added /\
    Forall2 (superseded location_id) rows kept /\
    Forall (fun a => Alert.location_id a = location_id /\
                     Alert.source a = "System") added.

Lemma superseded_trans (l : Z) (a a' a'' : Alert.t) :
  superseded l a a' -> superseded l a' a'' -> superseded l a a''.
Proof.
  intros [->|(Hl & Ha & ->)] H; [exact H|].
  destruct H as [->|(_ & Hact & _)].
  - right. auto.
  - discriminate.
Qed.

Lemma superseded_keeps (l : Z) (a a' : Alert.t) :
  superseded l a a' ->
  Alert.location_id a' = Alert.location_id a /\
  Alert.source a' = Alert.source a.
Proof. intros [->|(_ & _ & ->)]; auto. Qed.

Lemma Forall2_superseded_refl (l : Z) (rows : list Alert.t) :
  Forall2 (superseded l) rows rows.
Proof. induction rows; constructor; [left; reflexivity|assumption]. Qed.

Lemma Forall2_superseded_trans (l : Z) (r1 r2 r3 : list Alert.t) :
  Forall2 (superseded l) r1 r2 -> Forall2 (superseded l) r2 r3 ->
  Forall2 (superseded l) r1 r3.
Proof.
  intros H12. revert r3. induction H12 as [|a a' r1 r2 Ha _ IH]; intros r3 H23.
  - inversion H23. constructor.
  - inversion H23 as [|? a'' ? r3' Ha' H23']; subst. constructor.
    + eapply superseded_trans; eassumption.
    + apply IH. assumption.
Qed.

Lemma Forall2_superseded_app (l : Z) (r1 k1 k2 : list Alert.t) :
  Forall2 (superseded l) (r1 ++ k1) k2 ->
  exists k2a k2b, k2 = k2a ++ k2b /\ Forall2 (superseded l) r1 k2a /\
                  Forall2 (superseded l) k1 k2b.
Proof.
  revert k2. induction r1 as [|a r1 IH]; intros k2 H; simpl in H.
  - exists [], k2. repeat split; [constructor|assumption].
  - inversion H as [|? a' ? k2' Ha Hrest]; subst.
    destruct (IH _ Hrest) as (k2a & k2b & -> & H1 & H2).
    exists (a' :: k2a), k2b. repeat split; [constructor; assumption|assumption].
Qed.

Lemma history_extends_refl (l : Z) (rows : list Alert.t) :
  history_extends l rows rows.
Proof.
  exists rows, []. rewrite app_nil_r.
  repeat split; [apply Forall2_superseded_refl|constructor].
Qed.

Lemma history_extends_trans (l : Z) (r1 r2 r3 : list Alert.t) :
  history_extends l r1 r2 -> history_extends l r2 r3 ->
  history_extends l r1 r3.
Proof.
  intros (k1 & a1 & -> & Hk1 & Ha1) (k2 & a2 & -> & Hk2 & Ha2).
  destruct (Forall2_superseded_app _ _ _ _ Hk2) as (k2a & k2b & -> & H1 & H2).
  exists k2a, (k2b ++ a2). rewrite app_assoc. repeat split.
  - eapply Forall2_superseded_trans; eassumption.
  - apply Forall_app. split; [|assumption].
    clear - Ha1 H2. induction H2 as [|a a' k1' k2' Ha _ IH]; [constructor|].
    inversion Ha1 as [|? ? [Hl Hs] Hrest]; subst. constructor.
    + destruct (superseded_keeps _ _ _ Ha) as [-> ->]. auto.
    + apply IH. assumption.
Qed.

Lemma history_extends_deactivate (d l : Z) (s : Store) :
  history_extends l (alerts s) (alerts (deactivate d l s)).
Proof.
  unfold deactivate. simpl.
  exists (map (fun a => if active_for d l a then deactivate_row a else a)
            (alerts s)), [].
  rewrite app_nil_r. repeat split; [|constructor].
  induction (alerts s) as [|a rows IH]; simpl; constructor; [|exact IH].
  destruct (active_for d l a) eqn:E; [|left; reflexivity].
  right. unfold active_for in E.
  apply andb_true_iff in E as [E Hact]. apply andb_true_iff in E as [_ Hl].
  apply Z.eqb_eq in Hl. auto.
Qed.

Lemma history_extends_insert (d l : Z) (t de sev : string)
    (ext : option string) (s : Store) :
  history_extends l (alerts s)
    (alerts (insert_alert d l t de sev "System" ext s)).
Proof.
  unfold insert_alert. simpl.
  exists (alerts s),
    [new_alert (alerts_auto_increment s) d l t de sev "System" ext (now s)].
  repeat split; [apply Forall2_superseded_refl|].
  constructor; [split; reflexivity|constructor].
Qed.

Lemma history_extends_trigger_weather (location : Location.t) (rule : Rule.t)
    (v : float) (s : Store) :
  history_extends (Location.id location) (alerts s)
    (alerts (trigger_weather Number_toString location rule v s)).
Proof.
  unfold trigger_weather.
  eapply history_extends_trans; [|apply history_extends_insert].
  destruct (0 <? length _)%nat;
    [apply history_extends_deactivate|apply history_extends_refl].
Qed.

Lemma history_extends_trigger_earthquake (location : Location.t)
    (rule : Rule.t) (v : float) (ed : EarthquakeData) (s : Store) :
  history_extends (Location.id location) (alerts s)
    (alerts (trigger_earthquake Number_toString location rule v ed s)).
Proof.
  unfold trigger_earthquake.
  destruct (0 <? length _)%nat; [apply history_extends_refl|].
  eapply history_extends_trans;
    [apply history_extends_deactivate|apply history_extends_insert].
Qed.

Lemma history_extends_fold_process_rule (location : Location.t)
    (weatherData : option WeatherData)
    (earthquakeData : option EarthquakeData)
    (rules : list Rule.t) (st : Cycle) :
  history_extends (Location.id location) (alerts (db st))
    (alerts
       (db (fold_left
              (process_rule Number_toString location weatherData
                 earthquakeData) rules st))).
Proof.
  revert st. induction rules as [|rule rules IH]; intros st; simpl.
  - apply history_extends_refl.
  - eapply history_extends_trans; [|apply IH].
    destruct (process_rule_cases Number_toString location weatherData
                earthquakeData st rule)
      as [(_ & -> & _)|(_ & _ & [(v & w & _ & _ & ->)|(v & ed & _ & _ & ->)])].
    + apply history_extends_refl.
    + apply history_extends_trigger_weather.
    + apply history_extends_trigger_earthquake.
Qed.

Lemma history_extends_auto_deactivate (location : Location.t)
    (triggered : gset Z) (ids : list Z) (s : Store) :
  history_extends (Location.id location) (alerts s)
    (alerts (fold_left (auto_deactivate_one location triggered) ids s)).
Proof.
  revert s. induction ids as [|i ids IH]; intros s; simpl.
  - apply history_extends_refl.
  - eapply history_extends_trans; [|apply IH].
    unfold auto_deactivate_one.
    destruct (bool_decide (i ∈ triggered)); [apply history_extends_refl|].
    destruct (0 <? length _)%nat;
      [apply history_extends_deactivate|apply history_extends_refl].
Qed.

Lemma history_extends_evaluate_rules (location : Location.t)
    (weatherData : option WeatherData)
    (earthquakeData : option EarthquakeData)
    (rules : list Rule.t) (s : Store) :
  history_extends (Location.id location) (alerts s)
    (alerts (evaluate_rules Number_toString location weatherData
               earthquakeData rules s)).
Proof.
  unfold evaluate_rules, auto_deactivate.
  pose proof (history_extends_fold_process_rule location weatherData
                earthquakeData rules (start_cycle s)) as Hloop.
  destruct weatherData as [w|]; [|exact Hloop].
  eapply history_extends_trans; [exact Hloop|].
  apply history_extends_auto_deactivate.
Qed.

(** X2.  The alert table is an append-only history: after
    [checkRulesAndAlert] every old row is still there, in its place; it is
    unchanged, or it was an active row of the call's location and has only
    lost its active flag; the rows added come after the old ones, belong
    to the call's location and have source 'System'.  No row is deleted,
    reactivated or rewritten, and no row of another location changes. *)
Theorem checkRulesAndAlert_history_append_only (location : Location.t)
    (weatherData : option WeatherData)
    (earthquakeData : option EarthquakeData) (s : Store) :
  exists kept added,
    alerts (checkRulesAndAlert Number_toString location weatherData
              earthquakeData s) = kept ++ added /\
    Forall2
      (fun a a' =>
         a' = a \/
         (Alert.location_id a = Location.id location /\
          Alert.is_active a = true /\ a' = deactivate_row a))
      (alerts s) kept /\
    Forall (fun a => Alert.location_id a = Location.id location /\
                     Alert.source a = "System") added.
Proof. apply history_extends_evaluate_rules. Qed.

(** The alert rows of a location. *)
Definition alerts_at (location_id : Z) (s : Store) : list Alert.t :=
  List.filter (fun a => Z.eqb (Alert.location_id a) location_id) (alerts s).

Lemma history_extends_elsewhere (l l' : Z) (rows rows' : list Alert.t) :
  l' <> l -> history_extends l rows rows' ->
  List.filter (fun a => Z.eqb (Alert.location_id a) l') rows' =
  List.filter (fun a => Z.eqb (Alert.location_id a) l') rows.
Proof.
  intros Hne (kept & added & -> & Hkept & Hadded).
  rewrite List.filter_app.
  assert (List.filter (fun a => Z.eqb (Alert.location_id a) l') added = [])
    as ->.
  { induction Hadded as [|a added [Hl _] _ IH]; simpl; [reflexivity|].
    rewrite Hl. destruct (Z.eqb_spec l l'); [congruence|exact IH]. }
  rewrite app_nil_r.
  induction Hkept as [|a a' rows kept Ha _ IH]; simpl; [reflexivity|].
  destruct Ha as [->|(Hl & _ & ->)].
  - rewrite IH. reflexivity.
  - simpl. rewrite Hl. destruct (Z.eqb_spec l l'); [congruence|exact IH].
Qed.

Lemma alerts_at_checkRulesAndAlert (location : Location.t)
    (weatherData : option WeatherData)
    (earthquakeData : option EarthquakeData) (s : Store) (l : Z) :
  l <> Location.id location ->
  alerts_at l
    (checkRulesAndAlert Number_toString location weatherData earthquakeData s)
  = alerts_at l s.
Proof.
  intros Hne. apply (history_extends_elsewhere (Location.id location) l);
    [exact Hne|apply history_extends_evaluate_rules].
Qed.

(** ** The ids of alert rows *)

(** The ids are distinct and below the [AUTO_INCREMENT] counter. *)
Definition ids_fresh (s : Store) : Prop :=
  NoDup (map Alert.id (alerts s)) /\
  Forall (fun a => Alert.id a < alerts_auto_increment s) (alerts s).

Lemma ids_fresh_deactivate (d l : Z) (s : Store) :
  ids_fresh s -> ids_fresh (deactivate d l s).
Proof.
  unfold ids_fresh, deactivate. simpl. intros [Hnd Hlt].
  assert (Hids :
    map Alert.id
      (map (fun a => if active_for d l a then deactivate_row a else a)
         (alerts s)) = map Alert.id (alerts s)).
  { rewrite map_map. apply map_ext. intros a.
    destruct (active_for d l a); reflexivity. }
  split; [rewrite Hids; exact Hnd|].
  clear - Hlt. induction Hlt as [|a rows Ha _ IH]; simpl; constructor;
    [destruct (active_for d l a); exact Ha|exact IH].
Qed.

Lemma ids_fresh_insert (d l : Z) (t de sev src : string)
    (ext : option string) (s : Store) :
  ids_fresh s -> ids_fresh (insert_alert d l t de sev src ext s).
Proof.
  unfold ids_fresh, insert_alert. simpl. intros [Hnd Hlt]. split.
  - rewrite map_app. simpl. apply NoDup_app. repeat split.
    + exact Hnd.
    + intros i Hi Hk. apply list_elem_of_In in Hi, Hk.
      destruct Hk as [<-|[]]. apply in_map_iff in Hi as (a & Hid & Ha).
      rewrite List.Forall_forall in Hlt. specialize (Hlt a Ha). lia.
    + apply NoDup_singleton.
  - apply Forall_app. split.
    + eapply List.Forall_impl; [|exact Hlt]. simpl. intros a Ha. lia.
    + constructor; [simpl; lia|constructor].
Qed.

Lemma ids_fresh_evaluate_rules (location : Location.t)
    (weatherData : option WeatherData)
    (earthquakeData : option EarthquakeData)
    (rules : list Rule.t) (s : Store) :
  ids_fresh s ->
  ids_fresh
    (evaluate_rules Number_toString location weatherData earthquakeData
       rules s).
Proof.
  intros Hs. unfold evaluate_rules.
  assert (Hloop : forall st,
    ids_fresh (db st) ->
    ids_fresh
      (db (fold_left
             (process_rule Number_toString location weatherData
                earthquakeData) rules st))).
  { induction rules as [|rule rules IH]; intros st Hst; simpl; [exact Hst|].
    apply IH.
    destruct (process_rule_cases Number_toString location weatherData
                earthquakeData st rule)
      as [(_ & -> & _)|(_ & _ & [(v & w & _ & _ & ->)|(v & ed & _ & _ & ->)])].
    - exact Hst.
    - unfold trigger_weather. apply ids_fresh_insert.
      destruct (0 <? length _)%nat; [apply ids_fresh_deactivate|]; exact Hst.
    - unfold trigger_earthquake.
      destruct (0 <? length _)%nat; [exact Hst|].
      apply ids_fresh_insert, ids_fresh_deactivate. exact Hst. }
  specialize (Hloop (start_cycle s) Hs).
  destruct weatherData as [w|]; [|exact Hloop].
  unfold auto_deactivate.
  generalize dependent (db (fold_left
    (process_rule Number_toString location (Some w) earthquakeData) rules
    (start_cycle s))).
  induction (weatherDisasterIds rules) as [|i ids IH]; intros s' Hs';
    simpl; [exact Hs'|].
  apply IH. unfold auto_deactivate_one.
  destruct (bool_decide (i ∈ _)); [exact Hs'|].
  destruct (0 <? length _)%nat; [apply ids_fresh_deactivate|]; exact Hs'.
Qed.

(** X3.  The ids of the alert rows stay distinct and below the
    [AUTO_INCREMENT] counter: every row a call inserts gets an id no
    other row has. *)
Theorem checkRulesAndAlert_ids_fresh (location : Location.t)
    (weatherData : option WeatherData)
    (earthquakeData : option EarthquakeData) (s : Store) :
  NoDup (map Alert.id (alerts s)) ->
  Forall (fun a => Alert.id a < alerts_auto_increment s) (alerts s) ->
  NoDup
    (map Alert.id
       (alerts (checkRulesAndAlert Number_toString location weatherData
                  earthquakeData s))) /\
  Forall
    (fun a =>
       Alert.id a <
       alerts_auto_increment
         (checkRulesAndAlert Number_toString location weatherData
            earthquakeData s))
    (alerts (checkRulesAndAlert Number_toString location weatherData
               earthquakeData s)).
Proof.
  intros Hnd Hlt.
  apply (ids_fresh_evaluate_rules location weatherData earthquakeData _ s).
  split; assumption.
Qed.

(** ** Which rules a call loads *)

Lemma select_rules_In (l : Z) (s : Store) (r : Rule.t) :
  In r (select_rules l s) <->
  In r (alert_rules s) /\ Rule.is_active r = true /\
  (Rule.location_id r = None \/ Rule.location_id r = Some l) /\
  exists d, In d (disasters s) /\ Disaster.id d = Rule.disaster_id r /\
            Disaster.is_active d = true.
Proof.
  unfold select_rules. rewrite in_flat_map. split.
  - intros (ar & Har & Hr). apply in_map_iff in Hr as (d & <- & Hd).
    apply List.filter_In in Hd as [Hd Hc].
    apply andb_true_iff in Hc as [Hc Hract].
    apply andb_true_iff in Hc as [Hc Hdact].
    apply andb_true_iff in Hc as [Hid Hloc].
    apply Z.eqb_eq in Hid. repeat split; auto.
    + destruct (Rule.location_id ar) as [l'|]; [|auto].
      apply Z.eqb_eq in Hloc. subst. auto.
    + exists d. auto.
  - intros (Har & Hract & Hloc & d & Hd & Hid & Hdact).
    exists r. split; [exact Har|]. apply in_map_iff. exists d.
    split; [reflexivity|]. apply List.filter_In. split; [exact Hd|].
    rewrite Hid, Z.eqb_refl, Hdact, Hract.
    destruct Hloc as [->| ->]; [reflexivity|]. rewrite Z.eqb_refl. reflexivity.
Qed.

(** X4.  A disaster that is switched off is frozen: when every row of
    [disasters] with its id is inactive, [checkRulesAndAlert] loads none of
    its rules, so it raises no alert for it and clears none, whatever the
    readings; alerts of it that are active stay active. *)
Theorem checkRulesAndAlert_inactive_disaster_frozen (location : Location.t)
    (weatherData : option WeatherData)
    (earthquakeData : option EarthquakeData) (s : Store) (d : Z) :
  (forall dis, In dis (disasters s) -> Disaster.id dis = d ->
               Disaster.is_active dis = false) ->
  alerts_of_disaster d
    (checkRulesAndAlert Number_toString location weatherData earthquakeData s)
  = alerts_of_disaster d s.
Proof.
  intros Hoff.
  assert (Hnone : forall r, In r (select_rules (Location.id location) s) ->
                            Rule.disaster_id r <> d).
  { intros r Hr Hd. apply select_rules_In in Hr
      as (_ & _ & _ & dis & Hdis & Hid & Hact).
    rewrite (Hoff dis Hdis) in Hact; [discriminate|congruence]. }
  unfold checkRulesAndAlert, evaluate_rules.
  pose proof (fold_process_rule_alerts_of_disaster Number_toString location
                weatherData earthquakeData
                (select_rules (Location.id location) s) (start_cycle s) d)
    as Hloop.
  assert (Hloop' := Hloop (fun r Hr Hd => False_ind _ (Hnone r Hr Hd))).
  destruct weatherData as [w|]; [|exact Hloop'].
  unfold auto_deactivate. rewrite auto_deactivate_alerts_of_disaster.
  - exact Hloop'.
  - apply weatherDisasterIds_weather_rule. intros r Hr Hd.
    destruct (Hnone r Hr Hd).
Qed.

(** ** Point events: one row per event, and the first tier wins *)

Section EventView.

Context {A : Type} (g : Alert.t -> A).
Hypothesis g_deactivate_row : forall a, g (deactivate_row a) = g a.

(** A view of the alert rows of a location that carry an external id. *)
Definition event_view (x : string) (l : Z) (s : Store) : list A :=
  map g (List.filter (carries x l) (alerts s)).

Lemma event_view_deactivate (x : string) (l d l' : Z) (s : Store) :
  event_view x l (deactivate d l' s) = event_view x l s.
Proof.
  unfold event_view, deactivate. simpl.
  induction (alerts s) as [|a rows IH]; simpl; [reflexivity|].
  destruct (active_for d l' a).
  - rewrite carries_deactivate_row. destruct (carries x l a); simpl;
      rewrite IH, ?g_deactivate_row; reflexivity.
  - destruct (carries x l a); simpl; rewrite IH; reflexivity.
Qed.

Lemma event_view_trigger_weather (x : string) (l : Z)
    (location : Location.t) (rule : Rule.t) (v : float) (s : Store) :
  event_view x l (trigger_weather Number_toString location rule v s) =
  event_view x l s.
Proof.
  unfold trigger_weather.
  set (s' := if (0 <? length _)%nat then _ else s).
  assert (event_view x l s' = event_view x l s) as <-.
  { subst s'. destruct (0 <? length _)%nat; [|reflexivity].
    apply event_view_deactivate. }
  unfold event_view, insert_alert. simpl.
  rewrite List.filter_app. simpl. rewrite app_nil_r. reflexivity.
Qed.

Lemma event_view_auto_deactivate (x : string) (l : Z)
    (location : Location.t) (triggered : gset Z) (ids : list Z) (s : Store) :
  event_view x l (fold_left (auto_deactivate_one location triggered) ids s) =
  event_view x l s.
Proof.
  revert s. induction ids as [|i ids IH]; intros s; simpl; [reflexivity|].
  rewrite IH. unfold auto_deactivate_one.
  destruct (bool_decide (i ∈ triggered)); [reflexivity|].
  destruct (0 <? length _)%nat; [|reflexivity].
  apply event_view_deactivate.
Qed.

Lemma event_view_empty (ed : EarthquakeData) (location : Location.t)
    (s : Store) :
  already_alerted ed location s = false ->
  event_view (eq_id ed) (Location.id location) s = [].
Proof.
  unfold already_alerted, event_view. intros H.
  induction (alerts s) as [|a rows IH]; simpl in *; [reflexivity|].
  apply orb_false_iff in H as [-> H]. apply IH. exact H.
Qed.

Lemma already_alerted_event_view (ed : EarthquakeData)
    (location : Location.t) (s s' : Store) :
  event_view (eq_id ed) (Location.id location) s' =
  event_view (eq_id ed) (Location.id location) s ->
  already_alerted ed location s' = already_alerted ed location s.
Proof.
  unfold already_alerted, event_view. intros H.
  apply (f_equal (@length A)) in H. rewrite !length_map in H.
  assert (Hex : forall rows,
    existsb (carries (eq_id ed) (Location.id location)) rows =
    (0 <? length (List.filter (carries (eq_id ed) (Location.id location))
                    rows))%nat).
  { induction rows as [|a rows IH]; simpl; [reflexivity|].
    destruct (carries _ _ a); simpl; [reflexivity|exact IH]. }
  rewrite !Hex, H. reflexivity.
Qed.

(** The entry of the row a fresh earthquake trigger inserts. *)
Definition earthquake_entry (location : Location.t) (rule : Rule.t)
    (v : float) (ed : EarthquakeData) (s : Store) : A :=
  g (new_alert (alerts_auto_increment s) (Rule.disaster_id rule)
       (Location.id location) (alert_title rule "Seismic Event Detected")
       (earthquake_description Number_toString rule v ed)
       (js_or (Rule.severity_level rule) "Medium") "System"
       (Some (eq_id ed)) (now s)).

Lemma event_view_insert_carrying (x : string) (l d : Z)
    (t de sev src : string) (s : Store) :
  event_view x l (insert_alert d l t de sev src (Some x) s) =
  event_view x l s ++
  [g (new_alert (alerts_auto_increment s) d l t de sev src (Some x) (now s))].
Proof.
  unfold event_view, insert_alert. simpl.
  rewrite List.filter_app, map_app. simpl.
  unfold carries at 2. simpl. rewrite String.eqb_refl, Z.eqb_refl.
  reflexivity.
Qed.

Lemma event_view_trigger_earthquake_fresh (location : Location.t)
    (rule : Rule.t) (v : float) (ed : EarthquakeData) (s : Store) :
  already_alerted ed location s = false ->
  event_view (eq_id ed) (Location.id location)
    (trigger_earthquake Number_toString location rule v ed s) =
  [earthquake_entry location rule v ed s].
Proof.
  intros Hfresh. rewrite trigger_earthquake_fresh by exact Hfresh.
  rewrite event_view_insert_carrying, event_view_deactivate.
  rewrite (event_view_empty _ _ _ Hfresh). reflexivity.
Qed.

(** Once the event is alerted the view no longer changes. *)
Lemma event_view_fold_alerted (location : Location.t)
    (weatherData : option WeatherData) (ed : EarthquakeData)
    (rules : list Rule.t) (st : Cycle) :
  already_alerted ed location (db st) = true ->
  event_view (eq_id ed) (Location.id location)
    (db (fold_left
           (process_rule Number_toString location weatherData (Some ed))
           rules st)) =
  event_view (eq_id ed) (Location.id location) (db st).
Proof.
  revert st. induction rules as [|rule rules IH]; intros st Hdup; simpl.
  - reflexivity.
  - assert (Hstep :
      event_view (eq_id ed) (Location.id location)
        (db (process_rule Number_toString location weatherData (Some ed)
               st rule)) =
      event_view (eq_id ed) (Location.id location) (db st)).
    { destruct (process_rule_cases Number_toString location weatherData
                  (Some ed) st rule)
        as [(_ & -> & _)
           |(_ & _ & [(v & w & _ & _ & ->)|(v & ed' & _ & Hed & ->)])].
      - reflexivity.
      - apply event_view_trigger_weather.
      - injection Hed as <-.
        rewrite trigger_earthquake_dedup by exact Hdup. reflexivity. }
    rewrite IH; [exact Hstep|].
    rewrite (already_alerted_event_view _ _ _ _ Hstep). exact Hdup.
Qed.

(** Over a whole rule loop the view keeps its rows and gains at most
    one. *)
Lemma event_view_fold_grows (location : Location.t)
    (weatherData : option WeatherData) (ed : EarthquakeData)
    (rules : list Rule.t) (st : Cycle) :
  exists added,
    event_view (eq_id ed) (Location.id location)
      (db (fold_left
             (process_rule Number_toString location weatherData (Some ed))
             rules st)) =
    event_view (eq_id ed) (Location.id location) (db st) ++ added /\
    (length added <= 1)%nat /\
    (already_alerted ed location (db st) = true -> added = []).
Proof.
  revert st. induction rules as [|rule rules IH]; intros st; simpl.
  - exists []. rewrite app_nil_r. split; [reflexivity|].
    split; [simpl; lia|reflexivity].
  - destruct (already_alerted ed location (db st)) eqn:Hdup.
    + exists []. rewrite app_nil_r. split; [|split; [simpl; lia|reflexivity]].
      apply (event_view_fold_alerted location weatherData ed (rule :: rules)
               st Hdup).
    + destruct (process_rule_cases Number_toString location weatherData
                  (Some ed) st rule)
        as [(_ & Hdb & _)
           |(_ & _ & [(v & w & _ & _ & Hdb)|(v & ed' & _ & Hed & Hdb)])].
      * destruct (IH (process_rule Number_toString location weatherData
                        (Some ed) st rule)) as (added & Heq & Hlen & _).
        exists added. rewrite Heq, Hdb.
        split; [reflexivity|split; [exact Hlen|discriminate]].
      * destruct (IH (process_rule Number_toString location weatherData
                        (Some ed) st rule)) as (added & Heq & Hlen & _).
        exists added. rewrite Heq, Hdb, event_view_trigger_weather.
        split; [reflexivity|split; [exact Hlen|discriminate]].
      * injection Hed as <-.
        exists [earthquake_entry location rule v ed (db st)].
        split; [|split; [simpl; lia|discriminate]].
        rewrite event_view_fold_alerted.
        -- rewrite Hdb, event_view_trigger_earthquake_fresh by exact Hdup.
           rewrite (event_view_empty _ _ _ Hdup). reflexivity.
        -- rewrite Hdb, trigger_earthquake_fresh by exact Hdup.
           unfold already_alerted, insert_alert. simpl.
           rewrite existsb_app. simpl. unfold carries at 2. simpl.
           rewrite String.eqb_refl, Z.eqb_refl. simpl.
           apply orb_true_r.
Qed.

End EventView.

(** X5.  An event adds at most one alert row per location: after
    [checkRulesAndAlert] with an event, the rows of the location that
    carry the event's id are those from before plus at most one, and none
    is added when there was one; so at most one row carries the id after
    the call when at most one did before, however many earthquake rules
    trigger. *)
Theorem checkRulesAndAlert_one_row_per_event (location : Location.t)
    (weatherData : option WeatherData) (ed : EarthquakeData) (s : Store) :
  (length (select_by_external_id (eq_id ed) (Location.id location) s)
   <= 1)%nat ->
  (length
     (select_by_external_id (eq_id ed) (Location.id location)
        (checkRulesAndAlert Number_toString location weatherData (Some ed) s))
   <= 1)%nat.
Proof.
  intros Hone.
  change (select_by_external_id (eq_id ed) (Location.id location))
    with (event_view Alert.id (eq_id ed) (Location.id location)) in *.
  unfold checkRulesAndAlert, evaluate_rules.
  destruct (event_view_fold_grows Alert.id (fun _ => eq_refl) location
              weatherData ed (select_rules (Location.id location) s)
              (start_cycle s)) as (added & Heq & Hlen & Hnone).
  assert (Hloop :
    (length
       (event_view Alert.id (eq_id ed) (Location.id location)
          (db (fold_left
                 (process_rule Number_toString location weatherData (Some ed))
                 (select_rules (Location.id location) s) (start_cycle s))))
     <= 1)%nat).
  { rewrite Heq, length_app.
    destruct (already_alerted ed location s) eqn:Hdup.
    - rewrite (Hnone Hdup). simpl in *. lia.
    - rewrite (event_view_empty Alert.id ed location (db (start_cycle s)) Hdup).
      simpl. exact Hlen. }
  destruct weatherData as [w|]; [|exact Hloop].
  unfold auto_deactivate.
  rewrite (event_view_auto_deactivate Alert.id (fun _ => eq_refl)).
  exact Hloop.
Qed.




(** The invariant of C1 for any list of rules. *)
Lemma evaluate_rules_at_most_one (location : Location.t)
    (weatherData : option WeatherData)
    (earthquakeData : option EarthquakeData)
    (rules : list Rule.t) (s : Store) :
  at_most_one_active s ->
  at_most_one_active
    (evaluate_rules Number_toString location weatherData earthquakeData
       rules s).
Proof.
  intros Hinv. unfold evaluate_rules.
  pose proof (fold_process_rule_at_most_one Number_toString location
                weatherData earthquakeData rules (start_cycle s) Hinv)
    as Hloop.
  destruct weatherData as [w|]; [|exact Hloop].
  intros d l. unfold auto_deactivate.
  etransitivity; [apply auto_deactivate_length|]. apply Hloop.
Qed.

End Lifecycle.

(** ** The cycles and the loops *)

Section Cycles.

Variables Math_sin Math_cos Math_sqrt : float -> float.
Variable Math_atan2 : float -> float -> float.
Variable Number_toString : float -> string.

Lemma at_most_one_active_alerts (s s' : Store) :
  alerts s' = alerts s -> at_most_one_active s -> at_most_one_active s'.
Proof.
  intros Heq Hinv d l. unfold active_alerts. rewrite Heq. apply Hinv.
Qed.

Lemma alerts_logWeatherData (locationId : Z) (data : option WeatherData)
    (earthquakeData : option EarthquakeData) (s : Store) :
  alerts (logWeatherData locationId data earthquakeData s) = alerts s.
Proof.
  unfold logWeatherData. destruct data; [|reflexivity].
  destruct (0 <? length _)%nat; reflexivity.
Qed.

Lemma alerts_logEarthquakeData (locationId : Z)
    (earthquakeData : option EarthquakeData) (s : Store) :
  alerts (logEarthquakeData locationId earthquakeData s) = alerts s.
Proof.
  unfold logEarthquakeData. destruct earthquakeData as [ed|]; [|reflexivity].
  destruct (magnitude ed); [|reflexivity].
  destruct (existsb _ _); reflexivity.
Qed.




(** One location of a weather cycle, and of a point-event cycle. *)
Definition weather_step
    (fetchWeatherData : float -> float -> option WeatherData)
    (cache : option (list Feature)) : Store -> Location.t -> Store :=
  weather_check_location Math_sin Math_cos Math_sqrt Math_atan2
    Number_toString fetchWeatherData cache.

Definition earthquake_step (earthquakes : list Feature)
    : Store -> Location.t -> Store :=
  earthquake_check_location Math_sin Math_cos Math_sqrt Math_atan2
    Number_toString earthquakes.

Lemma weather_step_at_most_one
    (fetchWeatherData : float -> float -> option WeatherData)
    (cache : option (list Feature)) (s : Store) (location : Location.t) :
  at_most_one_active s ->
  at_most_one_active (weather_step fetchWeatherData cache s location).
Proof.
  intros Hinv. unfold weather_step, weather_check_location.
  destruct (fetchWeatherData _ _) as [w|]; [|exact Hinv].
  apply evaluate_rules_at_most_one.
  apply (at_most_one_active_alerts s); [apply alerts_logWeatherData|exact Hinv].
Qed.

Lemma earthquake_step_at_most_one (earthquakes : list Feature) (s : Store)
    (location : Location.t) :
  at_most_one_active s ->
  at_most_one_active (earthquake_step earthquakes s location).
Proof.
  intros Hinv. unfold earthquake_step, earthquake_check_location.
  destruct (checkEarthquakesNearLocation _ _ _ _ _ _ _ _) as [ed|];
    [|exact Hinv].
  apply evaluate_rules_at_most_one.
  apply (at_most_one_active_alerts s);
    [apply alerts_logEarthquakeData|exact Hinv].
Qed.

Lemma fold_left_preserves {S E : Type} (P : S -> Prop) (f : S -> E -> S)
    (l : list E) (s : S) :
  (forall s e, P s -> P (f s e)) -> P s -> P (fold_left f l s).
Proof.
  intros Hstep. revert s. induction l as [|e l IH]; intros s Hs; simpl;
    [exact Hs|]. apply IH, Hstep, Hs.
Qed.

(** X7.  Both scheduler loops keep "at most one active alert row per
    (disaster, location)": a full weather cycle over all active
    locations, and a full point-event cycle, each followed by re-arming
    the timer, preserve it for every provider answer and every feed. *)
Theorem loops_keep_at_most_one_active
    (fetchWeatherData : float -> float -> option WeatherData)
    (earthquakes : list Feature) (date_now : Z) (sc : Scheduler) :
  at_most_one_active (store sc) ->
  at_most_one_active
    (store (weatherLoop Math_sin Math_cos Math_sqrt Math_atan2 Number_toString
              fetchWeatherData sc)) /\
  at_most_one_active
    (store (earthquakeLoop Math_sin Math_cos Math_sqrt Math_atan2
              Number_toString earthquakes date_now sc)).
Proof.
  intros Hinv. split.
  - unfold weatherLoop, runWeatherCheck. simpl.
    apply (fold_left_preserves at_most_one_active
             (weather_step fetchWeatherData (cachedEarthquakes sc)));
      [|exact Hinv].
    intros s e. apply weather_step_at_most_one.
  - unfold earthquakeLoop, runEarthquakeCheck. simpl.
    apply (fold_left_preserves at_most_one_active
             (earthquake_step earthquakes)); [|exact Hinv].
    intros s e. apply earthquake_step_at_most_one.
Qed.

(** X8.  When the weather provider is down for a location (the fetch
    returns null) the weather cycle does nothing for it: with the provider
    down for every active location the store is unchanged, so no reading
    is logged, no alert is raised and none is cleared. *)
Theorem runWeatherCheck_provider_down
    (fetchWeatherData : float -> float -> option WeatherData)
    (sc : Scheduler) :
  (forall location, In location (select_active_locations (store sc)) ->
     fetchWeatherData (Location.latitude location)
       (Location.longitude location) = None) ->
  runWeatherCheck Math_sin Math_cos Math_sqrt Math_atan2 Number_toString
    fetchWeatherData sc = sc.
Proof.
  intros Hdown. unfold runWeatherCheck.
  assert (Hfold : forall locs s,
    (forall location, In location locs ->
       fetchWeatherData (Location.latitude location)
         (Location.longitude location) = None) ->
    fold_left (weather_step fetchWeatherData (cachedEarthquakes sc))
      locs s = s).
  { intros locs. induction locs as [|location locs IH]; intros s Hall; simpl;
      [reflexivity|].
    unfold weather_step at 2, weather_check_location.
    rewrite (Hall location (or_introl eq_refl)).
    apply IH. intros l Hl. apply Hall. right. exact Hl. }
  fold (weather_step fetchWeatherData (cachedEarthquakes sc)).
  rewrite (Hfold _ _ Hdown). destruct sc. reflexivity.
Qed.

(** X9.  A point-event cycle whose feed has no event within 500 km of any
    active location changes nothing in the store (in particular an empty
    feed, which is what a failed fetch yields); it only replaces the feed
    cache and its time stamp. *)
Theorem runEarthquakeCheck_nothing_in_range (earthquakes : list Feature)
    (date_now : Z) (sc : Scheduler) :
  (forall location, In location (select_active_locations (store sc)) ->
     Forall
       (fun eq =>
          js_le
            (event_distance Math_sin Math_cos Math_sqrt Math_atan2
               (Location.latitude location) (Location.longitude location) eq)
            default_radiusKm = false) earthquakes) ->
  runEarthquakeCheck Math_sin Math_cos Math_sqrt Math_atan2 Number_toString
    earthquakes date_now sc =
  {| store := store sc; cachedEarthquakes := Some earthquakes;
     earthquakeFetchTime := Some date_now;
     weatherTimer := weatherTimer sc; earthquakeTimer := earthquakeTimer sc |}.
Proof.
  intros Hfar. unfold runEarthquakeCheck. f_equal.
  fold (earthquake_step earthquakes).
  generalize (store sc) at 2 3 as s.
  induction (select_active_locations (store sc)) as [|location locs IH];
    intros s; simpl; [reflexivity|].
  assert (Hnone :
    checkEarthquakesNearLocation Math_sin Math_cos Math_sqrt Math_atan2
      earthquakes (Location.latitude location) (Location.longitude location)
      default_radiusKm = None).
  { pose proof (fold_consider_strongest Math_sin Math_cos Math_sqrt Math_atan2
                  (Location.latitude location) (Location.longitude location)
                  default_radiusKm earthquakes [] None (List.Forall_nil _))
      as Hinv.
    simpl in Hinv.
    fold (checkEarthquakesNearLocation Math_sin Math_cos Math_sqrt Math_atan2
            earthquakes (Location.latitude location)
            (Location.longitude location) default_radiusKm) in Hinv.
    destruct (checkEarthquakesNearLocation _ _ _ _ _ _ _ _) as [m|];
      [|reflexivity].
    destruct Hinv as [(eq & Hin & Hw & _) _].
    pose proof (Hfar location (or_introl eq_refl)) as Hall.
    rewrite List.Forall_forall in Hall. specialize (Hall eq Hin).
    unfold within_radius in Hw. rewrite Hall in Hw. discriminate. }
  unfold earthquake_step at 2, earthquake_check_location. rewrite Hnone.
  apply IH. intros l Hl. apply Hfar. right. exact Hl.
Qed.

Lemma alerts_at_weather_step
    (fetchWeatherData : float -> float -> option WeatherData)
    (cache : option (list Feature)) (s : Store) (location : Location.t)
    (l : Z) :
  Location.id location <> l ->
  alerts_at l (weather_step fetchWeatherData cache s location) = alerts_at l s.
Proof.
  intros Hne. unfold weather_step, weather_check_location.
  destruct (fetchWeatherData _ _) as [w|]; [|reflexivity].
  rewrite alerts_at_checkRulesAndAlert by congruence.
  unfold alerts_at. rewrite alerts_logWeatherData. reflexivity.
Qed.

Lemma alerts_at_earthquake_step (earthquakes : list Feature) (s : Store)
    (location : Location.t) (l : Z) :
  Location.id location <> l ->
  alerts_at l (earthquake_step earthquakes s location) = alerts_at l s.
Proof.
  intros Hne. unfold earthquake_step, earthquake_check_location.
  destruct (checkEarthquakesNearLocation _ _ _ _ _ _ _ _) as [ed|];
    [|reflexivity].
  rewrite alerts_at_checkRulesAndAlert by congruence.
  unfold alerts_at. rewrite alerts_logEarthquakeData. reflexivity.
Qed.

Lemma alerts_at_fold (step : Store -> Location.t -> Store)
    (locs : list Location.t) (s : Store) (l : Z) :
  (forall s location, Location.id location <> l ->
     alerts_at l (step s location) = alerts_at l s) ->
  (forall location, In location locs -> Location.id location <> l) ->
  alerts_at l (fold_left step locs s) = alerts_at l s.
Proof.
  intros Hstep. revert s. induction locs as [|location locs IH];
    intros s Hall; simpl; [reflexivity|].
  rewrite IH by (intros x Hx; apply Hall; right; exact Hx).
  apply Hstep, Hall. left. reflexivity.
Qed.

(** X10.  The cycles evaluate active locations only: the alert rows of a
    location id that no active location has (a location switched off, or
    deleted) are the same after a weather cycle and after a point-event
    cycle; an alert of such a location that is active stays active. *)
Theorem cycles_skip_inactive_locations
    (fetchWeatherData : float -> float -> option WeatherData)
    (earthquakes : list Feature) (date_now : Z) (sc : Scheduler) (l : Z) :
  (forall location, In location (locations (store sc)) ->
     Location.id location = l -> Location.is_active location = false) ->
  alerts_at l
    (store (runWeatherCheck Math_sin Math_cos Math_sqrt Math_atan2
              Number_toString fetchWeatherData sc)) =
  alerts_at l (store sc) /\
  alerts_at l
    (store (runEarthquakeCheck Math_sin Math_cos Math_sqrt Math_atan2
              Number_toString earthquakes date_now sc)) =
  alerts_at l (store sc).
Proof.
  intros Hoff.
  assert (Hactive : forall location,
    In location (select_active_locations (store sc)) ->
    Location.id location <> l).
  { intros location Hin Hid. apply List.filter_In in Hin as [Hin Hact].
    rewrite (Hoff location Hin Hid) in Hact. discriminate. }
  split.
  - unfold runWeatherCheck. simpl.
    apply (alerts_at_fold
             (weather_step fetchWeatherData (cachedEarthquakes sc)));
      [|exact Hactive].
    intros s location. apply alerts_at_weather_step.
  - unfold runEarthquakeCheck. simpl.
    apply (alerts_at_fold (earthquake_step earthquakes)); [|exact Hactive].
    intros s location. apply alerts_at_earthquake_step.
Qed.




End Cycles.

(** ** The two logs *)

Section Logging.

Variable Number_toString : float -> string.

Lemma ForallOrdPairs_snoc {A : Type} (R : A -> A -> Prop) (l : list A)
    (x : A) :
  ForallOrdPairs R l -> Forall (fun a => R a x) l ->
  ForallOrdPairs R (l ++ [x]).
Proof.
  intros Hl Hx. induction Hl as [|a l Ha Hl IH]; simpl.
  - constructor; constructor.
  - inversion Hx as [|? ? Hax Hx']; subst. constructor.
    + apply Forall_app. split; [exact Ha|]. constructor; [exact Hax|constructor].
    + apply IH. exact Hx'.
Qed.

(** Two readings of one location, the second at least 25 seconds after
    the first. *)
Definition apart (a b : WeatherLog.t) : Prop :=
  WeatherLog.location_id a = WeatherLog.location_id b ->
  WeatherLog.fetched_at a + 25 <= WeatherLog.fetched_at b.

(** X12.  The weather log never holds two readings of one location less
    than 25 seconds apart: if every reading of a location comes at least
    25 seconds after the readings of that location before it, the same
    holds after [logWeatherData], which drops a reading that comes too
    early. *)
Theorem logWeatherData_keeps_readings_apart (locationId : Z)
    (data : option WeatherData) (earthquakeData : option EarthquakeData)
    (s : Store) :
  ForallOrdPairs apart (weather_logs s) ->
  ForallOrdPairs apart
    (weather_logs (logWeatherData locationId data earthquakeData s)).
Proof.
  intros Hs. unfold logWeatherData. destruct data as [data|]; [|exact Hs].
  destruct (0 <? length _)%nat eqn:E; [exact Hs|]. simpl.
  apply ForallOrdPairs_snoc; [exact Hs|].
  apply List.Forall_forall. intros a Ha Hloc. simpl in *.
  assert (Hout :
    (Z.eqb (WeatherLog.location_id a) locationId &&
     Z.ltb (now s - 25) (WeatherLog.fetched_at a)) = false).
  { destruct (Z.eqb (WeatherLog.location_id a) locationId &&
              Z.ltb (now s - 25) (WeatherLog.fetched_at a)) eqn:Hc;
      [|reflexivity].
    exfalso. clear - E Ha Hc.
    induction (weather_logs s) as [|b rows IH]; [destruct Ha|].
    simpl in E. destruct Ha as [->|Ha].
    - rewrite Hc in E. discriminate.
    - destruct (_ && _) in E; [discriminate|]. apply IH; assumption. }
  rewrite Hloc, Z.eqb_refl in Hout. simpl in Hout.
  apply Z.ltb_ge in Hout. lia.
Qed.

(** The key of the unique index of [earthquake_logs]. *)
Definition log_key (l : EarthquakeLog.t) : Z * string :=
  (EarthquakeLog.location_id l, EarthquakeLog.usgs_id l).




(** Rules that do not trigger leave the store. *)
Lemma fold_process_rule_no_trigger (location : Location.t)
    (weatherData : option WeatherData)
    (earthquakeData : option EarthquakeData)
    (rules : list Rule.t) (st : Cycle) :
  (forall r, In r rules ->
             rule_triggers r weatherData earthquakeData = false) ->
  db (fold_left
        (process_rule Number_toString location weatherData earthquakeData)
        rules st) = db st.
Proof.
  revert st. induction rules as [|rule rules IH]; intros st Hall; simpl.
  - reflexivity.
  - rewrite IH by (intros r Hr; apply Hall; right; exact Hr).
    destruct (process_rule_cases Number_toString location weatherData
                earthquakeData st rule) as [(_ & Hdb & _)|(Ht & _)];
      [exact Hdb|].
    rewrite (Hall rule (or_introl eq_refl)) in Ht. discriminate.
Qed.

(** X14.  An event whose magnitude is null has no effect in the
    point-event path: [logEarthquakeData] writes no row for it and
    [checkRulesAndAlert] with it (and no weather data) returns the store
    unchanged, since every earthquake rule is skipped for want of a
    value. *)
Theorem null_magnitude_event_is_ignored (location : Location.t)
    (ed : EarthquakeData) (s : Store) :
  magnitude ed = None ->
  logEarthquakeData (Location.id location) (Some ed) s = s /\
  checkRulesAndAlert Number_toString location None (Some ed) s = s.
Proof.
  intros Hnull. split.
  - unfold logEarthquakeData. rewrite Hnull. reflexivity.
  - unfold checkRulesAndAlert, evaluate_rules.
    apply (fold_process_rule_no_trigger location None (Some ed) _
             (start_cycle s)).
    intros r _. unfold rule_triggers, resolve_condition. simpl.
    rewrite Hnull.
    repeat match goal with
           | |- context [if ?c then _ else _] => destruct c
           end; reflexivity.
Qed.

End Logging.

(** ** [parseInt] *)

From Stdlib Require DecimalZ.

Section ParseInt.

(** The decimal numeral of an integer: what JavaScript prints for an
    integer-valued number of magnitude below 10^21. *)
Definition decimal (n : Z) : string := NilZero.string_of_int (Z.to_int n).





Lemma parse_digits_start (d : Decimal.uint) (rest : string) :
  d <> Decimal.Nil ->
  parse_digits None (NilEmpty.string_of_uint d ++ rest) =
  parse_digits (Some 0) (NilEmpty.string_of_uint d ++ rest).
Proof. destruct d; [congruence|reflexivity ..]. Qed.






End ParseInt.

(** ** The matcher and events out of range *)

Section Matcher.

Variables Math_sin Math_cos Math_sqrt : float -> float.
Variable Math_atan2 : float -> float -> float.

Lemma fold_consider_in_range (lat lon radiusKm : float)
    (earthquakes : list Feature) (maxEq : option EarthquakeData) :
  fold_left (consider Math_sin Math_cos Math_sqrt Math_atan2 lat lon radiusKm)
    earthquakes maxEq =
  fold_left (consider Math_sin Math_cos Math_sqrt Math_atan2 lat lon radiusKm)
    (List.filter
       (within_radius Math_sin Math_cos Math_sqrt Math_atan2 lat lon radiusKm)
       earthquakes) maxEq.
Proof.
  revert maxEq. induction earthquakes as [|eq earthquakes IH]; intros maxEq;
    simpl; [reflexivity|].
  destruct (within_radius _ _ _ _ lat lon radiusKm eq) eqn:E; simpl.
  - apply IH.
  - rewrite <- IH. f_equal. unfold consider. rewrite E. reflexivity.
Qed.

(** X16.  Events outside the radius never influence the answer of
    [checkEarthquakesNearLocation]: the result over a feed is the result
    over the events of the feed that lie within the radius; a stronger
    event farther away changes nothing. *)
Theorem checkEarthquakesNearLocation_ignores_out_of_range
    (earthquakes : list Feature) (lat lon radiusKm : float) :
  checkEarthquakesNearLocation Math_sin Math_cos Math_sqrt Math_atan2
    earthquakes lat lon radiusKm =
  checkEarthquakesNearLocation Math_sin Math_cos Math_sqrt Math_atan2
    (List.filter
       (fun eq =>
          js_le
            (event_distance Math_sin Math_cos Math_sqrt Math_atan2 lat lon eq)
            radiusKm) earthquakes) lat lon radiusKm.
Proof. apply fold_consider_in_range. Qed.

End Matcher.

(** ** routes/adminRoutes.js: settings and toggles *)

Section Admin.

Definition set_settings (m : gmap string string) (s : Store) : Store :=
  {| locations := locations s; disasters := disasters s;
     alert_rules := alert_rules s; alerts := alerts s;
     alerts_auto_increment := alerts_auto_increment s;
     weather_logs := weather_logs s; earthquake_logs := earthquake_logs s;
     settings := m; now := now s |}.

(** [hay.includes(needle)] *)
Fixpoint includes (needle hay : string) : bool :=
  match hay with
  | EmptyString => String.prefix needle hay
  | String _ rest => String.prefix needle hay || includes needle rest
  end.

(** The check of [PUT /settings] on one entry: a value that parses to an
    integer below 30 for a key that contains ['fetch_interval']. *)
Definition interval_too_short (key value : string) : bool :=
  match parseInt value with
  | Some intVal => Z.ltb intVal 30 && includes "fetch_interval" key
  | None => false
  end.

(** [PUT /settings]: the entries of the request body in the order of
    [Object.entries]; the status of the response and the store.  An
    entry is written by an insert that updates the value on a duplicate
    key. *)
Fixpoint put_settings (updates : list (string * string)) (s : Store)
    : Z * Store :=
  match updates with
  | [] => (200, s)
  | (key, value) :: rest =>
      if interval_too_short key value then (400, s)
      else put_settings rest (set_settings (<[key := value]> (settings s)) s)
  end.

Lemma put_settings_app (pre post : list (string * string)) (s : Store) :
  fst (put_settings pre s) = 200 ->
  put_settings (pre ++ post) s = put_settings post (snd (put_settings pre s)).
Proof.
  revert s. induction pre as [|[key value] pre IH]; intros s; simpl.
  - reflexivity.
  - destruct (interval_too_short key value); [discriminate|]. apply IH.
Qed.

(** X17.  [PUT /settings] is not atomic: when an entry is refused (an
    interval that parses to less than 30) the response is 400 and the
    entries before it in the request have been written already; those
    after it are not looked at. *)
Theorem put_settings_refusal_keeps_earlier_entries
    (pre post : list (string * string)) (key value : string) (s : Store) :
  fst (put_settings pre s) = 200 ->
  interval_too_short key value = true ->
  put_settings (pre ++ (key, value) :: post) s =
  (400, snd (put_settings pre s)).
Proof.
  intros Hpre Hshort. rewrite put_settings_app by exact Hpre.
  simpl. rewrite Hshort. reflexivity.
Qed.

Lemma put_settings_accepted (updates : list (string * string)) (s : Store) :
  fst (put_settings updates s) = 200 ->
  Forall (fun kv => interval_too_short (fst kv) (snd kv) = false) updates /\
  settings (snd (put_settings updates s)) =
  fold_left (fun m kv => <[fst kv := snd kv]> m) updates (settings s).
Proof.
  revert s. induction updates as [|[key value] updates IH]; intros s; simpl.
  - intros _. split; [constructor|reflexivity].
  - destruct (interval_too_short key value) eqn:E; [discriminate|].
    intros H. destruct (IH _ H) as [Hall Hset]. split.
    + constructor; [exact E|exact Hall].
    + exact Hset.
Qed.

Lemma fold_insert_lookup (updates : list (string * string))
    (m : gmap string string) (key value : string) :
  NoDup (map fst updates) -> In (key, value) updates ->
  fold_left (fun m kv => <[fst kv := snd kv]> m) updates m !! key =
  Some value.
Proof.
  revert m. induction updates as [|[k v] updates IH]; intros m Hnd Hin;
    [destruct Hin|].
  simpl in *. apply NoDup_cons in Hnd as [Hk Hnd].
  destruct Hin as [[= -> ->]|Hin].
  - clear IH. revert m. induction updates as [|[k' v'] updates IH];
      intros m; simpl.
    + apply lookup_insert_eq.
    + simpl in Hk. apply not_elem_of_cons in Hk as [Hne Hk].
      apply NoDup_cons in Hnd as [_ Hnd].
      rewrite insert_insert_ne by congruence. apply IH; assumption.
  - apply IH; assumption.
Qed.

Lemma fold_insert_lookup_other (updates : list (string * string))
    (m : gmap string string) (key : string) :
  ~ In key (map fst updates) ->
  fold_left (fun m kv => <[fst kv := snd kv]> m) updates m !! key = m !! key.
Proof.
  revert m. induction updates as [|[k v] updates IH]; intros m Hnot; simpl.
  - reflexivity.
  - rewrite IH by (intros H; apply Hnot; right; exact H).
    apply lookup_insert_ne. intros ->. apply Hnot. left. reflexivity.
Qed.

(** X18.  After a [PUT /settings] answered with 200, whose keys are
    distinct: every entry reads back as written and the other keys are
    as before; no interval written parses to less than 30, so
    [getSetting] returns for an interval key either an integer that is at
    least 30 or NaN. *)
Theorem put_settings_read_back (updates : list (string * string))
    (s : Store) :
  fst (put_settings updates s) = 200 ->
  NoDup (map fst updates) ->
  (forall key value, In (key, value) updates ->
     settings (snd (put_settings updates s)) !! key = Some value /\
     (includes "fetch_interval" key = true ->
      forall default n,
        getSetting key default (snd (put_settings updates s)) = Some n ->
        30 <= n)) /\
  (forall key, ~ In key (map fst updates) ->
     settings (snd (put_settings updates s)) !! key = settings s !! key).
Proof.
  intros Hok Hnd. destruct (put_settings_accepted updates s Hok)
    as [Hall Hset].
  split.
  - intros key value Hin.
    assert (Hget : settings (snd (put_settings updates s)) !! key = Some value)
      by (rewrite Hset; apply fold_insert_lookup; assumption).
    split; [exact Hget|]. intros Hkey default n.
    unfold getSetting. rewrite Hget. intros Hparse.
    rewrite List.Forall_forall in Hall. specialize (Hall _ Hin).
    simpl in Hall. unfold interval_too_short in Hall.
    rewrite Hparse, Hkey, andb_true_r in Hall.
    apply Z.ltb_ge in Hall. exact Hall.
  - intros key Hnot. rewrite Hset. apply fold_insert_lookup_other. exact Hnot.
Qed.

End Admin.

(** ** The matcher and ties *)

Section Ties.

Variables Math_sin Math_cos Math_sqrt : float -> float.
Variable Math_atan2 : float -> float -> float.

Lemma SFcompare_eq_left (x y z : spec_float) :
  SFcompare x y = Some Eq -> SFcompare x z = SFcompare y z.
Proof.
  destruct x as [sx|sx| |sx mx ex], y as [sy|sy| |sy my ey]; simpl;
    try discriminate;
    repeat match goal with s : bool |- _ => destruct s end;
    simpl; try discriminate; try reflexivity; intros H;
    try (destruct z; reflexivity).
  - destruct (ex ?= ey)%Z eqn:E; try discriminate.
    apply Z.compare_eq in E. subst ey.
    change (Pos.compare_cont Eq mx my) with (mx ?= my)%positive in H.
    destruct (mx ?= my)%positive eqn:M; try discriminate.
    apply Pos.compare_eq in M. subst my. reflexivity.
  - destruct (ex ?= ey)%Z eqn:E; try discriminate.
    apply Z.compare_eq in E. subst ey.
    change (Pos.compare_cont Eq mx my) with (mx ?= my)%positive in H.
    destruct (mx ?= my)%positive eqn:M; try discriminate.
    apply Pos.compare_eq in M. subst my. reflexivity.
Qed.

Lemma leb_ltb_trans (a b c : float) :
  PrimFloat.leb a b = true -> PrimFloat.ltb b c = true ->
  PrimFloat.ltb a c = true.
Proof.
  rewrite FloatAxioms.leb_spec, !FloatAxioms.ltb_spec. unfold SFleb, SFltb.
  intros Hab Hbc.
  destruct (SFcompare (Prim2SF a) (Prim2SF b)) as [[]|] eqn:E1;
    try discriminate.
  - rewrite (SFcompare_eq_left _ _ _ E1). exact Hbc.
  - destruct (SFcompare (Prim2SF b) (Prim2SF c)) as [[]|] eqn:E2;
      try discriminate.
    now rewrite (FloatOrder.SFcompare_lt_trans _ _ _ E1 E2).
Qed.

(** What the loop maintains when every magnitude is a number: the
    running maximum is the first of the strongest events in range. *)
Definition first_strongest_of (lat lon radiusKm : float)
    (seen : list Feature) (maxEq : option EarthquakeData) : Prop :=
  let within :=
    within_radius Math_sin Math_cos Math_sqrt Math_atan2 lat lon radiusKm in
  match maxEq with
  | None => Forall (fun eq => within eq = false) seen
  | Some m =>
      exists before eq after,
        seen = before ++ eq :: after /\
        within eq = true /\
        m = candidate Math_sin Math_cos Math_sqrt Math_atan2 lat lon eq /\
        Forall (fun c => within c = true ->
                  js_lt (ToNumber (mag c)) (ToNumber (mag eq)) = true) before /\
        Forall (fun c => within c = true ->
                  js_le (ToNumber (mag c)) (ToNumber (mag eq)) = true) after
  end.

Lemma consider_first_strongest (lat lon radiusKm : float)
    (seen : list Feature) (maxEq : option EarthquakeData) (eq : Feature) :
  Forall (fun c => is_number (ToNumber (mag c)) = true) seen ->
  is_number (ToNumber (mag eq)) = true ->
  first_strongest_of lat lon radiusKm seen maxEq ->
  first_strongest_of lat lon radiusKm (seen ++ [eq])
    (consider Math_sin Math_cos Math_sqrt Math_atan2 lat lon radiusKm
       maxEq eq).
Proof.
  unfold consider, first_strongest_of. intros Hnum Hn Hinv.
  destruct (within_radius _ _ _ _ lat lon radiusKm eq) eqn:Hin.
  - destruct maxEq as [m|].
    + destruct Hinv as (before & e0 & after & -> & Hw0 & -> & Hb & Ha).
      simpl. unfold stronger, js_gt.
      destruct (PrimFloat.ltb (ToNumber (mag e0)) (ToNumber (mag eq)))
        eqn:Hgt.
      * exists (before ++ e0 :: after), eq, []. repeat split; auto.
        apply Forall_app. split; [|constructor].
        -- eapply List.Forall_impl; [|exact Hb]. simpl. intros c Hc Hwc.
           unfold js_lt in *. eapply FloatOrder.ltb_trans; eauto.
        -- intros _. exact Hgt.
        -- eapply List.Forall_impl; [|exact Ha]. simpl. intros c Hc Hwc.
           unfold js_lt, js_le in *. eapply leb_ltb_trans; eauto.
      * exists before, e0, (after ++ [eq]). repeat split; auto.
        -- rewrite <- app_assoc. reflexivity.
        -- apply Forall_app. split; [exact Ha|].
           constructor; [|constructor]. intros _. unfold js_le.
           apply float_total; [| |exact Hgt].
           ++ apply Forall_app in Hnum as [_ Hnum].
              apply List.Forall_inv in Hnum. exact Hnum.
           ++ exact Hn.
    + exists seen, eq, []. repeat split; auto.
      eapply List.Forall_impl; [|exact Hinv]. simpl. intros c Hc Hwc.
      congruence.
  - destruct maxEq as [m|].
    + destruct Hinv as (before & e0 & after & -> & Hw0 & -> & Hb & Ha).
      exists before, e0, (after ++ [eq]). repeat split; auto.
      * rewrite <- app_assoc. reflexivity.
      * apply Forall_app. split; [exact Ha|].
        constructor; [|constructor]. congruence.
    + apply Forall_app. split; [exact Hinv|].
      constructor; [exact Hin|constructor].
Qed.

Lemma fold_consider_first_strongest (lat lon radiusKm : float)
    (rest seen : list Feature) (maxEq : option EarthquakeData) :
  Forall (fun c => is_number (ToNumber (mag c)) = true) (seen ++ rest) ->
  first_strongest_of lat lon radiusKm seen maxEq ->
  first_strongest_of lat lon radiusKm (seen ++ rest)
    (fold_left
       (consider Math_sin Math_cos Math_sqrt Math_atan2 lat lon radiusKm)
       rest maxEq).
Proof.
  revert seen maxEq. induction rest as [|eq rest IH]; intros seen maxEq Hnum Hinv.
  - rewrite app_nil_r. exact Hinv.
  - simpl. replace (seen ++ eq :: rest) with ((seen ++ [eq]) ++ rest) in *
      by (rewrite <- app_assoc; reflexivity).
    apply IH; [exact Hnum|].
    apply Forall_app in Hnum as [Hnum _]. apply Forall_app in Hnum as [Hs He].
    apply consider_first_strongest; [exact Hs| |exact Hinv].
    apply List.Forall_inv in He. exact He.
Qed.

(** X19.  Ties go to the earliest event.  On a feed whose magnitudes are
    numbers or [null] (not NaN), the event [checkEarthquakesNearLocation]
    returns is the first event in range of the greatest magnitude: every
    event in range before it in the feed is strictly weaker, every event
    in range after it is weaker or equal. *)
Theorem checkEarthquakesNearLocation_first_of_strongest
    (earthquakes : list Feature) (lat lon radiusKm : float)
    (m : EarthquakeData) :
  Forall (fun c => is_number (ToNumber (mag c)) = true) earthquakes ->
  checkEarthquakesNearLocation Math_sin Math_cos Math_sqrt Math_atan2
    earthquakes lat lon radiusKm = Some m ->
  exists before eq after,
    earthquakes = before ++ eq :: after /\
    m = candidate Math_sin Math_cos Math_sqrt Math_atan2 lat lon eq /\
    js_le (event_distance Math_sin Math_cos Math_sqrt Math_atan2 lat lon eq)
      radiusKm = true /\
    Forall
      (fun c =>
         js_le (event_distance Math_sin Math_cos Math_sqrt Math_atan2
                  lat lon c) radiusKm = true ->
         js_lt (ToNumber (mag c)) (ToNumber (mag eq)) = true) before /\
    Forall
      (fun c =>
         js_le (event_distance Math_sin Math_cos Math_sqrt Math_atan2
                  lat lon c) radiusKm = true ->
         js_le (ToNumber (mag c)) (ToNumber (mag eq)) = true) after.
Proof.
  intros Hnum Hres.
  pose proof (fold_consider_first_strongest lat lon radiusKm earthquakes []
                None Hnum (List.Forall_nil _)) as H.
  simpl in H.
  fold (checkEarthquakesNearLocation Math_sin Math_cos Math_sqrt Math_atan2
          earthquakes lat lon radiusKm) in H.
  rewrite Hres in H. unfold first_strongest_of in H.
  destruct H as (before & eq & after & -> & Hw & -> & Hb & Ha).
  exists before, eq, after. repeat split; assumption.
Qed.

End Ties.

(** ** A triggering rule and the active alert *)

Section Raise.

Variable Number_toString : float -> string.




End Raise.

(** ** routes/adminRoutes.js: the simulators

    The body of a request is read as JSON: a field is a number, or is
    [null] or missing ([None]). *)

Module WeatherRequest.
Record t := mk {
  location_id : option Z;
  temperature : option float;
  rain_sum : option float;
  wind_speed : option float;
  humidity : option float;
  aqi : option float
}.
End WeatherRequest.

Module EarthquakeRequest.
Record t := mk {
  latitude : option float;
  longitude : option float;
  magnitude : option float
}.
End EarthquakeRequest.

(** [parseFloat(v)] on a number, which it prints and reads back (a zero
    comes back as [+0]), and on [null] or [undefined], which give NaN. *)
Definition parseFloat (v : option float) : float :=
  match v with
  | Some x => if PrimFloat.eqb x 0 then 0%float else x
  | None => nan
  end.

(** [x || 0] on a number. *)
Definition or_zero (x : float) : float :=
  if falsy_number x then 0%float else x.

(** The [weatherData] object of [POST /simulate-weather]. *)
Definition simulated_weather (body : WeatherRequest.t) : WeatherData :=
  {| temperature_2m :=
       Some (or_zero (parseFloat (WeatherRequest.temperature body)));
     rain := Some (or_zero (parseFloat (WeatherRequest.rain_sum body)));
     wind_speed_10m :=
       Some (or_zero (parseFloat (WeatherRequest.wind_speed body)));
     relative_humidity_2m :=
       Some (or_zero (parseFloat (WeatherRequest.humidity body)));
     us_aqi :=
       match WeatherRequest.aqi body with
       | Some x => Some (parseFloat (Some x))
       | None => None
       end |}.

Section Simulation.

Variables Math_sin Math_cos Math_sqrt : float -> float.
Variable Math_atan2 : float -> float -> float.
Variable Number_toString : float -> string.

(** [x ** y], [Math.round] and [x.toFixed(digits)]. *)
Variable Number_exponentiate : float -> float -> float.
Variable Math_round : float -> float.
Variable Number_toFixed : float -> Z -> string.

(** [POST /simulate-weather]: the status of the response and the
    store. *)
Definition simulate_weather (body : WeatherRequest.t) (s : Store)
    : Z * Store :=
  match WeatherRequest.location_id body with
  | None => (400, s)
  | Some location_id =>
      if Z.eqb location_id 0 then (400, s)
      else
        let locationRows :=
          List.filter (fun l => Z.eqb (Location.id l) location_id)
            (locations s) in
        match locationRows with
        | [] => (404, s)
        | location :: _ =>
            (200,
             checkRulesAndAlert Number_toString location
               (Some (simulated_weather body)) None s)
        end
  end.

(** The distance [POST /simulate-earthquake] computes in its loop. *)
Definition simulated_distance (epicenterLat epicenterLon : float)
    (loc : Location.t) : float :=
  let R := 6371%float in
  let dLat := ((Location.latitude loc - epicenterLat) * Math_PI / 180)%float in
  let dLon := ((Location.longitude loc - epicenterLon) * Math_PI / 180)%float in
  let a :=
    (Number_exponentiate (Math_sin (dLat / 2)) 2 +
     Math_cos (epicenterLat * Math_PI / 180) *
     Math_cos (Location.latitude loc * Math_PI / 180) *
     Number_exponentiate (Math_sin (dLon / 2)) 2)%float in
  (R * 2 * Math_atan2 (Math_sqrt a) (Math_sqrt (1 - a)))%float.

(** The [earthquakeData] object of the simulator; [date_now] is
    [Date.now()]. *)
Definition simulated_event (epicenterLat epicenterLon mag : float)
    (date_now : Z) : EarthquakeData :=
  {| eq_id := "test-eq-" ++ decimal date_now;
     magnitude := Some mag;
     distance := None;
     place :=
       "Simulated event at (" ++ Number_toFixed epicenterLat 4 ++ ", " ++
       Number_toFixed epicenterLon 4 ++ ")";
     time := None |}.

Definition RADIUS_KM : float := 500%float.

(** The body of [for (const loc of locationRows)]: the list [affected]
    and the store.  The third argument of the call of
    [logEarthquakeData] has no parameter to receive it. *)
Definition simulate_location (epicenterLat epicenterLon : float)
    (earthquakeData : EarthquakeData)
    (acc : list (string * float) * Store) (loc : Location.t)
    : list (string * float) * Store :=
  let '(affected, s) := acc in
  let distanceKm := simulated_distance epicenterLat epicenterLon loc in
  if js_le distanceKm RADIUS_KM then
    let affected := affected ++ [(Location.name loc, Math_round distanceKm)] in
    let s := logEarthquakeData (Location.id loc) (Some earthquakeData) s in
    let s :=
      checkRulesAndAlert Number_toString loc None (Some earthquakeData) s in
    (affected, s)
  else acc.

(** [POST /simulate-earthquake]: the status of the response, the
    [affected_locations] of its body and the store. *)
Definition simulate_earthquake (body : EarthquakeRequest.t) (date_now : Z)
    (s : Store) : Z * list (string * float) * Store :=
  match EarthquakeRequest.latitude body, EarthquakeRequest.longitude body,
        EarthquakeRequest.magnitude body with
  | Some latitude, Some longitude, Some magnitude =>
      if falsy_number magnitude then (400, [], s)
      else
        let epicenterLat := parseFloat (Some latitude) in
        let epicenterLon := parseFloat (Some longitude) in
        let mag := parseFloat (Some magnitude) in
        let locationRows := select_active_locations s in
        if (length locationRows =? 0)%nat then (404, [], s)
        else
          let earthquakeData :=
            simulated_event epicenterLat epicenterLon mag date_now in
          let '(affected, s) :=
            fold_left
              (simulate_location epicenterLat epicenterLon earthquakeData)
              locationRows ([], s) in
          (200, affected, s)
  | _, _, _ => (400, [], s)
  end.

(** *** Readings left out of a weather simulation *)

Lemma or_zero_parseFloat_missing : or_zero (parseFloat None) = 0%float.
Proof. reflexivity. Qed.

Lemma rule_triggers_on_reading (rule : Rule.t) (w : WeatherData)
    (earthquakeData : option EarthquakeData) (v : option float) :
  resolve_condition rule (Some w) earthquakeData = (v, Some weather) ->
  rule_triggers rule (Some w) earthquakeData =
  match v with
  | Some x =>
      evaluate_operator (Rule.operator rule) x (Rule.threshold_value rule)
  | None => false
  end.
Proof.
  intros Hres. unfold rule_triggers. rewrite Hres. reflexivity.
Qed.

(** The rule is judged by comparing 0 with its threshold. *)
Definition judged_at_zero (body : WeatherRequest.t)
    (earthquakeData : option EarthquakeData) (rule : Rule.t) : Prop :=
  rule_triggers rule (Some (simulated_weather body)) earthquakeData =
  evaluate_operator (Rule.operator rule) 0 (Rule.threshold_value rule).

(** X21.  A weather simulation reads a reading that the request leaves
    out as 0, not as "no data": a rule on temperature, rain, wind or
    humidity is then judged by comparing 0 with its threshold (so a rule
    "temperature <= 10" triggers).  The air quality index is the one
    exception: left out, it stays [null] and a rule on it does not
    trigger, whatever its operator and threshold. *)
Theorem simulate_weather_missing_reading (body : WeatherRequest.t)
    (earthquakeData : option EarthquakeData) (rule : Rule.t) :
  (Rule.weather_condition rule = "temperature" /\
   WeatherRequest.temperature body = None ->
   judged_at_zero body earthquakeData rule) /\
  (Rule.weather_condition rule = "rain_sum" /\
   WeatherRequest.rain_sum body = None ->
   judged_at_zero body earthquakeData rule) /\
  (Rule.weather_condition rule = "wind_speed" /\
   WeatherRequest.wind_speed body = None ->
   judged_at_zero body earthquakeData rule) /\
  (Rule.weather_condition rule = "humidity" /\
   WeatherRequest.humidity body = None ->
   judged_at_zero body earthquakeData rule) /\
  (Rule.weather_condition rule = "aqi" /\
   WeatherRequest.aqi body = None ->
   rule_triggers rule (Some (simulated_weather body)) earthquakeData = false).
Proof.
  unfold judged_at_zero.
  repeat split; intros [Hc Hmissing];
    [ rewrite (rule_triggers_on_reading rule _ _
                 (Some (or_zero (parseFloat (WeatherRequest.temperature body)))))
    | rewrite (rule_triggers_on_reading rule _ _
                 (Some (or_zero (parseFloat (WeatherRequest.rain_sum body)))))
    | rewrite (rule_triggers_on_reading rule _ _
                 (Some (or_zero (parseFloat (WeatherRequest.wind_speed body)))))
    | rewrite (rule_triggers_on_reading rule _ _
                 (Some (or_zero (parseFloat (WeatherRequest.humidity body)))))
    | rewrite (rule_triggers_on_reading rule _ _ None) ];
    try (rewrite Hmissing; reflexivity);
    try reflexivity;
    unfold resolve_condition; rewrite Hc; simpl; try reflexivity;
    rewrite Hmissing; reflexivity.
Qed.

(** *** The simulated event *)

Definition manual_keys (s : Store) : list (Z * string) :=
  map log_key (List.filter EarthquakeLog.is_manual (earthquake_logs s)).

Lemma manual_keys_logEarthquakeData (locationId : Z)
    (earthquakeData : option EarthquakeData) (s : Store) :
  manual_keys (logEarthquakeData locationId earthquakeData s) = manual_keys s.
Proof.
  unfold logEarthquakeData, manual_keys.
  destruct earthquakeData as [ed|]; [|reflexivity].
  destruct (magnitude ed) as [m|]; [|reflexivity].
  destruct (existsb _ _); simpl.
  - induction (earthquake_logs s) as [|l rows IH]; simpl; [reflexivity|].
    destruct (same_quake locationId (eq_id ed) l); simpl;
      destruct (EarthquakeLog.is_manual l); simpl; rewrite ?IH; reflexivity.
  - rewrite List.filter_app. simpl. rewrite app_nil_r. reflexivity.
Qed.

Lemma manual_keys_checkRulesAndAlert (location : Location.t)
    (weatherData : option WeatherData)
    (earthquakeData : option EarthquakeData) (s : Store) :
  manual_keys
    (checkRulesAndAlert Number_toString location weatherData earthquakeData s)
  = manual_keys s.
Proof.
  pose proof (surroundings_evaluate_rules Number_toString location weatherData
                earthquakeData (select_rules (Location.id location) s) s) as H.
  unfold surroundings in H. injection H as _ _ _ _ H _ _.
  unfold manual_keys, checkRulesAndAlert. rewrite H. reflexivity.
Qed.

(** X22.  A simulated event is logged like a real one: the simulator
    passes [true] as a third argument to [logEarthquakeData], which has
    two parameters, so no row it writes is flagged [is_manual]; the
    flagged rows of the earthquake log are the same after the request as
    before. *)
Theorem simulate_earthquake_flags_no_row_manual (body : EarthquakeRequest.t)
    (date_now : Z) (s : Store) :
  manual_keys (snd (simulate_earthquake body date_now s)) = manual_keys s.
Proof.
  unfold simulate_earthquake.
  destruct (EarthquakeRequest.latitude body) as [latitude|]; [|reflexivity].
  destruct (EarthquakeRequest.longitude body) as [longitude|]; [|reflexivity].
  destruct (EarthquakeRequest.magnitude body) as [mag|]; [|reflexivity].
  destruct (falsy_number mag); [reflexivity|].
  destruct (length (select_active_locations s) =? 0)%nat; [reflexivity|].
  set (step := simulate_location _ _ _).
  assert (H : forall locs acc,
             manual_keys (snd (fold_left step locs acc)) =
             manual_keys (snd acc)).
  { induction locs as [|loc locs IH]; intros acc; simpl; [reflexivity|].
    rewrite IH. destruct acc as [affected s0]. unfold step, simulate_location.
    destruct (js_le _ RADIUS_KM); [|reflexivity].
    cbn [snd]. rewrite manual_keys_checkRulesAndAlert.
    apply manual_keys_logEarthquakeData. }
  specialize (H (select_active_locations s) ([], s)).
  destruct (fold_left step (select_active_locations s) ([], s))
    as [affected s'].
  exact H.
Qed.

(** X23.  A simulated event reaches the active locations within 500 km
    of the epicentre only: the alert rows of a location id that no active
    location within that distance has are the same after the request,
    whatever its magnitude. *)
Theorem simulate_earthquake_spares_locations_out_of_range
    (body : EarthquakeRequest.t) (date_now : Z) (s : Store) (l : Z) :
  (forall loc, In loc (select_active_locations s) -> Location.id loc = l ->
     js_le
       (simulated_distance
          (parseFloat (EarthquakeRequest.latitude body))
          (parseFloat (EarthquakeRequest.longitude body)) loc)
       RADIUS_KM = false) ->
  alerts_at l (snd (simulate_earthquake body date_now s)) = alerts_at l s.
Proof.
  intros Hout. unfold simulate_earthquake.
  destruct (EarthquakeRequest.latitude body) as [latitude|]; [|reflexivity].
  destruct (EarthquakeRequest.longitude body) as [longitude|]; [|reflexivity].
  destruct (EarthquakeRequest.magnitude body) as [mag|]; [|reflexivity].
  destruct (falsy_number mag); [reflexivity|].
  destruct (length (select_active_locations s) =? 0)%nat; [reflexivity|].
  set (step := simulate_location _ _ _).
  assert (H : forall locs acc,
             (forall loc, In loc locs -> Location.id loc = l ->
                js_le
                  (simulated_distance (parseFloat (Some latitude))
                     (parseFloat (Some longitude)) loc) RADIUS_KM = false) ->
             alerts_at l (snd (fold_left step locs acc)) =
             alerts_at l (snd acc)).
  { induction locs as [|loc locs IH]; intros acc Hall; simpl; [reflexivity|].
    rewrite IH by (intros x Hx; apply Hall; right; exact Hx).
    destruct acc as [affected s0]. unfold step, simulate_location.
    destruct (js_le _ RADIUS_KM) eqn:Hin; [|reflexivity].
    cbn [snd]. rewrite alerts_at_checkRulesAndAlert.
    - unfold alerts_at. rewrite alerts_logEarthquakeData. reflexivity.
    - intros Hl. rewrite (Hall loc (or_introl eq_refl) (eq_sym Hl)) in Hin.
      discriminate. }
  specialize (H (select_active_locations s) ([], s) Hout).
  destruct (fold_left step (select_active_locations s) ([], s))
    as [affected s'].
  exact H.
Qed.

End Simulation.

(** ** routes/adminRoutes.js: the switches *)

Section Switches.

Definition set_locations (rows : list Location.t) (s : Store) : Store :=
  {| locations := rows; disasters := disasters s;
     alert_rules := alert_rules s; alerts := alerts s;
     alerts_auto_increment := alerts_auto_increment s;
     weather_logs := weather_logs s; earthquake_logs := earthquake_logs s;
     settings := settings s; now := now s |}.

Definition set_disasters (rows : list Disaster.t) (s : Store) : Store :=
  {| locations := locations s; disasters := rows;
     alert_rules := alert_rules s; alerts := alerts s;
     alerts_auto_increment := alerts_auto_increment s;
     weather_logs := weather_logs s; earthquake_logs := earthquake_logs s;
     settings := settings s; now := now s |}.

Definition set_alert_rules (rows : list Rule.t) (s : Store) : Store :=
  {| locations := locations s; disasters := disasters s;
     alert_rules := rows; alerts := alerts s;
     alerts_auto_increment := alerts_auto_increment s;
     weather_logs := weather_logs s; earthquake_logs := earthquake_logs s;
     settings := settings s; now := now s |}.

(** [PUT /locations/:id/toggle]:
    [UPDATE locations SET is_active = NOT is_active WHERE id = ?] *)
Definition toggle_location (id : Z) (s : Store) : Store :=
  set_locations
    (map (fun l =>
            if Z.eqb (Location.id l) id then
              {| Location.id := Location.id l;
                 Location.name := Location.name l;
                 Location.latitude := Location.latitude l;
                 Location.longitude := Location.longitude l;
                 Location.is_active := negb (Location.is_active l) |}
            else l) (locations s)) s.

(** [PUT /disasters/:id/toggle] *)
Definition toggle_disaster (id : Z) (s : Store) : Store :=
  set_disasters
    (map (fun d =>
            if Z.eqb (Disaster.id d) id then
              {| Disaster.id := Disaster.id d;
                 Disaster.name := Disaster.name d;
                 Disaster.is_active := negb (Disaster.is_active d) |}
            else d) (disasters s)) s.

(** [PUT /rules/:id/toggle] *)
Definition toggle_rule (id : Z) (s : Store) : Store :=
  set_alert_rules
    (map (fun r =>
            if Z.eqb (Rule.id r) id then
              {| Rule.id := Rule.id r;
                 Rule.location_id := Rule.location_id r;
                 Rule.disaster_id := Rule.disaster_id r;
                 Rule.weather_condition := Rule.weather_condition r;
                 Rule.threshold_value := Rule.threshold_value r;
                 Rule.operator := Rule.operator r;
                 Rule.severity_level := Rule.severity_level r;
                 Rule.message_template := Rule.message_template r;
                 Rule.is_active := negb (Rule.is_active r) |}
            else r) (alert_rules s)) s.

Lemma map_involution {A : Type} (f : A -> A) (rows : list A) :
  (forall a, f (f a) = a) -> map f (map f rows) = rows.
Proof.
  intros Hf. rewrite map_map. rewrite <- (map_id rows) at 2.
  apply map_ext. exact Hf.
Qed.

(** X24.  The three switches of the admin panel undo themselves: toggling
    a location, a disaster or a rule twice gives back the store the first
    request found, whatever the id and whether or not a row has it. *)
Theorem toggles_undo_themselves (id : Z) (s : Store) :
  toggle_location id (toggle_location id s) = s /\
  toggle_disaster id (toggle_disaster id s) = s /\
  toggle_rule id (toggle_rule id s) = s.
Proof.
  destruct s as [ls ds rs als n wl el st t].
  unfold toggle_location, toggle_disaster, toggle_rule, set_locations,
    set_disasters, set_alert_rules. simpl.
  repeat split; f_equal; apply map_involution.
  - intros [i nm la lo act]. simpl.
    destruct (Z.eqb_spec i id) as [E|E]; simpl.
    + apply Z.eqb_eq in E. rewrite E, negb_involutive. reflexivity.
    + apply Z.eqb_neq in E. rewrite E. reflexivity.
  - intros [i nm act]. simpl.
    destruct (Z.eqb_spec i id) as [E|E]; simpl.
    + apply Z.eqb_eq in E. rewrite E, negb_involutive. reflexivity.
    + apply Z.eqb_neq in E. rewrite E. reflexivity.
  - intros [i l d c th op sev msg act]. simpl.
    destruct (Z.eqb_spec i id) as [E|E]; simpl.
    + apply Z.eqb_eq in E. rewrite E, negb_involutive. reflexivity.
    + apply Z.eqb_neq in E. rewrite E. reflexivity.
Qed.

End Switches.

(** * The further properties on the seed data *)

(** The runtime of the simulator routes, on [Sample]. *)
Module SampleAdmin.

(** [x ** y] for the squares the simulator takes. *)
Definition exponentiate (x y : float) : float :=
  if PrimFloat.eqb y 2 then (x * x)%float else nan.

Definition of_Z (negative : bool) (z : Z) : float :=
  let x := PrimFloat.of_uint63 (Uint63.of_Z (Z.abs z)) in
  if negative then (- x)%float else x.

(** [Math.round]: the integer nearest to [x], the greater one from a
    half. *)
Definition round (x : float) : float :=
  match Prim2SF x with
  | S754_finite s m e =>
      if Z.leb 0 e then x
      else
        let k := (- e)%Z in
        let num := if s then Zneg m else Zpos m in
        let z := ((2 * num + 2 ^ k) / 2 ^ (k + 1))%Z in
        if Z.eqb z 0 then (if s then (- 0)%float else 0%float)
        else of_Z (Z.ltb z 0) z
  | _ => x
  end.

Definition fixed (negative : bool) (n fractionDigits : Z) : string :=
  let f := Z.to_nat fractionDigits in
  let ds := Sample.digits_of n in
  let ds := (Sample.zeros (S f - String.length ds)%nat ++ ds)%string in
  let whole := substring 0 (String.length ds - f)%nat ds in
  let frac := substring (String.length ds - f)%nat f ds in
  ((if negative then "-" else "") ++ whole ++
   (if Nat.eqb f 0 then "" else "." ++ frac))%string.

(** [x.toFixed(fractionDigits)] below 1e21. *)
Definition toFixed (x : float) (fractionDigits : Z) : string :=
  match Prim2SF x with
  | S754_nan => "NaN"
  | S754_infinity s => if s then "-Infinity" else "Infinity"
  | S754_zero _ => fixed false 0 fractionDigits
  | S754_finite s m e =>
      let n :=
        if Z.leb 0 e then (Zpos m * 2 ^ e * 10 ^ fractionDigits)%Z
        else
          let k := (- e)%Z in
          ((2 * Zpos m * 10 ^ fractionDigits + 2 ^ k) / 2 ^ (k + 1))%Z in
      fixed s n fractionDigits
  end.

Definition simulate_weather := simulate_weather Sample.toString.
Definition simulate_earthquake :=
  simulate_earthquake Sample.sin Sample.cos PrimFloat.sqrt Sample.atan2
    Sample.toString exponentiate round toFixed.
Definition simulated_distance :=
  simulated_distance Sample.sin Sample.cos PrimFloat.sqrt Sample.atan2
    exponentiate.

End SampleAdmin.

Section FurtherExamples.

Import Seed.

Local Set Warnings "-inexact-float".

Example sample_number_formats :
  SampleAdmin.toFixed 23.8103 4 = "23.8103" /\
  SampleAdmin.toFixed (-0.00001) 4 = "-0.0000" /\
  SampleAdmin.toFixed 91 4 = "91.0000" /\
  SampleAdmin.round 575.5 = 576%float /\
  SampleAdmin.round (-2.5) = (-2)%float /\
  SampleAdmin.round 0.25 = 0%float.
Proof. vm_compute. repeat split; reflexivity. Qed.

(** X3 on the seed data: a dry reading after the rain. *)
Lemma alert_ids_fresh_after_dry_cycle :
  NoDup
    (map Alert.id
       (alerts (Sample.checkRulesAndAlert Dhaka (Some dry) None after_rain))) /\
  Forall
    (fun a =>
       Alert.id a <
       alerts_auto_increment
         (Sample.checkRulesAndAlert Dhaka (Some dry) None after_rain))
    (alerts (Sample.checkRulesAndAlert Dhaka (Some dry) None after_rain)).
Proof.
  apply (checkRulesAndAlert_ids_fresh Sample.toString Dhaka (Some dry) None
           after_rain).
  - apply (bool_decide_unpack _). vm_compute. exact I.
  - vm_compute. repeat constructor.
Defined.

(** The store after the rain with Flash Flood switched off. *)
Definition flood_switched_off : Store := toggle_disaster Flash_Flood after_rain.

(** X4 on the seed data: with Flash Flood switched off, a dry reading does
    not clear its alert. *)
Lemma switched_off_flood_alert_stays :
  map Alert.severity
    (active_alerts Flash_Flood (Location.id Dhaka)
       (Sample.checkRulesAndAlert Dhaka (Some dry) None flood_switched_off))
  = ["Medium"] /\
  alerts_of_disaster Flash_Flood
    (Sample.checkRulesAndAlert Dhaka (Some dry) None flood_switched_off) =
  alerts_of_disaster Flash_Flood flood_switched_off.
Proof.
  split; [vm_compute; reflexivity|].
  apply (checkRulesAndAlert_inactive_disaster_frozen Sample.toString Dhaka
           (Some dry) None flood_switched_off Flash_Flood).
  intros dis Hin Hd.
  assert (Hall :
    forallb (fun dis => implb (Z.eqb (Disaster.id dis) Flash_Flood)
                          (negb (Disaster.is_active dis)))
      (disasters flood_switched_off) = true)
    by (vm_compute; reflexivity).
  rewrite forallb_forall in Hall. specialize (Hall dis Hin).
  rewrite Hd, Z.eqb_refl in Hall. simpl in Hall.
  apply negb_true_iff in Hall. exact Hall.
Defined.

(** X5 on the seed data: the four earthquake tiers trigger on the quake
    and one row carries its id. *)
Lemma quake_has_one_row :
  (length
     (select_by_external_id (eq_id quake_data) (Location.id Dhaka)
        (Sample.checkRulesAndAlert Dhaka (Some rainy) (Some quake_data)
           seeded)) <= 1)%nat.
Proof.
  apply (checkRulesAndAlert_one_row_per_event Sample.toString Dhaka
           (Some rainy) quake_data seeded).
  vm_compute. lia.
Defined.


(** X7 on the seed data: a rainy weather cycle and a cycle with the
    quake. *)
Lemma at_most_one_active_after_loops :
  at_most_one_active
    (store (Sample.weatherLoop fetchWeatherData (scheduler seeded None))) /\
  at_most_one_active
    (store (Sample.earthquakeLoop [quake] 0 (scheduler seeded None))).
Proof.
  apply (loops_keep_at_most_one_active Sample.sin Sample.cos PrimFloat.sqrt
           Sample.atan2 Sample.toString fetchWeatherData [quake] 0
           (scheduler seeded None)).
  intros d l. simpl. lia.
Defined.

(** X8 on the seed data: the provider is down while a Flash Flood alert
    is active. *)
Lemma provider_down_keeps_flood_alert :
  Sample.runWeatherCheck (fun _ _ => None) (scheduler after_rain None) =
  scheduler after_rain None.
Proof.
  apply (runWeatherCheck_provider_down Sample.sin Sample.cos PrimFloat.sqrt
           Sample.atan2 Sample.toString (fun _ _ => None)
           (scheduler after_rain None)).
  intros location _. reflexivity.
Defined.

(** A magnitude 8 event near Tokyo. *)
Definition far_quake : Feature :=
  {| feature_id := "far"; coordinates := [139.75; 35.5; 30]%float;
     mag := Some 8%float; feature_place := "Tokyo"; feature_time := 2 |}.

(** X9 on the seed data: the only event of the feed is near Tokyo. *)
Lemma far_quake_changes_only_the_cache :
  runEarthquakeCheck Sample.sin Sample.cos PrimFloat.sqrt Sample.atan2
    Sample.toString [far_quake] 5000 (scheduler after_rain None) =
  {| store := after_rain; cachedEarthquakes := Some [far_quake];
     earthquakeFetchTime := Some 5000;
     weatherTimer := None; earthquakeTimer := None |}.
Proof.
  assert (Hout :
    forall location,
      In location (select_active_locations (store (scheduler after_rain None))) ->
      Forall
        (fun eq =>
           js_le
             (event_distance Sample.sin Sample.cos PrimFloat.sqrt Sample.atan2
                (Location.latitude location) (Location.longitude location) eq)
             default_radiusKm = false) [far_quake]).
  { intros location Hin.
    assert (Hall :
      forallb
        (fun location =>
           forallb
             (fun eq =>
                negb (js_le
                        (event_distance Sample.sin Sample.cos PrimFloat.sqrt
                           Sample.atan2 (Location.latitude location)
                           (Location.longitude location) eq)
                        default_radiusKm)) [far_quake])
        (select_active_locations (store (scheduler after_rain None))) = true)
      by (vm_compute; reflexivity).
    rewrite forallb_forall in Hall. specialize (Hall location Hin).
    apply List.Forall_forall. intros eq Heq.
    rewrite forallb_forall in Hall. specialize (Hall eq Heq).
    apply negb_true_iff in Hall. exact Hall. }
  rewrite (runEarthquakeCheck_nothing_in_range Sample.sin Sample.cos
             PrimFloat.sqrt Sample.atan2 Sample.toString [far_quake] 5000
             (scheduler after_rain None) Hout).
  reflexivity.
Defined.

(** The store after rain at Chittagong, with Chittagong switched off. *)
Definition chittagong_switched_off : Store :=
  toggle_location (Location.id Chittagong)
    (Sample.checkRulesAndAlert Chittagong (Some rainy) None seeded).

(** X10 on the seed data: Chittagong is switched off while its Flash
    Flood alert is active; a dry weather cycle leaves the alert up. *)
Lemma switched_off_location_keeps_alert :
  map Alert.is_active
    (alerts_at (Location.id Chittagong)
       (store (Sample.runWeatherCheck (fun _ _ => Some dry)
                 (scheduler chittagong_switched_off None)))) =
  [false; true] /\
  alerts_at (Location.id Chittagong)
    (store (Sample.runWeatherCheck (fun _ _ => Some dry)
              (scheduler chittagong_switched_off None))) =
  alerts_at (Location.id Chittagong) chittagong_switched_off.
Proof.
  split; [vm_compute; reflexivity|].
  apply (cycles_skip_inactive_locations Sample.sin Sample.cos PrimFloat.sqrt
           Sample.atan2 Sample.toString (fun _ _ => Some dry) [] 0
           (scheduler chittagong_switched_off None) (Location.id Chittagong)).
  intros location Hin Hid.
  assert (Hall :
    forallb (fun location =>
               implb (Z.eqb (Location.id location) (Location.id Chittagong))
                 (negb (Location.is_active location)))
      (locations (store (scheduler chittagong_switched_off None))) = true)
    by (vm_compute; reflexivity).
  rewrite forallb_forall in Hall. specialize (Hall location Hin).
  rewrite Hid, Z.eqb_refl in Hall. simpl in Hall.
  apply negb_true_iff in Hall. exact Hall.
Defined.

(** X12 on the seed data: a second reading in the same second. *)
Lemma second_reading_is_dropped :
  ForallOrdPairs apart
    (weather_logs
       (logWeatherData 1 (Some dry) None
          (logWeatherData 1 (Some rainy) None seeded))) /\
  length
    (weather_logs
       (logWeatherData 1 (Some dry) None
          (logWeatherData 1 (Some rainy) None seeded))) = 1%nat.
Proof.
  split; [|vm_compute; reflexivity].
  apply (logWeatherData_keeps_readings_apart 1 (Some dry) None
           (logWeatherData 1 (Some rainy) None seeded)).
  vm_compute. repeat constructor.
Defined.


(** The quake as the feed reports it before a magnitude is assigned. *)
Definition unrated_quake : EarthquakeData :=
  {| eq_id := "us7000n1xy"; magnitude := None; distance := Some 77%float;
     place := "12 km NE of Sylhet"; time := Some 1700000000000 |}.

(** X14 on the seed data. *)
Lemma unrated_quake_is_ignored :
  logEarthquakeData (Location.id Dhaka) (Some unrated_quake) after_rain =
  after_rain /\
  Sample.checkRulesAndAlert Dhaka None (Some unrated_quake) after_rain =
  after_rain.
Proof.
  apply (null_magnitude_event_is_ignored Sample.toString Dhaka unrated_quake
           after_rain).
  reflexivity.
Defined.


(** X17 on the seed data: the second entry of the request is refused;
    the first is written. *)
Lemma refused_request_wrote_first_entry :
  put_settings
    [ ("weather_fetch_interval", "60"); ("earthquake_fetch_interval", "10");
      ("site_name", "11th Hour") ] seeded =
  (400, set_settings (<[ "weather_fetch_interval" := "60" ]> ∅) seeded).
Proof.
  apply (put_settings_refusal_keeps_earlier_entries
           [("weather_fetch_interval", "60")] [("site_name", "11th Hour")]
           "earthquake_fetch_interval" "10" seeded); reflexivity.
Defined.

(** X18 on the seed data. *)
Lemma accepted_intervals_read_back :
  getSetting "weather_fetch_interval" 300
    (snd (put_settings
            [ ("weather_fetch_interval", "60");
              ("earthquake_fetch_interval", "45") ] seeded)) = Some 60 /\
  30 <= 60.
Proof.
  destruct (put_settings_read_back
              [ ("weather_fetch_interval", "60");
                ("earthquake_fetch_interval", "45") ] seeded) as [Hin _].
  - reflexivity.
  - apply (bool_decide_unpack _). vm_compute. exact I.
  - destruct (Hin "weather_fetch_interval" "60") as [Hget Hmin].
    + left. reflexivity.
    + assert (Hread :
        getSetting "weather_fetch_interval" 300
          (snd (put_settings
                  [ ("weather_fetch_interval", "60");
                    ("earthquake_fetch_interval", "45") ] seeded)) = Some 60)
        by (unfold getSetting; rewrite Hget; reflexivity).
      split; [exact Hread|].
      exact (Hmin eq_refl 300 60 Hread).
Defined.

(** The quake reported a second time under another id. *)
Definition quake_again : Feature :=
  {| feature_id := "us7000n1xz"; coordinates := [91; 24.25; 10]%float;
     mag := Some 6.75%float; feature_place := "12 km NE of Sylhet";
     feature_time := 1700000000500 |}.

(** X19 on the seed data: two events of magnitude 6.75 in range; the
    first is returned. *)
Lemma first_of_two_equal_quakes :
  exists before eq after,
    [quake; quake_again] = before ++ eq :: after /\
    quake_data =
    candidate Sample.sin Sample.cos PrimFloat.sqrt Sample.atan2
      (Location.latitude Dhaka) (Location.longitude Dhaka) eq /\
    js_le
      (event_distance Sample.sin Sample.cos PrimFloat.sqrt Sample.atan2
         (Location.latitude Dhaka) (Location.longitude Dhaka) eq)
      default_radiusKm = true /\
    Forall
      (fun c =>
         js_le
           (event_distance Sample.sin Sample.cos PrimFloat.sqrt Sample.atan2
              (Location.latitude Dhaka) (Location.longitude Dhaka) c)
           default_radiusKm = true ->
         js_lt (ToNumber (mag c)) (ToNumber (mag eq)) = true) before /\
    Forall
      (fun c =>
         js_le
           (event_distance Sample.sin Sample.cos PrimFloat.sqrt Sample.atan2
              (Location.latitude Dhaka) (Location.longitude Dhaka) c)
           default_radiusKm = true ->
         js_le (ToNumber (mag c)) (ToNumber (mag eq)) = true) after.
Proof.
  apply (checkEarthquakesNearLocation_first_of_strongest Sample.sin Sample.cos
           PrimFloat.sqrt Sample.atan2 [quake; quake_again]
           (Location.latitude Dhaka) (Location.longitude Dhaka)
           default_radiusKm quake_data).
  - repeat constructor.
  - vm_compute. reflexivity.
Defined.


(** An event of magnitude 7 off the coast of Myanmar, about 360 km from
    Chittagong and 580 km from Dhaka. *)
Definition off_the_coast : EarthquakeRequest.t :=
  {| EarthquakeRequest.latitude := Some 19.5%float;
     EarthquakeRequest.longitude := Some 93.5%float;
     EarthquakeRequest.magnitude := Some 7%float |}.

(** X23 on the seed data: the simulation alerts Chittagong and leaves
    the rows of Dhaka as they are. *)
Lemma simulation_spares_dhaka :
  fst (SampleAdmin.simulate_earthquake off_the_coast 1700000000000 after_rain)
  = (200, [("Chittagong", 364%float)]) /\
  alerts_at (Location.id Dhaka)
    (snd (SampleAdmin.simulate_earthquake off_the_coast 1700000000000
            after_rain)) =
  alerts_at (Location.id Dhaka) after_rain.
Proof.
  split; [vm_compute; reflexivity|].
  apply (simulate_earthquake_spares_locations_out_of_range Sample.sin
           Sample.cos PrimFloat.sqrt Sample.atan2 Sample.toString
           SampleAdmin.exponentiate SampleAdmin.round SampleAdmin.toFixed
           off_the_coast 1700000000000 after_rain (Location.id Dhaka)).
  intros loc Hin Hid.
  assert (Hall :
    forallb
      (fun loc =>
         implb (Z.eqb (Location.id loc) (Location.id Dhaka))
           (negb (js_le
                    (SampleAdmin.simulated_distance
                       (parseFloat (EarthquakeRequest.latitude off_the_coast))
                       (parseFloat (EarthquakeRequest.longitude off_the_coast))
                       loc) RADIUS_KM)))
      (select_active_locations after_rain) = true)
    by (vm_compute; reflexivity).
  rewrite forallb_forall in Hall. specialize (Hall loc Hin).
  rewrite Hid, Z.eqb_refl in Hall. simpl in Hall.
  apply negb_true_iff in Hall. exact Hall.
Defined.

End FurtherExamples.
